(** * Google Drive inventory tools: a shallow embedding of the crawl scripts

    The repository is a family of Google Apps Script programs that walk a
    Drive in batches, classify and score every file, accumulate bounded
    statistics and persist a checkpoint in the script property store between
    batches.  This development embeds, script by script, the functions the
    specification talks about and states the specification's testable
    properties against them.

    Layout
    - [JS], [Arr], [Drive], [Host]: strings, exceptions, arrays and counting
      maps, file handles, JSON text and the property store.
    - [Complete], [Optimized], [Documents], [SharedAudit], [LargeFiles],
      [CodeFiles]: one module per script, with the script's own names.
    - [Samples]: concrete files, records and worlds.
    - Then the facts: type detection, scores, bounded lists, duplicate
      candidates, per-file errors, the batch decision, the checkpoint.
    - Further properties of the scripts: pages of the listing, counters,
      extraction, the optimized run, the document inventory, the
      shared-files audit, the large-files finder, the code inventory, and
      the continuous run of the complete inventory.

    Conventions of the embedding
    - JavaScript numbers that hold byte counts, counters, scores, days and
      millisecond instants are integers in the scripts; they are [Z] here.
      A test [x / d > c] on such an integer with a positive constant [d] is
      written [x > c * d].
    - JavaScript strings are [string].  [toLowerCase] and [toUpperCase] are
      JavaScript's on strings of ASCII characters ([isAscii]); the Unicode
      case mapping of other characters is not modelled, and a statement
      that depends on the case of an arbitrary name assumes an ASCII name.
    - A call into the Drive, Spreadsheet or Properties service that can throw
      is a value of [Exc]; [try]/[catch] is a match on it.  Functions that
      mutate the statistics object in place before throwing return the
      mutated statistics together with the outcome.
    - A JavaScript object used as a map is an association list in insertion
      order (the order [Object.entries] enumerates non-numeric keys in).  A
      read of an object literal used as a lookup table also sees the members
      inherited from [Object.prototype], and so do the project counter and
      the repository map of the code inventory, whose keys are folder
      names. *)

From Stdlib Require Import ZArith List String Ascii Bool Lia Arith.
From Stdlib Require Import Sorting.Sorted Sorting.Permutation.
From Stdlib Require Import DecimalString DecimalPos DecimalZ.
Import ListNotations.
Open Scope string_scope.
Open Scope Z_scope.

(* ===================================================================== *)
(** ** JavaScript helpers *)
(* ===================================================================== *)

Module JS.

(** *** Exceptions *)

Inductive Exc (A : Type) : Type :=
| Ret (a : A)
| Throw (msg : string).
Arguments Ret {A} a.
Arguments Throw {A} msg.

Definition bind {A B} (m : Exc A) (k : A -> Exc B) : Exc B :=
  match m with
  | Ret a => k a
  | Throw e => Throw e
  end.

Definition catch {A} (m : Exc A) (h : string -> Exc A) : Exc A :=
  match m with
  | Ret a => Ret a
  | Throw e => h e
  end.

Declare Scope exc_scope.
Delimit Scope exc_scope with exc.
Notation "'let*' x ':=' m 'in' k" := (bind m (fun x => k))
  (at level 10, x name, m at level 100, k at level 200) : exc_scope.

(** *** Strings *)

Definition lower_ascii (c : ascii) : ascii :=
  let n := nat_of_ascii c in
  if ((65 <=? n) && (n <=? 90))%nat then ascii_of_nat (n + 32) else c.

Definition upper_ascii (c : ascii) : ascii :=
  let n := nat_of_ascii c in
  if ((97 <=? n) && (n <=? 122))%nat then ascii_of_nat (n - 32) else c.

(** Whether every character of the string is an ASCII character. *)
Fixpoint isAscii (s : string) : bool :=
  match s with
  | EmptyString => true
  | String c r => (nat_of_ascii c <? 128)%nat && isAscii r
  end.

(** [s.toLowerCase()] and [s.toUpperCase()] for a string of ASCII
    characters.  On other characters JavaScript follows the Unicode case
    mapping (the Kelvin sign lower-cases to [k], the long s upper-cases to
    [S]), which these two functions do not: they leave such characters as
    they are. *)
Fixpoint toLowerCase (s : string) : string :=
  match s with
  | EmptyString => EmptyString
  | String c r => String (lower_ascii c) (toLowerCase r)
  end.

Fixpoint toUpperCase (s : string) : string :=
  match s with
  | EmptyString => EmptyString
  | String c r => String (upper_ascii c) (toUpperCase r)
  end.

(** [s.startsWith(p)] *)
Definition startsWith (s p : string) : bool := String.prefix p s.

(** [s.includes(sub)] *)
Fixpoint includes (s sub : string) : bool :=
  String.prefix sub s ||
  match s with
  | EmptyString => false
  | String _ r => includes r sub
  end.

(** [s.split(sep)] for a one-character separator: never the empty list. *)
Fixpoint split (sep : ascii) (s : string) : list string :=
  match s with
  | EmptyString => [EmptyString]
  | String c r =>
      if Ascii.eqb c sep then EmptyString :: split sep r
      else match split sep r with
           | [] => [String c EmptyString]
           | h :: t => String c h :: t
           end
  end.

(** [a.pop()] on the array [s.split(sep)] returns its last element. *)
Definition pop (l : list string) : string := List.last l EmptyString.

(** [s.replace(pat, rep)] with a string pattern: the first occurrence only. *)
Definition replace (s pat rep : string) : string :=
  match String.index 0 pat s with
  | None => s
  | Some i =>
      String.substring 0 i s ++ rep ++
      String.substring (i + String.length pat)
                       (String.length s - (i + String.length pat)) s
  end.

(** [s.charAt(0).toUpperCase() + s.slice(1)] *)
Definition capitalize (s : string) : string :=
  match s with
  | EmptyString => EmptyString
  | String c r => String (upper_ascii c) r
  end.

(** [a.join(sep)] *)
Definition join (sep : string) (l : list string) : string := String.concat sep l.

(** Whether the character occurs in the string. *)
Fixpoint occurs (c : ascii) (s : string) : bool :=
  match s with
  | EmptyString => false
  | String a r => Ascii.eqb a c || occurs c r
  end.

(** Decimal rendering of an integer, as string interpolation prints it. *)
Definition string_of_Z (z : Z) : string := NilZero.string_of_int (Z.to_int z).

(** *** Values and property lookup

    A property read [o[k]] on an object literal first looks at the literal's
    own properties and then at [Object.prototype].  The members every plain
    object inherits are listed in [Object_prototype]; reading one of them
    yields a function (or, for [__proto__], the prototype object), which is
    neither a string nor falsy. *)

Inductive value : Type :=
| VString (s : string)
| VInherited (member : string).

Definition Object_prototype : list string :=
  [ "constructor"; "__proto__"; "__defineGetter__"; "__defineSetter__";
    "__lookupGetter__"; "__lookupSetter__"; "hasOwnProperty"; "isPrototypeOf";
    "propertyIsEnumerable"; "toLocaleString"; "toString"; "valueOf" ].

Fixpoint assoc {V} (k : string) (o : list (string * V)) : option V :=
  match o with
  | [] => None
  | (k', v) :: r => if String.eqb k k' then Some v else assoc k r
  end.

Definition mem (k : string) (l : list string) : bool :=
  existsb (String.eqb k) l.

(** [literal[k]]; [None] is [undefined]. *)
Definition get (literal : list (string * string)) (k : string) : option value :=
  match assoc k literal with
  | Some v => Some (VString v)
  | None => if mem k Object_prototype then Some (VInherited k) else None
  end.

Definition truthy (v : value) : bool :=
  match v with
  | VString EmptyString => false
  | _ => true
  end.

(** [a || b], where [a] may be [undefined] *)
Definition or_else (a : option value) (b : value) : value :=
  match a with
  | Some v => if truthy v then v else b
  | None => b
  end.

(** The string a value turns into when it is used as a property key or
    written to a cell. *)
Definition to_key (v : value) : string :=
  match v with
  | VString s => s
  | VInherited m =>
      if String.eqb m "__proto__" then "[object Object]"
      else "function " ++ (if String.eqb m "constructor" then "Object" else m)
                       ++ "() { [native code] }"
  end.

End JS.

Import JS.

(* ===================================================================== *)
(** ** Type detection ([getFileType], [getFileTypeSimple]) *)
(* ===================================================================== *)

Module FileType.

Definition google_prefix : string := "application/vnd.google-apps.".

(** The body shared by every copy of [getFileType]: the copies differ only in
    the extension table. *)
Definition classify (typeMap : list (string * string))
           (fileName mimeType : string) : value :=
  if startsWith mimeType google_prefix then
    let googleType := replace mimeType google_prefix "" in
    VString ("Google " ++ capitalize googleType)
  else
    let extension := toLowerCase (pop (split "." fileName)) in
    or_else (get typeMap extension)
      (or_else (Some (VString (toUpperCase extension))) (VString "Unknown")).

End FileType.

(* ===================================================================== *)
(** ** Arrays: stable sort, bounded lists, counting maps *)
(* ===================================================================== *)

Module Arr.

Section Ranked.
Context {A : Type} (key : A -> Z).

(** [a.sort((x, y) => key(y) - key(x))].  [Array.prototype.sort] is stable,
    so its result is determined by the array: it is the one the insertion
    sort below computes. *)
Fixpoint insert (x : A) (l : list A) : list A :=
  match l with
  | [] => [x]
  | y :: r => if key x <? key y then y :: insert x r else x :: l
  end.

Definition sortDesc (l : list A) : list A := fold_right insert [] l.

(** The position a new last element takes: behind every element that
    ranks at least as high. *)
Fixpoint place (x : A) (l : list A) : list A :=
  match l with
  | [] => [x]
  | y :: r => if key y <? key x then x :: l else y :: place x r
  end.

Definition descending (l : list A) : Prop :=
  StronglySorted (fun a b => key b <= key a) l.

(** [a.push(x); a.sort(...); a = a.slice(0, cap)] *)
Definition pushSortSlice (cap : nat) (x : A) (l : list A) : list A :=
  firstn cap (sortDesc (l ++ [x])).
End Ranked.

(** [if (a.length < cap) a.push(x)] *)
Definition pushIfRoom {A} (cap : nat) (x : A) (l : list A) : list A :=
  if (List.length l <? cap)%nat then (l ++ [x])%list else l.

(** [o[k] = v] on an object used as a map *)
Fixpoint set {V} (k : string) (v : V) (o : list (string * V)) : list (string * V) :=
  match o with
  | [] => [(k, v)]
  | (k', v') :: r => if String.eqb k k' then (k, v) :: r else (k', v') :: set k v r
  end.

(** [o[k] = (o[k] || 0) + 1].  Keys that name a member of
    [Object.prototype] are outside this model of the counting maps. *)
Definition bump (k : string) (o : list (string * Z)) : list (string * Z) :=
  match assoc k o with
  | Some n => set k (n + 1) o
  | None => set k 1 o
  end.

(** [[...new Set(a)]]: the first occurrence of every element, in order. *)
Fixpoint unique (a : list string) : list string :=
  match a with
  | [] => []
  | x :: r => x :: filter (fun y => negb (String.eqb y x)) (unique r)
  end.

(** The sum of the counters of a counting map. *)
Definition total (o : list (string * Z)) : Z :=
  fold_right (fun kv n => snd kv + n) 0 o.

(** Whether [o[k]] finds no property of [o] itself but a member that a
    plain object inherits from [Object.prototype]. *)
Definition inherited {V} (k : string) (o : list (string * V)) : bool :=
  match assoc k o with
  | Some _ => false
  | None => mem k Object_prototype
  end.

(** A value of a counting map under a key that may name a member of
    [Object.prototype]: a number, or the text that [(o[k] || 0) + 1] is
    when [o[k]] is such a member or a text. *)
Inductive tally :=
| Number (n : Z)
| Text (s : string).

(** [o[k] = (o[k] || 0) + 1] on a plain object, with the members it
    inherits: an inherited function or object is truthy and [+ 1] turns it
    into text; assigning a text to [__proto__] changes nothing. *)
Definition bumpAny (k : string) (o : list (string * tally)) : list (string * tally) :=
  match assoc k o with
  | Some (Number n) => set k (Number (n + 1)) o
  | Some (Text s) =>
      if String.eqb s "" then set k (Number 1) o
      else set k (Text (s ++ "1")%string) o
  | None =>
      if mem k Object_prototype then
        if String.eqb k "__proto__" then o
        else set k (Text (to_key (VInherited k) ++ "1")%string) o
      else set k (Number 1) o
  end.

(** The number of entries a grouping map holds under all its keys. *)
Definition members {V} (o : list (string * list V)) : nat :=
  fold_right (fun kv n => (List.length (snd kv) + n)%nat) 0%nat o.

End Arr.

(* ===================================================================== *)
(** ** The Drive service *)
(* ===================================================================== *)

Module Drive.

(** A [Date]: the instant, its ISO rendering and its calendar year. *)
Record Date := {
  getTime : Z;
  toISOString : string;
  getFullYear : Z
}.

(** A file handle.  Every accessor is a remote call and may throw.
    [getParents] stands for the walk along first parents: the names of the
    ancestors, nearest first. *)
Record File := {
  getId : Exc string;
  getName : Exc string;
  getMimeType : Exc string;
  getSize : Exc Z;
  getDateCreated : Exc Date;
  getLastUpdated : Exc Date;
  getOwner : Exc (option string);
  getUrl : Exc string;
  getDescription : Exc string;
  getParents : Exc (list string);
  getSharingAccess : Exc string;
  getSharingPermission : Exc string;
  getViewers : Exc (list string);
  getEditors : Exc (list string);
  isTrashed : Exc bool
}.

(** A file iterator is the list of files it has yet to return; a
    continuation token is the number of files already returned. *)
Definition Token := nat.

Definition continueFileIterator (drive : list File) (t : Token) : list File :=
  skipn t drive.

(** [pathParts.length > 0 ? pathParts.join('/') : 'Root'], with [depth]
    grandparents above the first parent; ['Unknown'] when the walk throws. *)
Definition folderPath (depth : nat) (f : File) : string :=
  match getParents f with
  | Ret [] => "Root"
  | Ret l => join "/" (rev (firstn (S depth) l))
  | Throw _ => "Unknown"
  end.

Definition ownerEmail (o : option string) : string :=
  match o with
  | Some e => e
  | None => "Unknown"
  end.

Definition msPerDay : Z := 1000 * 60 * 60 * 24.

End Drive.

Import Drive.

(* ===================================================================== *)
(** ** The property store and the spreadsheet *)
(* ===================================================================== *)

Module Host.

(** The statuses [updateInventoryStatus] has a colour for. *)
Inductive Status := RUNNING | PAUSED | COMPLETE | ERROR.

(** JSON text of the values the scripts persist. *)
#[local] Unset Elimination Schemes.
Inductive json :=
| JNum (n : Z)
| JStr (s : string)
| JBool (b : bool)
| JArr (l : list json)
| JObj (l : list (string * json)).
#[local] Set Elimination Schemes.

Definition quote : string := String (ascii_of_nat 34) EmptyString.

(** Only the quote and the backslash are escaped here; the control
    characters, which [JSON.stringify] escapes too, do not occur in the
    names and addresses of the samples. *)
Fixpoint escape (s : string) : string :=
  match s with
  | EmptyString => EmptyString
  | String c r =>
      let n := nat_of_ascii c in
      if ((n =? 34) || (n =? 92))%nat then String (ascii_of_nat 92) (String c (escape r))
      else String c (escape r)
  end.

Definition quoted (s : string) : string := quote ++ escape s ++ quote.

Fixpoint stringify (j : json) : string :=
  match j with
  | JNum n => string_of_Z n
  | JStr s => quoted s
  | JBool b => if b then "true" else "false"
  | JArr l => "[" ++ join "," (map stringify l) ++ "]"
  | JObj l =>
      "{" ++ join "," (map (fun kv => quoted (fst kv) ++ ":" ++ stringify (snd kv)) l) ++ "}"
  end.

(** [setProperty] throws, and leaves the store as it was, when the text
    is longer than the store takes for one value. *)
Definition fits (quota : nat) (text : string) : bool :=
  (String.length text <=? quota)%nat.

End Host.

Import Host.

(* ===================================================================== *)
(** ** drive-inventory-complete.js *)
(* ===================================================================== *)

Module Complete.

Module CONFIG.
Definition BATCH_SIZE : nat := 100.
Definition LARGE_FILE_THRESHOLD_MB : Z := 50.
Definition OLD_FILE_THRESHOLD_DAYS : Z := 365.
Definition INCLUDE_GOOGLE_FILES : bool := true.
Definition INCLUDE_TRASHED : bool := false.
Definition TRACK_PERMISSIONS : bool := true.
Definition MAX_DUPLICATE_GROUPS : nat := 100.
End CONFIG.

Definition typeMap : list (string * string) :=
  [ ("doc", "Word Document"); ("docx", "Word Document");
    ("pdf", "PDF"); ("txt", "Text File"); ("rtf", "Rich Text");
    ("xls", "Excel"); ("xlsx", "Excel"); ("csv", "CSV");
    ("ppt", "PowerPoint"); ("pptx", "PowerPoint");
    ("jpg", "Image"); ("jpeg", "Image"); ("png", "Image");
    ("gif", "Image"); ("svg", "Image"); ("bmp", "Image");
    ("mp4", "Video"); ("avi", "Video"); ("mov", "Video");
    ("wmv", "Video"); ("flv", "Video"); ("mkv", "Video");
    ("mp3", "Audio"); ("wav", "Audio"); ("flac", "Audio");
    ("zip", "Archive"); ("rar", "Archive"); ("7z", "Archive");
    ("js", "Code"); ("html", "Code"); ("css", "Code");
    ("py", "Code"); ("java", "Code"); ("cpp", "Code") ].

Definition getFileType (fileName mimeType : string) : value :=
  FileType.classify typeMap fileName mimeType.

(** *** Records *)

Record FileData := {
  id : string;
  name : string;
  mimeType : string;
  type : value;
  size : Z;
  created : string;
  lastModified : Date;
  owner : string;
  url : string;
  description : string;
  folderPath : string;
  sharingAccess : string;
  sharingPermission : string;
  viewers : list string;
  editors : list string
}.

Record LargeFile := {
  lf_name : string; lf_size : Z; lf_path : string; lf_url : string
}.

Record OldFile := {
  of_name : string; of_lastModified : string; of_ageInDays : Z;
  of_path : string; of_url : string
}.

Record SharedFile := {
  sf_name : string; sf_sharingAccess : string; sf_sharingPermission : string;
  sf_path : string; sf_url : string
}.

Record Candidate := {
  dc_name : string; dc_path : string; dc_size : Z;
  dc_lastModified : string; dc_url : string
}.

Record Stats := {
  totalFiles : Z;
  totalSize : Z;
  filesByType : list (string * Z);
  filesByFolder : list (string * Z);
  filesByOwner : list (string * Z);
  filesByYear : list (string * Z);
  largeFiles : list LargeFile;
  oldFiles : list OldFile;
  sharedFiles : list SharedFile;
  duplicateCandidates : list (string * list Candidate);
  errors : Z;
  startTime : string
}.

(** [initializeStats(JSON.parse(stored || '{}'))].  Every field of [Stats]
    is a number, a string, or an array or object of those, so parsing the
    stored text gives back the value that was stringified; the store is
    modelled as holding that value. *)
Definition initializeStats (now : Date) (stored : option Stats) : Stats :=
  match stored with
  | None =>
      {| totalFiles := 0; totalSize := 0; filesByType := []; filesByFolder := [];
         filesByOwner := []; filesByYear := []; largeFiles := []; oldFiles := [];
         sharedFiles := []; duplicateCandidates := []; errors := 0;
         startTime := toISOString now |}
  | Some s =>
      {| totalFiles := totalFiles s; totalSize := totalSize s;
         filesByType := filesByType s; filesByFolder := filesByFolder s;
         filesByOwner := filesByOwner s; filesByYear := filesByYear s;
         largeFiles := largeFiles s; oldFiles := oldFiles s;
         sharedFiles := sharedFiles s;
         duplicateCandidates := duplicateCandidates s; errors := errors s;
         startTime := if String.eqb (startTime s) "" then toISOString now
                      else startTime s |}
  end.

(** *** Listing a page *)

Definition shouldIncludeFile (f : File) : bool :=
  let checks : Exc bool :=
    (let* google :=
       (if negb CONFIG.INCLUDE_GOOGLE_FILES
        then let* m := getMimeType f in Ret (startsWith m FileType.google_prefix)
        else Ret false) in
     if google then Ret false
     else if negb CONFIG.INCLUDE_TRASHED
          then let* t := isTrashed f in Ret (negb t)
          else Ret true)%exc in
  match checks with
  | Ret b => b
  | Throw _ => false
  end.

(** The [while (files.hasNext() && count < batchSize)] loop: the page
    collected and the iterator left behind. *)
Fixpoint fill (batchSize : nat) (files : list File) (count : nat)
         (filesToProcess : list File) {struct files} : list File * list File :=
  match files with
  | [] => (filesToProcess, [])
  | file :: rest =>
      if (count <? batchSize)%nat then
        if shouldIncludeFile file
        then fill batchSize rest (S count) (filesToProcess ++ [file])%list
        else fill batchSize rest count filesToProcess
      else (filesToProcess, files)
  end.

Definition getFilesToProcess (drive : list File) (continuationToken : option Token)
           (batchSize : nat) : list File * list File :=
  let files :=
    match continuationToken with
    | Some t => continueFileIterator drive t
    | None => drive
    end in
  fill batchSize files 0 [].

(** *** One file *)

Definition extractFileData (file : File) : Exc FileData :=
  (let* id_ := getId file in
   let* name_ := getName file in
   let* mime := getMimeType file in
   let* size_ := getSize file in
   let* created_ := getDateCreated file in
   let* modified := getLastUpdated file in
   let* owner_ := getOwner file in
   let* url_ := getUrl file in
   let* descr := getDescription file in
   let path := Drive.folderPath 5 file in
   let sharing :=
     if CONFIG.TRACK_PERMISSIONS then
       match getSharingAccess file, getSharingPermission file with
       | Ret access, Ret permission =>
           match getViewers file, getEditors file with
           | Ret vs, Ret es => (access, permission, firstn 5 vs, firstn 5 es)
           | _, _ => (access, permission, [], [])
           end
       | _, _ => ("Private", "None", [], [])
       end
     else ("Private", "None", [], []) in
   let '(access, permission, vs, es) := sharing in
   Ret {| id := id_; name := name_; mimeType := mime;
          type := getFileType name_ mime; size := size_;
          created := toISOString created_; lastModified := modified;
          owner := ownerEmail owner_; url := url_; description := descr;
          folderPath := path; sharingAccess := access;
          sharingPermission := permission; viewers := vs; editors := es |})%exc.

Definition duplicateKey (fileData : FileData) : string :=
  name fileData ++ "_" ++ string_of_Z (size fileData).

Definition sameKey (k : string) (fileData : FileData) : bool :=
  String.eqb (duplicateKey fileData) k.

Definition largeFile (d : FileData) : LargeFile :=
  {| lf_name := name d; lf_size := size d; lf_path := folderPath d; lf_url := url d |}.

Definition ageMs (now : Date) (d : FileData) : Z :=
  getTime now - getTime (lastModified d).

Definition oldFile (now : Date) (d : FileData) : OldFile :=
  {| of_name := name d; of_lastModified := toISOString (lastModified d);
     of_ageInDays := ageMs now d / msPerDay;
     of_path := folderPath d; of_url := url d |}.

Definition sharedFile (d : FileData) : SharedFile :=
  {| sf_name := name d; sf_sharingAccess := sharingAccess d;
     sf_sharingPermission := sharingPermission d;
     sf_path := folderPath d; sf_url := url d |}.

Definition candidate (d : FileData) : Candidate :=
  {| dc_name := name d; dc_path := folderPath d; dc_size := size d;
     dc_lastModified := toISOString (lastModified d); dc_url := url d |}.

Definition isLarge (d : FileData) : bool :=
  size d >? CONFIG.LARGE_FILE_THRESHOLD_MB * 1024 * 1024.

Definition isOld (now : Date) (d : FileData) : bool :=
  ageMs now d >? CONFIG.OLD_FILE_THRESHOLD_DAYS * msPerDay.

Definition isShared (d : FileData) : bool :=
  negb (String.eqb (sharingAccess d) "Private").

(** [if (!o[k]) o[k] = []; o[k].push(c)] *)
Definition pushCandidate (k : string) (c : Candidate)
           (o : list (string * list Candidate)) : list (string * list Candidate) :=
  match assoc k o with
  | Some group => Arr.set k (group ++ [c])%list o
  | None => Arr.set k [c] o
  end.

(** The statements of [processFileForInventory] between the extraction and
    the row appended to the file list: the in-place update of [stats]. *)
Definition update (now : Date) (fileData : FileData) (stats : Stats) : Stats :=
  {| totalFiles := totalFiles stats + 1;
     totalSize := totalSize stats + size fileData;
     filesByType := Arr.bump (to_key (type fileData)) (filesByType stats);
     filesByYear :=
       Arr.bump (string_of_Z (getFullYear (lastModified fileData))) (filesByYear stats);
     filesByFolder :=
       if String.eqb (folderPath fileData) "" then filesByFolder stats
       else Arr.bump (folderPath fileData) (filesByFolder stats);
     filesByOwner := Arr.bump (owner fileData) (filesByOwner stats);
     largeFiles :=
       if isLarge fileData
       then Arr.pushSortSlice lf_size 100 (largeFile fileData) (largeFiles stats)
       else largeFiles stats;
     oldFiles :=
       if isOld now fileData
       then Arr.pushIfRoom 100 (oldFile now fileData) (oldFiles stats)
       else oldFiles stats;
     sharedFiles :=
       if isShared fileData
       then Arr.pushIfRoom 100 (sharedFile fileData) (sharedFiles stats)
       else sharedFiles stats;
     duplicateCandidates :=
       pushCandidate (duplicateKey fileData) (candidate fileData)
                     (duplicateCandidates stats);
     errors := errors stats;
     startTime := startTime stats |}.

(** [update] once per observed file, each at its own clock reading. *)
Definition updates (observed : list (Date * FileData)) (stats : Stats) : Stats :=
  fold_left (fun s o => update (fst o) (snd o) s) observed stats.

(** *** The spreadsheet *)

Record DuplicateRow := {
  dr_name : string;
  dr_size : Z;
  dr_count : nat;
  dr_locations : string;
  dr_urls : string
}.

Record Reports := {
  r_large : list LargeFile;
  r_old : list OldFile;
  r_duplicates : list DuplicateRow;
  r_shared : list SharedFile;
  r_types : list (string * Z)
}.

(** What the scripts write: the status cell of the overview sheet, the rows
    of the file list, and the report sheets.  [rowsLeft] is the number of
    rows the file list still takes; appending to a full sheet throws. *)
Record Spreadsheet := {
  statusCell : option Status;
  fileList : list FileData;
  rowsLeft : nat;
  reports : option Reports
}.

Definition addToFileListSheet (spreadsheet : Spreadsheet) (fileData : FileData)
  : Exc Spreadsheet :=
  match rowsLeft spreadsheet with
  | O => Throw "appendRow"
  | S n => Ret {| statusCell := statusCell spreadsheet;
                  fileList := (fileList spreadsheet ++ [fileData])%list;
                  rowsLeft := n;
                  reports := reports spreadsheet |}
  end.

Definition updateInventoryStatus (status : Status) (spreadsheet : Spreadsheet)
  : Spreadsheet :=
  {| statusCell := Some status; fileList := fileList spreadsheet;
     rowsLeft := rowsLeft spreadsheet; reports := reports spreadsheet |}.

(** [updateOverviewSheet] starts with [sheet.clear()], which also wipes the
    status cell. *)
Definition updateOverviewSheet (spreadsheet : Spreadsheet) : Spreadsheet :=
  {| statusCell := None; fileList := fileList spreadsheet;
     rowsLeft := rowsLeft spreadsheet; reports := reports spreadsheet |}.

Definition newline : string := String (ascii_of_nat 10) EmptyString.

Definition duplicateRow (entry : string * list Candidate) : DuplicateRow :=
  let files := snd entry in
  {| dr_name := match files with c :: _ => dc_name c | [] => "" end;
     dr_size := match files with c :: _ => dc_size c | [] => 0 end;
     dr_count := List.length files;
     dr_locations := join newline (map dc_path files);
     dr_urls := join newline (map dc_url files) |}.

Definition groupSize (entry : string * list Candidate) : Z :=
  Z.of_nat (List.length (snd entry)).

(** The rows [generateDuplicatesReport] writes below the header. *)
Definition generateDuplicatesReport (stats : Stats) : list DuplicateRow :=
  let duplicates :=
    firstn CONFIG.MAX_DUPLICATE_GROUPS
      (Arr.sortDesc groupSize
         (filter (fun entry => (1 <? List.length (snd entry))%nat)
                 (duplicateCandidates stats))) in
  map duplicateRow duplicates.

Definition generateFinalReports (stats : Stats) (spreadsheet : Spreadsheet)
  : Spreadsheet :=
  let s := updateOverviewSheet spreadsheet in
  {| statusCell := statusCell s; fileList := fileList s; rowsLeft := rowsLeft s;
     reports := Some {| r_large := largeFiles stats; r_old := oldFiles stats;
                        r_duplicates := generateDuplicatesReport stats;
                        r_shared := sharedFiles stats;
                        r_types := filesByType stats |} |}.

(** *** [processFileForInventory]: the statistics and the sheet after the
    call, and whether it returned or threw. *)
Definition processFileForInventory (now : Date) (file : File)
           (spreadsheet : Spreadsheet) (stats : Stats)
  : Stats * Spreadsheet * Exc unit :=
  match extractFileData file with
  | Throw e => (stats, spreadsheet, Throw e)
  | Ret fileData =>
      let stats' := update now fileData stats in
      match addToFileListSheet spreadsheet fileData with
      | Ret spreadsheet' => (stats', spreadsheet', Ret tt)
      | Throw e => (stats', spreadsheet, Throw e)
      end
  end.

Definition countError (stats : Stats) : Stats :=
  {| totalFiles := totalFiles stats; totalSize := totalSize stats;
     filesByType := filesByType stats; filesByFolder := filesByFolder stats;
     filesByOwner := filesByOwner stats; filesByYear := filesByYear stats;
     largeFiles := largeFiles stats; oldFiles := oldFiles stats;
     sharedFiles := sharedFiles stats;
     duplicateCandidates := duplicateCandidates stats;
     errors := errors stats + 1; startTime := startTime stats |}.

(** The [for (const file of files) { try ... catch ... }] loop of
    [runInventoryBatch]. *)
Fixpoint processFiles (now : Date) (files : list File) (spreadsheet : Spreadsheet)
         (stats : Stats) (processedCount : nat) : Stats * Spreadsheet * nat :=
  match files with
  | [] => (stats, spreadsheet, processedCount)
  | file :: rest =>
      match processFileForInventory now file spreadsheet stats with
      | (stats', spreadsheet', Ret _) =>
          processFiles now rest spreadsheet' stats' (S processedCount)
      | (stats', spreadsheet', Throw _) =>
          processFiles now rest spreadsheet' (countError stats') processedCount
      end
  end.

(** The per-file loop over a run of pages, the statistics going through
    the property store and [initializeStats] before each page. *)
Fixpoint resumed (now : Date) (pages : list (list File)) (spreadsheet : Spreadsheet)
         (stats : Stats) (processedCount : nat) : Stats * Spreadsheet * nat :=
  match pages with
  | [] => (stats, spreadsheet, processedCount)
  | page :: later =>
      let '(stats', spreadsheet', processed) :=
        processFiles now page spreadsheet (initializeStats now (Some stats))
                     processedCount in
      resumed now later spreadsheet' stats' processed
  end.

(** *** The checkpoint *)

Definition countsJson (o : list (string * Z)) : json :=
  JObj (map (fun kv => (fst kv, JNum (snd kv))) o).

Definition largeFileJson (e : LargeFile) : json :=
  JObj [ ("name", JStr (lf_name e)); ("size", JNum (lf_size e));
         ("path", JStr (lf_path e)); ("url", JStr (lf_url e)) ].

Definition oldFileJson (e : OldFile) : json :=
  JObj [ ("name", JStr (of_name e)); ("lastModified", JStr (of_lastModified e));
         ("ageInDays", JNum (of_ageInDays e));
         ("path", JStr (of_path e)); ("url", JStr (of_url e)) ].

Definition sharedFileJson (e : SharedFile) : json :=
  JObj [ ("name", JStr (sf_name e)); ("sharingAccess", JStr (sf_sharingAccess e));
         ("sharingPermission", JStr (sf_sharingPermission e));
         ("path", JStr (sf_path e)); ("url", JStr (sf_url e)) ].

Definition candidateJson (e : Candidate) : json :=
  JObj [ ("name", JStr (dc_name e)); ("path", JStr (dc_path e));
         ("size", JNum (dc_size e)); ("lastModified", JStr (dc_lastModified e));
         ("url", JStr (dc_url e)) ].

Definition toJson (stats : Stats) : json :=
  JObj [ ("totalFiles", JNum (totalFiles stats));
         ("totalSize", JNum (totalSize stats));
         ("filesByType", countsJson (filesByType stats));
         ("filesByFolder", countsJson (filesByFolder stats));
         ("filesByOwner", countsJson (filesByOwner stats));
         ("filesByYear", countsJson (filesByYear stats));
         ("largeFiles", JArr (map largeFileJson (largeFiles stats)));
         ("oldFiles", JArr (map oldFileJson (oldFiles stats)));
         ("sharedFiles", JArr (map sharedFileJson (sharedFiles stats)));
         ("duplicateCandidates",
          JObj (map (fun kv => (fst kv, JArr (map candidateJson (snd kv))))
                    (duplicateCandidates stats)));
         ("errors", JNum (errors stats));
         ("startTime", JStr (startTime stats)) ].

(** The script properties this script reads and writes. *)
Record Properties := {
  continuationToken : option Token;
  inventoryStats : option Stats;
  autoMode : option string
}.

Definition noProperties : Properties :=
  {| continuationToken := None; inventoryStats := None; autoMode := None |}.

Record World := {
  scriptProperties : Properties;
  spreadsheet : Spreadsheet
}.

Record BatchResult := {
  processedCount : nat;
  hasMore : bool
}.

(** *** [runInventoryBatch]

    [drive] is the listing the Drive service iterates over, [now] the clock,
    [quota] the longest text the property store takes for one value.  The
    result is the world the call leaves behind and what the call returned,
    or the exception that escaped it. *)
Definition runInventoryBatch (drive : list File) (now : Date) (quota : nat)
           (w : World) : World * Exc BatchResult :=
  let continuationToken_ := continuationToken (scriptProperties w) in
  let stats := initializeStats now (inventoryStats (scriptProperties w)) in
  let sheet1 := updateInventoryStatus RUNNING (spreadsheet w) in
  let '(files, iterator) :=
    getFilesToProcess drive continuationToken_ CONFIG.BATCH_SIZE in
  if (List.length files =? 0)%nat then
    let sheet2 := generateFinalReports stats sheet1 in
    let sheet3 := updateInventoryStatus COMPLETE sheet2 in
    ({| scriptProperties := noProperties; spreadsheet := sheet3 |},
     Ret {| processedCount := 0; hasMore := false |})
  else
    let '(stats', sheet2, processed) := processFiles now files sheet1 stats 0 in
    if fits quota (stringify (toJson stats')) then
      let saved :=
        {| continuationToken := continuationToken_;
           inventoryStats := Some stats';
           autoMode := autoMode (scriptProperties w) |} in
      let sheet3 := updateOverviewSheet sheet2 in
      match iterator with
      | _ :: _ =>
          let nextToken := (List.length drive - List.length iterator)%nat in
          ({| scriptProperties :=
                {| continuationToken := Some nextToken;
                   inventoryStats := inventoryStats saved;
                   autoMode := autoMode saved |};
              spreadsheet := sheet3 |},
           Ret {| processedCount := processed; hasMore := true |})
      | [] =>
          let sheet4 := generateFinalReports stats' sheet3 in
          let sheet5 := updateInventoryStatus COMPLETE sheet4 in
          ({| scriptProperties := noProperties; spreadsheet := sheet5 |},
           Ret {| processedCount := processed; hasMore := false |})
      end
    else
      ({| scriptProperties := scriptProperties w; spreadsheet := sheet2 |},
       Throw "setProperty")
  .

(** *** [runInventoryContinuously] and [inventoryDrive]

    [clock i] is the [i]-th reading of [new Date().getTime()].  Neither
    function has a handler: an exception of the batch leaves them.  A batch
    that reports more files has taken at least one from the iterator, so the
    loop runs at most once more than there are files. *)
Definition MAX_RUNTIME_MS : Z := 5 * 60 * 1000.

(** How the loop ended: [scheduleNextRun()] was called, or the inventory
    was complete. *)
Inductive Ending := Scheduled | Finished.

Fixpoint loop (iterations : nat) (clock : nat -> Z) (i : nat) (startTime : Z)
         (drive : list File) (now : Date) (quota : nat) (w : World)
  : World * Exc Ending :=
  match iterations with
  | O => (w, Ret Scheduled)
  | S n =>
      if clock i - startTime >? MAX_RUNTIME_MS then (w, Ret Scheduled)
      else
        match runInventoryBatch drive now quota w with
        | (w', Ret r) =>
            if hasMore r then loop n clock (S i) startTime drive now quota w'
            else (w', Ret Finished)
        | (w', Throw e) => (w', Throw e)
        end
  end.

Definition runInventoryContinuously (clock : nat -> Z) (drive : list File)
           (now : Date) (quota : nat) (w : World) : World * Exc Ending :=
  loop (S (List.length drive)) clock 1 (clock 0%nat) drive now quota w.

(** [scriptProperties.getProperty('autoMode') === 'true'] *)
Definition isAutoMode (w : World) : bool :=
  match autoMode (scriptProperties w) with
  | Some mode => String.eqb mode "true"
  | None => false
  end.

Definition inventoryDrive (clock : nat -> Z) (drive : list File)
           (now : Date) (quota : nat) (w : World) : World * Exc unit :=
  if negb (isAutoMode w) then
    match runInventoryBatch drive now quota w with
    | (w', Ret _) => (w', Ret tt)
    | (w', Throw e) => (w', Throw e)
    end
  else
    match runInventoryContinuously clock drive now quota w with
    | (w', Ret _) => (w', Ret tt)
    | (w', Throw e) => (w', Throw e)
    end.

End Complete.

(* ===================================================================== *)
(** ** drive-inventory-optimized.js: the memory-optimized inventory *)
(* ===================================================================== *)

Module Optimized.

Module CONFIG.
Definition BATCH_SIZE : nat := 200.
Definition LARGE_FILE_THRESHOLD_MB : Z := 50.
Definition OLD_FILE_THRESHOLD_DAYS : Z := 365.
Definition TRACK_PERMISSIONS : bool := true.
Definition MAX_LARGE_FILES : nat := 100.
Definition MAX_OLD_FILES : nat := 100.
Definition MAX_SHARED_FILES : nat := 100.
Definition PROGRESS_SAVE_INTERVAL : nat := 50.
End CONFIG.

Definition typeMap : list (string * string) :=
  [ ("pdf", "PDF"); ("doc", "Word"); ("docx", "Word"); ("txt", "Text");
    ("xls", "Excel"); ("xlsx", "Excel"); ("csv", "CSV");
    ("ppt", "PowerPoint"); ("pptx", "PowerPoint");
    ("jpg", "Image"); ("jpeg", "Image"); ("png", "Image"); ("gif", "Image");
    ("mp4", "Video"); ("avi", "Video"); ("mov", "Video");
    ("mp3", "Audio"); ("wav", "Audio");
    ("zip", "Archive"); ("rar", "Archive") ].

Definition getFileTypeSimple (fileName mimeType : string) : value :=
  FileType.classify typeMap fileName mimeType.

Record FileData := {
  name : string;
  mimeType : string;
  type : value;
  size : Z;
  lastModified : Date;
  owner : string;
  url : string;
  folderPath : string;
  sharingAccess : string;
  sharingPermission : string
}.

Record LargeFile := {
  lf_name : string; lf_size : Z; lf_path : string; lf_url : string
}.

Record OldFile := {
  of_name : string; of_lastModified : string; of_ageInDays : Z;
  of_path : string; of_url : string
}.

Record SharedFile := {
  sf_name : string; sf_sharingAccess : string; sf_sharingPermission : string;
  sf_path : string; sf_url : string
}.

Record Stats := {
  totalFiles : Z;
  totalSize : Z;
  filesByType : list (string * Z);
  filesByYear : list (string * Z);
  largeFiles : list LargeFile;
  oldFiles : list OldFile;
  sharedFiles : list SharedFile;
  errors : Z;
  startTime : string
}.

(** The statistics object [initializeStatsInSheet] returns. *)
Definition initialStats (now : Date) : Stats :=
  {| totalFiles := 0; totalSize := 0; filesByType := []; filesByYear := [];
     largeFiles := []; oldFiles := []; sharedFiles := []; errors := 0;
     startTime := toISOString now |}.

Definition extractFileDataOptimized (file : File) : Exc FileData :=
  (let* name_ := getName file in
   let* mime := getMimeType file in
   let* size_ := getSize file in
   let* modified := getLastUpdated file in
   let* owner_ := getOwner file in
   let* url_ := getUrl file in
   let path := Drive.folderPath 0 file in
   let '(access, permission) :=
     if CONFIG.TRACK_PERMISSIONS then
       match getSharingAccess file with
       | Ret a =>
           match getSharingPermission file with
           | Ret p => (a, p)
           | Throw _ => (a, "NONE")
           end
       | Throw _ => ("PRIVATE", "NONE")
       end
     else ("PRIVATE", "NONE") in
   Ret {| name := name_; mimeType := mime;
          type := getFileTypeSimple name_ mime; size := size_;
          lastModified := modified; owner := ownerEmail owner_; url := url_;
          folderPath := path; sharingAccess := access;
          sharingPermission := permission |})%exc.

Record Spreadsheet := {
  fileList : list FileData;
  rowsLeft : nat;
  progress : option Stats
}.

Definition addToFileListSheetOptimized (spreadsheet : Spreadsheet)
           (fileData : FileData) : Exc Spreadsheet :=
  match rowsLeft spreadsheet with
  | O => Throw "appendRow"
  | S n => Ret {| fileList := (fileList spreadsheet ++ [fileData])%list;
                  rowsLeft := n; progress := progress spreadsheet |}
  end.

Definition updateStatsInSheet (spreadsheet : Spreadsheet) (stats : Stats)
  : Spreadsheet :=
  {| fileList := fileList spreadsheet; rowsLeft := rowsLeft spreadsheet;
     progress := Some stats |}.

Definition largeFile (d : FileData) : LargeFile :=
  {| lf_name := name d; lf_size := size d; lf_path := folderPath d; lf_url := url d |}.

Definition ageMs (now : Date) (d : FileData) : Z :=
  getTime now - getTime (lastModified d).

Definition oldFile (now : Date) (d : FileData) : OldFile :=
  {| of_name := name d; of_lastModified := toISOString (lastModified d);
     of_ageInDays := ageMs now d / msPerDay;
     of_path := folderPath d; of_url := url d |}.

Definition sharedFile (d : FileData) : SharedFile :=
  {| sf_name := name d; sf_sharingAccess := sharingAccess d;
     sf_sharingPermission := sharingPermission d;
     sf_path := folderPath d; sf_url := url d |}.

Definition isLarge (d : FileData) : bool :=
  size d >? CONFIG.LARGE_FILE_THRESHOLD_MB * 1024 * 1024.

Definition isOld (now : Date) (d : FileData) : bool :=
  ageMs now d >? CONFIG.OLD_FILE_THRESHOLD_DAYS * msPerDay.

Definition isShared (d : FileData) : bool :=
  negb (String.eqb (sharingAccess d) "PRIVATE").

(** The statements of [processFileOptimized] before the row is appended. *)
Definition updateCounts (fileData : FileData) (stats : Stats) : Stats :=
  let fileType := to_key (type fileData) in
  {| totalFiles := totalFiles stats + 1;
     totalSize := totalSize stats + size fileData;
     filesByType :=
       if (List.length (filesByType stats) <? 50)%nat
          || match assoc fileType (filesByType stats) with
             | Some n => negb (n =? 0)
             | None => false
             end
       then Arr.bump fileType (filesByType stats)
       else filesByType stats;
     filesByYear :=
       Arr.bump (string_of_Z (getFullYear (lastModified fileData))) (filesByYear stats);
     largeFiles := largeFiles stats; oldFiles := oldFiles stats;
     sharedFiles := sharedFiles stats; errors := errors stats;
     startTime := startTime stats |}.

(** [push], [sort], and the [slice] guarded by [length > MAX_LARGE_FILES],
    all under the guard [length < MAX_LARGE_FILES]. *)
Definition keepLargest (x : LargeFile) (l : list LargeFile) : list LargeFile :=
  if (List.length l <? CONFIG.MAX_LARGE_FILES)%nat then
    let sorted := Arr.sortDesc lf_size (l ++ [x])%list in
    if (CONFIG.MAX_LARGE_FILES <? List.length sorted)%nat
    then firstn CONFIG.MAX_LARGE_FILES sorted
    else sorted
  else l.

(** The statements of [processFileOptimized] after the row is appended. *)
Definition updateLists (now : Date) (fileData : FileData) (stats : Stats) : Stats :=
  {| totalFiles := totalFiles stats; totalSize := totalSize stats;
     filesByType := filesByType stats; filesByYear := filesByYear stats;
     largeFiles :=
       if isLarge fileData
       then keepLargest (largeFile fileData) (largeFiles stats)
       else largeFiles stats;
     oldFiles :=
       if isOld now fileData
       then Arr.pushIfRoom CONFIG.MAX_OLD_FILES (oldFile now fileData) (oldFiles stats)
       else oldFiles stats;
     sharedFiles :=
       if isShared fileData
       then Arr.pushIfRoom CONFIG.MAX_SHARED_FILES (sharedFile fileData)
                           (sharedFiles stats)
       else sharedFiles stats;
     errors := errors stats; startTime := startTime stats |}.

Definition update (now : Date) (fileData : FileData) (stats : Stats) : Stats :=
  updateLists now fileData (updateCounts fileData stats).

Definition updates (observed : list (Date * FileData)) (stats : Stats) : Stats :=
  fold_left (fun s o => update (fst o) (snd o) s) observed stats.

Definition processFileOptimized (now : Date) (file : File)
           (spreadsheet : Spreadsheet) (stats : Stats)
  : Stats * Spreadsheet * Exc unit :=
  match extractFileDataOptimized file with
  | Throw e => (stats, spreadsheet, Throw e)
  | Ret fileData =>
      let counted := updateCounts fileData stats in
      match addToFileListSheetOptimized spreadsheet fileData with
      | Throw e => (counted, spreadsheet, Throw e)
      | Ret spreadsheet' => (updateLists now fileData counted, spreadsheet', Ret tt)
      end
  end.

Definition countError (stats : Stats) : Stats :=
  {| totalFiles := totalFiles stats; totalSize := totalSize stats;
     filesByType := filesByType stats; filesByYear := filesByYear stats;
     largeFiles := largeFiles stats; oldFiles := oldFiles stats;
     sharedFiles := sharedFiles stats; errors := errors stats + 1;
     startTime := startTime stats |}.

(** The [for (const file of files) { try ... catch ... }] loop of
    [runOptimizedInventory].  The handler builds its log line from
    [file.getName()] before it counts the error; when that call throws, the
    exception leaves the loop. *)
Fixpoint processFiles (now : Date) (files : list File) (spreadsheet : Spreadsheet)
         (stats : Stats) (processedInBatch : nat)
  : Stats * Spreadsheet * nat * Exc unit :=
  match files with
  | [] => (stats, spreadsheet, processedInBatch, Ret tt)
  | file :: rest =>
      match processFileOptimized now file spreadsheet stats with
      | (stats', spreadsheet', Ret _) =>
          let processed := S processedInBatch in
          let spreadsheet'' :=
            if (processed mod CONFIG.PROGRESS_SAVE_INTERVAL =? 0)%nat
            then updateStatsInSheet spreadsheet' stats'
            else spreadsheet' in
          processFiles now rest spreadsheet'' stats' processed
      | (stats', spreadsheet', Throw _) =>
          match getName file with
          | Ret _ => processFiles now rest spreadsheet' (countError stats') processedInBatch
          | Throw e => (stats', spreadsheet', processedInBatch, Throw e)
          end
      end
  end.

(** *** The page and the run *)

(** The [while (files.hasNext() && count < batchSize)] loop of this script's
    [getFilesToProcess]: every listed file is taken. *)
Fixpoint fill (batchSize : nat) (files : list File) (count : nat)
         (filesToProcess : list File) {struct files} : list File * list File :=
  match files with
  | [] => (filesToProcess, [])
  | file :: rest =>
      if (count <? batchSize)%nat
      then fill batchSize rest (S count) (filesToProcess ++ [file])%list
      else (filesToProcess, files)
  end.

Definition getFilesToProcess (drive : list File) (continuationToken : option Token)
           (batchSize : nat) : list File * list File :=
  let files :=
    match continuationToken with
    | Some t => continueFileIterator drive t
    | None => drive
    end in
  fill batchSize files 0 [].

(** The stored token, the spreadsheet, the status and error rows of the
    progress sheet (oldest first; the rows that hold counts and times are
    left out), and the statistics the final reports were written from. *)
Record World := {
  continuationToken : option Token;
  spreadsheet : Spreadsheet;
  progressRows : list (string * string);
  finalReports : option Stats
}.

Definition withSheet (w : World) (sheet : Spreadsheet) : World :=
  {| continuationToken := continuationToken w; spreadsheet := sheet;
     progressRows := progressRows w; finalReports := finalReports w |}.

Definition withToken (w : World) (token : option Token) : World :=
  {| continuationToken := token; spreadsheet := spreadsheet w;
     progressRows := progressRows w; finalReports := finalReports w |}.

Definition addRow (row : string * string) (w : World) : World :=
  {| continuationToken := continuationToken w; spreadsheet := spreadsheet w;
     progressRows := (progressRows w ++ [row])%list;
     finalReports := finalReports w |}.

Definition updateProgressSheet (status : string) (w : World) : World :=
  addRow ("Status", status) w.

Definition saveErrorInfo (error : string) (w : World) : World :=
  addRow ("Error", error) w.

(** [initializeStatsInSheet] clears the progress sheet and returns new
    statistics: nothing of an earlier invocation is read back. *)
Definition initializeStatsInSheet (now : Date) (w : World) : World * Stats :=
  ({| continuationToken := continuationToken w;
      spreadsheet := {| fileList := fileList (spreadsheet w);
                        rowsLeft := rowsLeft (spreadsheet w);
                        progress := None |};
      progressRows := []; finalReports := finalReports w |},
   initialStats now).

Definition generateOptimizedFinalReports (stats : Stats) (w : World) : World :=
  {| continuationToken := continuationToken w; spreadsheet := spreadsheet w;
     progressRows := progressRows w; finalReports := Some stats |}.

Definition resetInventoryProgress (w : World) : World := withToken w None.

(** How an invocation ended: [scheduleNextRun()] was called, or the final
    reports were written. *)
Inductive Ending := Scheduled | Finished.

(** The [while (true)] loop of [runOptimizedInventory].  [continuationToken_]
    is the local variable the loop reads the page with; the loop stores the
    next token in the script properties and leaves the variable as it is.
    [clock i] is the [i]-th reading of [new Date()] for the elapsed-time
    test, and [iterations] bounds the number of iterations looked at:
    [None] says that the loop was still running after that many. *)
Fixpoint batches (iterations : nat) (clock : nat -> Z) (i : nat) (startTime : Z)
         (drive : list File) (now : Date) (continuationToken_ : option Token)
         (w : World) (stats : Stats) : option (World * Stats * Exc Ending) :=
  match iterations with
  | O => None
  | S n =>
      let '(files, iterator) :=
        getFilesToProcess drive continuationToken_ CONFIG.BATCH_SIZE in
      if (List.length files =? 0)%nat then Some (w, stats, Ret Finished)
      else
        let w1 := updateProgressSheet "PROCESSING" w in
        match processFiles now files (spreadsheet w1) stats 0 with
        | (stats', sheet1, _, Throw e) => Some (withSheet w1 sheet1, stats', Throw e)
        | (stats', sheet1, _, Ret _) =>
            let w2 := withSheet w1 (updateStatsInSheet sheet1 stats') in
            match iterator with
            | _ :: _ =>
                let nextToken := (List.length drive - List.length iterator)%nat in
                let w3 := withToken w2 (Some nextToken) in
                if clock i - startTime >? 300 * 1000
                then Some (w3, stats', Ret Scheduled)
                else batches n clock (S i) startTime drive now continuationToken_
                             w3 stats'
            | [] => Some (withToken w2 None, stats', Ret Finished)
            end
        end
  end.

Definition runOptimizedInventory (iterations : nat) (clock : nat -> Z)
           (drive : list File) (now : Date) (w : World)
  : option (World * Exc Ending) :=
  let continuationToken_ := continuationToken w in
  let '(w0, stats) := initializeStatsInSheet now w in
  let w1 := updateProgressSheet "STARTING" w0 in
  match batches iterations clock 1 (clock 0%nat) drive now continuationToken_
                w1 stats with
  | None => None
  | Some (w2, _, Throw e) => Some (w2, Throw e)
  | Some (w2, _, Ret Scheduled) => Some (w2, Ret Scheduled)
  | Some (w2, stats', Ret Finished) =>
      let w3 := updateProgressSheet "FINALIZING" w2 in
      let w4 := generateOptimizedFinalReports stats' w3 in
      Some (updateProgressSheet "COMPLETE" w4, Ret Finished)
  end.

(** [continueOptimizedInventory], the handler of the trigger. *)
Definition continueOptimizedInventory := runOptimizedInventory.

(** [inventoryDriveLarge]: the stored token is deleted first, and an
    exception of the run ends in a row of the progress sheet. *)
Definition inventoryDriveLarge (iterations : nat) (clock : nat -> Z)
           (drive : list File) (now : Date) (w : World) : option World :=
  match runOptimizedInventory iterations clock drive now
                              (resetInventoryProgress w) with
  | None => None
  | Some (w', Ret _) => Some w'
  | Some (w', Throw e) => Some (saveErrorInfo e w')
  end.

End Optimized.

(* ===================================================================== *)
(** ** drive-inventory-optimized.js: the document inventory *)
(* ===================================================================== *)

Module Documents.

Module CONFIG.
Definition BATCH_SIZE : nat := 50.
Definition LARGE_FILE_THRESHOLD_MB : Z := 25.
Definition OLD_FILE_THRESHOLD_DAYS : Z := 365.
Definition DOCUMENT_FORMATS : list (string * string) :=
  [ ("google-document", "Google Docs");
    ("google-spreadsheet", "Google Sheets");
    ("google-presentation", "Google Slides");
    ("google-form", "Google Forms");
    ("doc", "Word Document"); ("docx", "Word Document");
    ("xls", "Excel Spreadsheet"); ("xlsx", "Excel Spreadsheet");
    ("ppt", "PowerPoint"); ("pptx", "PowerPoint");
    ("pdf", "PDF Document"); ("txt", "Text File"); ("csv", "CSV File") ].
End CONFIG.

Definition documentMimeTypes : list string :=
  [ "application/pdf";
    "application/msword";
    "application/vnd.openxmlformats-officedocument.wordprocessingml.document";
    "application/vnd.ms-excel";
    "application/vnd.openxmlformats-officedocument.spreadsheetml.sheet";
    "application/vnd.ms-powerpoint";
    "application/vnd.openxmlformats-officedocument.presentationml.presentation";
    "text/plain";
    "text/csv" ].

Definition documentExtensions : list string :=
  [ "doc"; "docx"; "pdf"; "txt"; "xls"; "xlsx"; "ppt"; "pptx"; "csv" ].

(** [isDocumentFile]: the handler's log line calls [file.getName()] again. *)
Definition isDocumentFile (file : File) : Exc bool :=
  catch
    (let* mimeType := getMimeType file in
     let* name_ := getName file in
     let fileName := toLowerCase name_ in
     if startsWith mimeType FileType.google_prefix then
       let googleType := replace mimeType FileType.google_prefix "" in
       Ret (mem googleType ["document"; "spreadsheet"; "presentation"; "form"])
     else if mem mimeType documentMimeTypes then Ret true
     else Ret (mem (pop (split "." fileName)) documentExtensions))%exc
    (fun _ => let* _ := getName file in Ret false)%exc.

(** The [while (files.hasNext() && count < batchSize && checkedCount < maxCheck)]
    loop. *)
Fixpoint fill (batchSize maxCheck : nat) (files : list File)
         (count checkedCount : nat) (filesToProcess : list File) {struct files}
  : Exc (list File * list File) :=
  match files with
  | [] => Ret (filesToProcess, [])
  | file :: rest =>
      if ((count <? batchSize) && (checkedCount <? maxCheck))%nat then
        (let* isDoc := isDocumentFile file in
         if isDoc
         then fill batchSize maxCheck rest (S count) (S checkedCount)
                   (filesToProcess ++ [file])%list
         else fill batchSize maxCheck rest count (S checkedCount) filesToProcess)%exc
      else Ret (filesToProcess, files)
  end.

Definition getDocumentFilesToProcess (drive : list File)
           (continuationToken : option Token) (batchSize : nat)
  : Exc (list File * list File) :=
  let files :=
    match continuationToken with
    | Some t => continueFileIterator drive t
    | None => drive
    end in
  let maxCheck := (batchSize * 10)%nat in
  fill batchSize maxCheck files 0 0 [].

Definition getDocumentType (fileName mimeType : string) : value :=
  if startsWith mimeType FileType.google_prefix then
    let googleType := replace mimeType FileType.google_prefix "" in
    or_else (get CONFIG.DOCUMENT_FORMATS ("google-" ++ googleType))
            (VString ("Google " ++ googleType))
  else
    let extension := toLowerCase (pop (split "." fileName)) in
    or_else (get CONFIG.DOCUMENT_FORMATS extension)
      (or_else (Some (VString (toUpperCase extension)))
               (VString "Unknown Document")).

Record FileData := {
  id : string;
  name : string;
  mimeType : string;
  documentType : value;
  isGoogleFile : bool;
  size : Z;
  created : string;
  lastModified : Date;
  owner : string;
  url : string;
  folderPath : string;
  sharingAccess : string
}.

Record LargeDocument := {
  ld_name : string; ld_size : Z; ld_documentType : string;
  ld_path : string; ld_url : string
}.

Record OldDocument := {
  od_name : string; od_lastModified : string; od_ageInDays : Z;
  od_documentType : string; od_path : string; od_url : string
}.

Record Stats := {
  totalFiles : Z;
  totalSize : Z;
  filesByType : list (string * Z);
  filesByOwner : list (string * Z);
  largeDocuments : list LargeDocument;
  oldDocuments : list OldDocument;
  googleWorkspaceFiles : Z;
  otherDocumentFiles : Z;
  errors : Z;
  startTime : string
}.

Definition initializeStats (now : Date) (stored : option Stats) : Stats :=
  match stored with
  | None =>
      {| totalFiles := 0; totalSize := 0; filesByType := []; filesByOwner := [];
         largeDocuments := []; oldDocuments := []; googleWorkspaceFiles := 0;
         otherDocumentFiles := 0; errors := 0; startTime := toISOString now |}
  | Some s =>
      {| totalFiles := totalFiles s; totalSize := totalSize s;
         filesByType := filesByType s; filesByOwner := filesByOwner s;
         largeDocuments := largeDocuments s; oldDocuments := oldDocuments s;
         googleWorkspaceFiles := googleWorkspaceFiles s;
         otherDocumentFiles := otherDocumentFiles s; errors := errors s;
         startTime := if String.eqb (startTime s) "" then toISOString now
                      else startTime s |}
  end.

Definition extractFileData (file : File) : Exc FileData :=
  (let* id_ := getId file in
   let* name_ := getName file in
   let* mime := getMimeType file in
   let* size_ := getSize file in
   let* created_ := getDateCreated file in
   let* modified := getLastUpdated file in
   let* owner_ := getOwner file in
   let* url_ := getUrl file in
   let path := Drive.folderPath 0 file in
   let access :=
     match getSharingAccess file with
     | Ret a => a
     | Throw _ => "Private"
     end in
   Ret {| id := id_; name := name_; mimeType := mime;
          documentType := getDocumentType name_ mime;
          isGoogleFile := startsWith mime FileType.google_prefix;
          size := size_; created := toISOString created_;
          lastModified := modified; owner := ownerEmail owner_; url := url_;
          folderPath := path; sharingAccess := access |})%exc.

Definition largeDocument (d : FileData) : LargeDocument :=
  {| ld_name := name d; ld_size := size d;
     ld_documentType := to_key (documentType d);
     ld_path := folderPath d; ld_url := url d |}.

Definition ageMs (now : Date) (d : FileData) : Z :=
  getTime now - getTime (lastModified d).

Definition oldDocument (now : Date) (d : FileData) : OldDocument :=
  {| od_name := name d; od_lastModified := toISOString (lastModified d);
     od_ageInDays := ageMs now d / msPerDay;
     od_documentType := to_key (documentType d);
     od_path := folderPath d; od_url := url d |}.

Definition update (now : Date) (fileData : FileData) (stats : Stats) : Stats :=
  {| totalFiles := totalFiles stats + 1;
     totalSize := totalSize stats + size fileData;
     filesByType := Arr.bump (to_key (documentType fileData)) (filesByType stats);
     googleWorkspaceFiles :=
       if isGoogleFile fileData then googleWorkspaceFiles stats + 1
       else googleWorkspaceFiles stats;
     otherDocumentFiles :=
       if isGoogleFile fileData then otherDocumentFiles stats
       else otherDocumentFiles stats + 1;
     filesByOwner := Arr.bump (owner fileData) (filesByOwner stats);
     largeDocuments :=
       if size fileData >? CONFIG.LARGE_FILE_THRESHOLD_MB * 1024 * 1024
       then Arr.pushSortSlice ld_size 50 (largeDocument fileData) (largeDocuments stats)
       else largeDocuments stats;
     oldDocuments :=
       if ageMs now fileData >? CONFIG.OLD_FILE_THRESHOLD_DAYS * msPerDay
       then Arr.pushIfRoom 50 (oldDocument now fileData) (oldDocuments stats)
       else oldDocuments stats;
     errors := errors stats;
     startTime := startTime stats |}.

Record Reports := {
  r_types : list (string * Z);
  r_large : list LargeDocument
}.

Record Spreadsheet := {
  documentList : list FileData;
  rowsLeft : nat;
  overview : option Stats;
  reports : option Reports
}.

Definition addToDocumentListSheet (spreadsheet : Spreadsheet) (fileData : FileData)
  : Exc Spreadsheet :=
  match rowsLeft spreadsheet with
  | O => Throw "appendRow"
  | S n => Ret {| documentList := (documentList spreadsheet ++ [fileData])%list;
                  rowsLeft := n; overview := overview spreadsheet;
                  reports := reports spreadsheet |}
  end.

Definition updateOverviewSheet (spreadsheet : Spreadsheet) (stats : Stats)
  : Spreadsheet :=
  {| documentList := documentList spreadsheet; rowsLeft := rowsLeft spreadsheet;
     overview := Some stats; reports := reports spreadsheet |}.

Definition generateFinalReports (spreadsheet : Spreadsheet) (stats : Stats)
  : Spreadsheet :=
  let s := updateOverviewSheet spreadsheet stats in
  {| documentList := documentList s; rowsLeft := rowsLeft s; overview := overview s;
     reports := Some {| r_types := filesByType stats;
                        r_large := largeDocuments stats |} |}.

Definition processDocumentFile (now : Date) (file : File)
           (spreadsheet : Spreadsheet) (stats : Stats)
  : Stats * Spreadsheet * Exc unit :=
  match extractFileData file with
  | Throw e => (stats, spreadsheet, Throw e)
  | Ret fileData =>
      let stats' := update now fileData stats in
      match addToDocumentListSheet spreadsheet fileData with
      | Ret spreadsheet' => (stats', spreadsheet', Ret tt)
      | Throw e => (stats', spreadsheet, Throw e)
      end
  end.

Definition countError (stats : Stats) : Stats :=
  {| totalFiles := totalFiles stats; totalSize := totalSize stats;
     filesByType := filesByType stats; filesByOwner := filesByOwner stats;
     largeDocuments := largeDocuments stats; oldDocuments := oldDocuments stats;
     googleWorkspaceFiles := googleWorkspaceFiles stats;
     otherDocumentFiles := otherDocumentFiles stats;
     errors := errors stats + 1; startTime := startTime stats |}.

(** The loop of [runDocumentInventoryBatch]; its handler also calls
    [file.getName()] for the log line. *)
Fixpoint processFiles (now : Date) (files : list File) (spreadsheet : Spreadsheet)
         (stats : Stats) (processedCount : nat)
  : Stats * Spreadsheet * nat * Exc unit :=
  match files with
  | [] => (stats, spreadsheet, processedCount, Ret tt)
  | file :: rest =>
      let attempt : Stats * Spreadsheet * Exc bool :=
        match isDocumentFile file with
        | Ret true =>
            match processDocumentFile now file spreadsheet stats with
            | (s, sh, Ret _) => (s, sh, Ret true)
            | (s, sh, Throw e) => (s, sh, Throw e)
            end
        | Ret false => (stats, spreadsheet, Ret false)
        | Throw e => (stats, spreadsheet, Throw e)
        end in
      match attempt with
      | (stats', spreadsheet', Ret counted) =>
          processFiles now rest spreadsheet' stats'
                       (if counted then S processedCount else processedCount)
      | (stats', spreadsheet', Throw _) =>
          match getName file with
          | Ret _ => processFiles now rest spreadsheet' (countError stats') processedCount
          | Throw e => (stats', spreadsheet', processedCount, Throw e)
          end
      end
  end.

Definition countsJson (o : list (string * Z)) : json :=
  JObj (map (fun kv => (fst kv, JNum (snd kv))) o).

Definition toJson (stats : Stats) : json :=
  JObj [ ("totalFiles", JNum (totalFiles stats));
         ("totalSize", JNum (totalSize stats));
         ("filesByType", countsJson (filesByType stats));
         ("filesByOwner", countsJson (filesByOwner stats));
         ("largeDocuments",
          JArr (map (fun e => JObj [ ("name", JStr (ld_name e));
                                     ("size", JNum (ld_size e));
                                     ("documentType", JStr (ld_documentType e));
                                     ("path", JStr (ld_path e));
                                     ("url", JStr (ld_url e)) ])
                    (largeDocuments stats)));
         ("oldDocuments",
          JArr (map (fun e => JObj [ ("name", JStr (od_name e));
                                     ("lastModified", JStr (od_lastModified e));
                                     ("ageInDays", JNum (od_ageInDays e));
                                     ("documentType", JStr (od_documentType e));
                                     ("path", JStr (od_path e));
                                     ("url", JStr (od_url e)) ])
                    (oldDocuments stats)));
         ("googleWorkspaceFiles", JNum (googleWorkspaceFiles stats));
         ("otherDocumentFiles", JNum (otherDocumentFiles stats));
         ("errors", JNum (errors stats));
         ("startTime", JStr (startTime stats)) ].

Record Properties := {
  documentContinuationToken : option Token;
  documentInventoryStats : option Stats
}.

Definition noProperties : Properties :=
  {| documentContinuationToken := None; documentInventoryStats := None |}.

Record World := {
  scriptProperties : Properties;
  spreadsheet : Spreadsheet
}.

Record BatchResult := {
  processedCount : nat;
  hasMore : bool
}.


End Documents.

(* ===================================================================== *)
(** ** shared-files-audit.js *)
(* ===================================================================== *)

Module SharedAudit.

Module CONFIG.
Definition BATCH_SIZE : nat := 100.
Definition HIGH_RISK_KEYWORDS : list string :=
  [ "confidential"; "secret"; "private"; "internal"; "restricted";
    "salary"; "budget"; "financial"; "contract"; "agreement";
    "password"; "credential"; "api"; "key"; "token";
    "personal"; "ssn"; "social security"; "bank"; "account" ].
End CONFIG.

(** The record [extractSharedFileData] builds.  [type] is the label
    [getFileType] found; scoring calls [type.toLowerCase()] on it, which
    throws before any score is computed for the two extensions that make
    [getFileType] return an inherited member: those files yield no record of
    this type. *)
Record FileData := {
  name : string;
  type : string;
  size : Z;
  owner : string;
  url : string;
  description : string;
  folderPath : string;
  sharingAccess : string;
  sharingPermission : string;
  viewers : list string;
  editors : list string;
  externalDomains : list string;
  isPublic : bool;
  isDomainShared : bool
}.

Definition matchesKeyword (fileData : FileData) (keyword : string) : bool :=
  includes (toLowerCase (name fileData)) keyword
  || includes (toLowerCase (description fileData)) keyword.

Definition sensitiveTypes : list string :=
  [ "pdf"; "doc"; "docx"; "xls"; "xlsx"; "csv" ].

Definition externalCount (fileData : FileData) : nat :=
  List.length (externalDomains fileData).

(** [assessSecurityRisk], statement by statement. *)
Definition assessSecurityRisk (fileData : FileData) : Z :=
  let riskScore := 0 in
  let riskScore :=
    if isPublic fileData then riskScore + 40
    else if isDomainShared fileData then riskScore + 20
    else if (0 <? externalCount fileData)%nat then riskScore + 25
    else riskScore in
  let riskScore :=
    if String.eqb (sharingPermission fileData) "EDIT" && isPublic fileData
    then riskScore + 20
    else if String.eqb (sharingPermission fileData) "EDIT" then riskScore + 10
    else riskScore in
  let riskScore :=
    fold_left (fun score keyword =>
                 if matchesKeyword fileData keyword then score + 5 else score)
              CONFIG.HIGH_RISK_KEYWORDS riskScore in
  let riskScore := Z.min riskScore 25 in
  let riskScore :=
    if mem (toLowerCase (type fileData)) sensitiveTypes then riskScore + 10
    else riskScore in
  let riskScore :=
    if (5 <? externalCount fileData)%nat then riskScore + 15
    else if (2 <? externalCount fileData)%nat then riskScore + 10
    else if (0 <? externalCount fileData)%nat then riskScore + 5
    else riskScore in
  Z.min riskScore 100.

(** The factors one by one, as the scoring rule words them. *)
Definition sharingPoints (fileData : FileData) : Z :=
  if isPublic fileData then 40
  else if isDomainShared fileData then 20
  else if (0 <? externalCount fileData)%nat then 25
  else 0.

Definition permissionPoints (fileData : FileData) : Z :=
  if String.eqb (sharingPermission fileData) "EDIT" && isPublic fileData then 20
  else if String.eqb (sharingPermission fileData) "EDIT" then 10
  else 0.

Definition keywordPoints (fileData : FileData) : Z :=
  5 * Z.of_nat (List.length (filter (matchesKeyword fileData) CONFIG.HIGH_RISK_KEYWORDS)).

Definition typePoints (fileData : FileData) : Z :=
  if mem (toLowerCase (type fileData)) sensitiveTypes then 10 else 0.

Definition collaboratorPoints (fileData : FileData) : Z :=
  if (5 <? externalCount fileData)%nat then 15
  else if (2 <? externalCount fileData)%nat then 10
  else if (0 <? externalCount fileData)%nat then 5
  else 0.

(** The rule of the specification: keyword points are summed and capped at
    the sub-ceiling on their own; every other factor is added in full; the
    total is clamped to 100. *)
Definition specifiedRisk (fileData : FileData) : Z :=
  Z.min (sharingPoints fileData + permissionPoints fileData
         + Z.min (keywordPoints fileData) 25
         + typePoints fileData + collaboratorPoints fileData) 100.

Record HighRiskFile := {
  hr_name : string; hr_type : string; hr_size : Z; hr_owner : string;
  hr_sharingAccess : string; hr_sharingPermission : string;
  hr_path : string; hr_url : string;
  hr_riskScore : Z; hr_riskFactors : list string;
  hr_externalDomains : list string;
  hr_viewerCount : nat; hr_editorCount : nat
}.

Definition getRiskFactors (fileData : FileData) : list string :=
  let sensitiveKeywords :=
    filter (fun keyword => includes (toLowerCase (name fileData)) keyword)
           CONFIG.HIGH_RISK_KEYWORDS in
  ((if isPublic fileData then ["Publicly accessible"] else [])
   ++ (if String.eqb (sharingPermission fileData) "EDIT" && isPublic fileData
       then ["Public edit access"] else [])
   ++ (if (0 <? externalCount fileData)%nat
       then [("Shared with "
                ++ string_of_Z (Z.of_nat (externalCount fileData))
                ++ " external domain(s)")%string]
       else [])
   ++ (if (0 <? List.length sensitiveKeywords)%nat
       then [("Contains sensitive keywords: " ++ join ", " sensitiveKeywords)%string]
       else [])
   ++ (if (20 <? List.length (viewers fileData) + List.length (editors fileData))%nat
       then ["Shared with many users"] else []))%list.

Record Stats := {
  totalFiles : Z;
  totalSize : Z;
  byAccessLevel : list (string * Z);
  byPermission : list (string * Z);
  byOwner : list (string * Z);
  byFileType : list (string * Z);
  publicFiles : Z;
  domainSharedFiles : Z;
  externallySharedFiles : Z;
  internallySharedFiles : Z;
  highRiskFiles : list HighRiskFile;
  externalDomainCounts : list (string * Z);
  errors : Z;
  startTime : string
}.

(** [initializeSharedFilesStats(JSON.parse('{}'))]: the statistics a run
    starts from. *)
Definition initialStats (now : Date) : Stats :=
  {| totalFiles := 0; totalSize := 0; byAccessLevel := []; byPermission := [];
     byOwner := []; byFileType := []; publicFiles := 0; domainSharedFiles := 0;
     externallySharedFiles := 0; internallySharedFiles := 0;
     highRiskFiles := []; externalDomainCounts := []; errors := 0;
     startTime := toISOString now |}.

Definition highRiskFile (fileData : FileData) (riskLevel : Z) : HighRiskFile :=
  {| hr_name := name fileData; hr_type := type fileData; hr_size := size fileData;
     hr_owner := owner fileData; hr_sharingAccess := sharingAccess fileData;
     hr_sharingPermission := sharingPermission fileData;
     hr_path := folderPath fileData; hr_url := url fileData;
     hr_riskScore := riskLevel; hr_riskFactors := getRiskFactors fileData;
     hr_externalDomains := externalDomains fileData;
     hr_viewerCount := List.length (viewers fileData);
     hr_editorCount := List.length (editors fileData) |}.

(** The in-place update of [processSharedFile], [categorizeSharing]
    included. *)
Definition update (fileData : FileData) (stats : Stats) : Stats :=
  let riskLevel := assessSecurityRisk fileData in
  {| totalFiles := totalFiles stats + 1;
     totalSize := totalSize stats + size fileData;
     byAccessLevel := Arr.bump (sharingAccess fileData) (byAccessLevel stats);
     byPermission := Arr.bump (sharingPermission fileData) (byPermission stats);
     byOwner := Arr.bump (owner fileData) (byOwner stats);
     byFileType := Arr.bump (type fileData) (byFileType stats);
     publicFiles :=
       if isPublic fileData then publicFiles stats + 1 else publicFiles stats;
     domainSharedFiles :=
       if negb (isPublic fileData) && isDomainShared fileData
       then domainSharedFiles stats + 1 else domainSharedFiles stats;
     externallySharedFiles :=
       if negb (isPublic fileData) && negb (isDomainShared fileData)
          && (0 <? externalCount fileData)%nat
       then externallySharedFiles stats + 1 else externallySharedFiles stats;
     internallySharedFiles :=
       if negb (isPublic fileData) && negb (isDomainShared fileData)
          && negb (0 <? externalCount fileData)%nat
       then internallySharedFiles stats + 1 else internallySharedFiles stats;
     highRiskFiles :=
       if riskLevel >=? 70
       then Arr.pushSortSlice hr_riskScore 100 (highRiskFile fileData riskLevel)
                              (highRiskFiles stats)
       else highRiskFiles stats;
     externalDomainCounts :=
       fold_left (fun counts domain => Arr.bump domain counts)
                 (externalDomains fileData) (externalDomainCounts stats);
     errors := errors stats;
     startTime := startTime stats |}.

Definition updates (files : list FileData) (stats : Stats) : Stats :=
  fold_left (fun s d => update d s) files stats.

(** The rows [generateHighRiskFilesReport] writes below the header. *)
Definition generateHighRiskFilesReport (stats : Stats) : list HighRiskFile :=
  if (0 <? List.length (highRiskFiles stats))%nat then highRiskFiles stats else [].

(** *** Listing and extraction *)

Definition typeMap : list (string * string) :=
  [ ("doc", "Word Document"); ("docx", "Word Document");
    ("pdf", "PDF"); ("txt", "Text File");
    ("xls", "Excel"); ("xlsx", "Excel"); ("csv", "CSV");
    ("ppt", "PowerPoint"); ("pptx", "PowerPoint");
    ("jpg", "Image"); ("jpeg", "Image"); ("png", "Image");
    ("mp4", "Video"); ("avi", "Video"); ("mov", "Video");
    ("mp3", "Audio"); ("wav", "Audio");
    ("zip", "Archive"); ("rar", "Archive") ].

Definition getFileType (fileName mimeType : string) : value :=
  FileType.classify typeMap fileName mimeType.

Definition isSharedFile (file : File) : bool :=
  match getSharingAccess file with
  | Ret access => negb (String.eqb access "PRIVATE")
  | Throw _ => false
  end.

(** The page loop, which gives up after [maxCheck] listings. *)
Fixpoint fill (batchSize maxCheck : nat) (files : list File)
         (count checkedCount : nat) (filesToProcess : list File) {struct files}
  : list File * list File :=
  match files with
  | [] => (filesToProcess, [])
  | file :: rest =>
      if ((count <? batchSize) && (checkedCount <? maxCheck))%nat then
        if isSharedFile file
        then fill batchSize maxCheck rest (S count) (S checkedCount)
                  (filesToProcess ++ [file])%list
        else fill batchSize maxCheck rest count (S checkedCount) filesToProcess
      else (filesToProcess, files)
  end.

Definition getSharedFilesToProcess (drive : list File)
           (continuationToken : option Token) (batchSize : nat)
  : list File * list File :=
  let files :=
    match continuationToken with
    | Some t => continueFileIterator drive t
    | None => drive
    end in
  let maxCheck := (batchSize * 10)%nat in
  fill batchSize maxCheck files 0 0 [].

(** [email.split('@')[1]]; [None] is [undefined]. *)
Definition domainOf (email : string) : option string :=
  nth_error (split "@" email) 1.

(** [domain && domain !== ownerDomain] *)
Definition isExternal (ownerDomain domain : option string) : bool :=
  match domain with
  | Some d =>
      negb (String.eqb d "")
      && negb (match ownerDomain with
               | Some o => String.eqb d o
               | None => false
               end)
  | None => false
  end.

(** The strings of an array of strings and [undefined]s that passed a
    filter which rejects [undefined]. *)
Definition defined (a : list (option string)) : list string :=
  flat_map (fun x => match x with Some d => [d] | None => [] end) a.

(** What the [try] block of [extractSharedFileData] leaves in the record. *)
Record Sharing := {
  sh_sharingAccess : string;
  sh_sharingPermission : string;
  sh_viewers : list string;
  sh_editors : list string;
  sh_externalDomains : list string;
  sh_isPublic : bool;
  sh_isDomainShared : bool
}.

(** The [try] block of [extractSharedFileData] that reads the sharing
    details, for a record whose owner field is [owner_]: the fields keep
    their initial values from the first call that throws. *)
Definition sharingDetails (owner_ : string) (file : File) : Sharing :=
  match getSharingAccess file, getSharingPermission file with
  | Ret access, Ret permission =>
      let public := String.eqb access "ANYONE" || String.eqb access "ANYONE_WITH_LINK" in
      let domainShared :=
        String.eqb access "DOMAIN" || String.eqb access "DOMAIN_WITH_LINK" in
      match getViewers file, getEditors file with
      | Ret vs, Ret es =>
          let viewers_ := firstn 20 vs in
          let editors_ := firstn 20 es in
          let ownerDomain := domainOf owner_ in
          let allUsers := (viewers_ ++ editors_)%list in
          {| sh_sharingAccess := access; sh_sharingPermission := permission;
             sh_viewers := viewers_; sh_editors := editors_;
             sh_externalDomains :=
               Arr.unique (defined (filter (isExternal ownerDomain)
                                           (map domainOf allUsers)));
             sh_isPublic := public; sh_isDomainShared := domainShared |}
      | _, _ =>
          {| sh_sharingAccess := access; sh_sharingPermission := permission;
             sh_viewers := []; sh_editors := []; sh_externalDomains := [];
             sh_isPublic := public; sh_isDomainShared := domainShared |}
      end
  | _, _ =>
      {| sh_sharingAccess := "Private"; sh_sharingPermission := "None";
         sh_viewers := []; sh_editors := []; sh_externalDomains := [];
         sh_isPublic := false; sh_isDomainShared := false |}
  end.

(** The values of the enumeration [DriveApp.Access], as [toString] prints
    them. *)
Definition Access : list string :=
  [ "ANYONE"; "ANYONE_WITH_LINK"; "DOMAIN"; "DOMAIN_WITH_LINK"; "PRIVATE" ].

(** [extractSharedFileData], for a file whose type label is a string.  For
    the extensions that make [getFileType] return an inherited member the
    record holds no string there, and scoring it throws at
    [type.toLowerCase()]: [None]. *)
Definition extractSharedFileData (file : File) : Exc (option FileData) :=
  (let* id_ := getId file in
   let* name_ := getName file in
   let* mime := getMimeType file in
   let* size_ := getSize file in
   let* created_ := getDateCreated file in
   let* modified := getLastUpdated file in
   let* owner_ := getOwner file in
   let* url_ := getUrl file in
   let* descr := getDescription file in
   let path := Drive.folderPath 5 file in
   let sharing := sharingDetails (ownerEmail owner_) file in
   Ret (match getFileType name_ mime with
        | VString label =>
            Some {| name := name_; type := label; size := size_;
                    owner := ownerEmail owner_; url := url_; description := descr;
                    folderPath := path;
                    sharingAccess := sh_sharingAccess sharing;
                    sharingPermission := sh_sharingPermission sharing;
                    viewers := sh_viewers sharing; editors := sh_editors sharing;
                    externalDomains := sh_externalDomains sharing;
                    isPublic := sh_isPublic sharing;
                    isDomainShared := sh_isDomainShared sharing |}
        | VInherited _ => None
        end))%exc.

(** The sharing-exposure level [assessSecurityRisk] and [categorizeSharing]
    read off the two flags: public (2) above domain-shared (1) above
    neither (0). *)
Definition exposure (fileData : FileData) : nat :=
  if isPublic fileData then 2 else if isDomainShared fileData then 1 else 0.

(** The third branch of the two else-if chains: a record that is neither
    public nor domain-shared and has an external domain. *)
Definition externalOnly (fileData : FileData) : bool :=
  negb (isPublic fileData) && negb (isDomainShared fileData)
  && (0 <? externalCount fileData)%nat.

End SharedAudit.

(* ===================================================================== *)
(** ** The large-files finder *)
(* ===================================================================== *)

Module LargeFiles.

Record FileData := {
  name : string;
  type : string;
  size : Z;
  sharingAccess : string;
  ageInDays : Z
}.

Definition MB : Z := 1024 * 1024.

Definition suspiciousTypes : list string :=
  [ "zip"; "rar"; "tar"; "backup"; "tmp"; "log" ].

(** [calculateCleanupScore], statement by statement. *)
Definition calculateCleanupScore (fileData : FileData) : Z :=
  let score := 0 in
  let score :=
    if ageInDays fileData >? 730 then score + 40
    else if ageInDays fileData >? 365 then score + 30
    else if ageInDays fileData >? 180 then score + 20
    else if ageInDays fileData >? 90 then score + 10
    else score in
  let score :=
    if size fileData >? 1000 * MB then score + 30
    else if size fileData >? 500 * MB then score + 25
    else if size fileData >? 100 * MB then score + 20
    else if size fileData >? 50 * MB then score + 15
    else score + 10 in
  let fileType := toLowerCase (type fileData) in
  let score :=
    if existsb (fun t => includes fileType t) suspiciousTypes then score + 20
    else if includes fileType "video" || includes fileType "audio" then score + 10
    else score in
  let score :=
    if String.eqb (sharingAccess fileData) "Private" then score + 10 else score in
  Z.min score 100.

(** The factors one by one. *)
Definition agePoints (fileData : FileData) : Z :=
  if ageInDays fileData >? 730 then 40
  else if ageInDays fileData >? 365 then 30
  else if ageInDays fileData >? 180 then 20
  else if ageInDays fileData >? 90 then 10
  else 0.

Definition sizePoints (fileData : FileData) : Z :=
  if size fileData >? 1000 * MB then 30
  else if size fileData >? 500 * MB then 25
  else if size fileData >? 100 * MB then 20
  else if size fileData >? 50 * MB then 15
  else 10.

Definition typePoints (fileData : FileData) : Z :=
  let fileType := toLowerCase (type fileData) in
  if existsb (fun t => includes fileType t) suspiciousTypes then 20
  else if includes fileType "video" || includes fileType "audio" then 10
  else 0.

Definition privatePoints (fileData : FileData) : Z :=
  if String.eqb (sharingAccess fileData) "Private" then 10 else 0.

(** *** The page filter, the size categories and the statistics *)

Module CONFIG.
Definition BATCH_SIZE : nat := 50.
Module SIZE_THRESHOLDS.
Definition HUGE : Z := 500.
Definition VERY_LARGE : Z := 100.
Definition LARGE : Z := 50.
Definition MEDIUM : Z := 10.
End SIZE_THRESHOLDS.
Definition TRACK_PERMISSIONS : bool := true.
Definition MAX_FILES_PER_CATEGORY : nat := 200.
End CONFIG.

Definition isLargeFile (file : File) : bool :=
  match getSize file with
  | Ret sizeInBytes => sizeInBytes >=? CONFIG.SIZE_THRESHOLDS.MEDIUM * MB
  | Throw _ => false
  end.

Definition getSizeCategory (sizeInBytes : Z) : string :=
  if sizeInBytes >=? CONFIG.SIZE_THRESHOLDS.HUGE * MB then "Huge (500MB+)"
  else if sizeInBytes >=? CONFIG.SIZE_THRESHOLDS.VERY_LARGE * MB
  then "Very Large (100-500MB)"
  else if sizeInBytes >=? CONFIG.SIZE_THRESHOLDS.LARGE * MB then "Large (50-100MB)"
  else if sizeInBytes >=? CONFIG.SIZE_THRESHOLDS.MEDIUM * MB then "Medium (10-50MB)"
  else "Other".

(** The list [getCleanupReasons] tests the type against; it lacks the
    ['tar'] of the list the score uses. *)
Definition reasonTypes : list string := [ "zip"; "rar"; "backup"; "tmp"; "log" ].

(** [getCleanupReasons].  [sizeInMB.toFixed(0)] rounds to the nearest
    integer, a half upwards. *)
Definition getCleanupReasons (fileData : FileData) : list string :=
  ((if ageInDays fileData >? 365
    then [("Not modified in " ++ string_of_Z (ageInDays fileData / 365)
             ++ " year(s)")%string]
    else [])
   ++ (if size fileData >? 500 * MB
       then [("Very large file ("
                ++ string_of_Z ((2 * size fileData + MB) / (2 * MB)) ++ "MB)")%string]
       else [])
   ++ (if existsb (fun t => includes (toLowerCase (type fileData)) t) reasonTypes
       then ["Potentially temporary or archive file"] else [])
   ++ (if String.eqb (sharingAccess fileData) "Private"
       then ["Private file (safer to remove)"] else []))%list.

(** The record [extractLargeFileData] builds: the fields the score reads,
    and the others the statistics use. *)
Record LargeFileData := {
  scored : FileData;
  created : string;
  lastModified : string;
  owner : string;
  url : string;
  folderPath : string
}.

Record LargeFile := {
  lf_name : string; lf_size : Z; lf_type : string; lf_sizeCategory : string;
  lf_created : string; lf_lastModified : string; lf_owner : string;
  lf_path : string; lf_sharingAccess : string; lf_url : string;
  lf_ageInDays : Z; lf_cleanupScore : Z
}.

Record CleanupCandidate := {
  cc_name : string; cc_size : Z; cc_type : string; cc_path : string;
  cc_url : string; cc_cleanupScore : Z; cc_reasons : list string
}.

Record Candidate := {
  dc_name : string; dc_path : string; dc_size : Z; dc_type : string;
  dc_lastModified : string; dc_url : string
}.

Record Folder := {
  count : Z;
  folderSize : Z
}.

Record Stats := {
  totalFiles : Z;
  totalSize : Z;
  bySizeCategory : list (string * Z);
  byFileType : list (string * Z);
  byFolder : list (string * Folder);
  byOwner : list (string * Z);
  largeFiles : list LargeFile;
  cleanupCandidates : list CleanupCandidate;
  duplicateCandidates : list (string * list Candidate);
  errors : Z;
  startTime : string
}.

(** [initializeLargeFilesStats(JSON.parse('{}'))]: the statistics a run
    starts from. *)
Definition initialStats (now : Date) : Stats :=
  {| totalFiles := 0; totalSize := 0; bySizeCategory := []; byFileType := [];
     byFolder := []; byOwner := []; largeFiles := []; cleanupCandidates := [];
     duplicateCandidates := []; errors := 0; startTime := toISOString now |}.

Definition largeFile (d : LargeFileData) : LargeFile :=
  {| lf_name := name (scored d); lf_size := size (scored d);
     lf_type := type (scored d);
     lf_sizeCategory := getSizeCategory (size (scored d));
     lf_created := created d; lf_lastModified := lastModified d;
     lf_owner := owner d; lf_path := folderPath d;
     lf_sharingAccess := sharingAccess (scored d); lf_url := url d;
     lf_ageInDays := ageInDays (scored d);
     lf_cleanupScore := calculateCleanupScore (scored d) |}.

Definition cleanupCandidate (d : LargeFileData) : CleanupCandidate :=
  {| cc_name := name (scored d); cc_size := size (scored d);
     cc_type := type (scored d); cc_path := folderPath d; cc_url := url d;
     cc_cleanupScore := calculateCleanupScore (scored d);
     cc_reasons := getCleanupReasons (scored d) |}.

Definition candidate (d : LargeFileData) : Candidate :=
  {| dc_name := name (scored d); dc_path := folderPath d;
     dc_size := size (scored d); dc_type := type (scored d);
     dc_lastModified := lastModified d; dc_url := url d |}.

(** [if (!o[k]) o[k] = { count: 0, totalSize: 0 }; o[k].count++;
    o[k].totalSize += bytes] *)
Definition addToFolder (path : string) (bytes : Z) (o : list (string * Folder))
  : list (string * Folder) :=
  let entry :=
    match assoc path o with
    | Some e => e
    | None => {| count := 0; folderSize := 0 |}
    end in
  Arr.set path {| count := count entry + 1; folderSize := folderSize entry + bytes |} o.

(** [if (!o[k]) o[k] = []; o[k].push(c)] *)
Definition pushCandidate (k : string) (c : Candidate)
           (o : list (string * list Candidate)) : list (string * list Candidate) :=
  match assoc k o with
  | Some group => Arr.set k (group ++ [c])%list o
  | None => Arr.set k [c] o
  end.

(** The in-place update of [processLargeFile], for a record whose type is
    a string. *)
Definition update (d : LargeFileData) (stats : Stats) : Stats :=
  let fileData := scored d in
  let cleanupScore := calculateCleanupScore fileData in
  {| totalFiles := totalFiles stats + 1;
     totalSize := totalSize stats + size fileData;
     bySizeCategory := Arr.bump (getSizeCategory (size fileData)) (bySizeCategory stats);
     byFileType := Arr.bump (type fileData) (byFileType stats);
     byFolder :=
       if String.eqb (folderPath d) "" then byFolder stats
       else addToFolder (folderPath d) (size fileData) (byFolder stats);
     byOwner := Arr.bump (owner d) (byOwner stats);
     largeFiles :=
       Arr.pushSortSlice lf_size CONFIG.MAX_FILES_PER_CATEGORY (largeFile d)
                         (largeFiles stats);
     cleanupCandidates :=
       if cleanupScore >=? 70
       then Arr.pushSortSlice cc_cleanupScore 100 (cleanupCandidate d)
                              (cleanupCandidates stats)
       else cleanupCandidates stats;
     duplicateCandidates :=
       pushCandidate (name fileData ++ "_" ++ string_of_Z (size fileData))
                     (candidate d) (duplicateCandidates stats);
     errors := errors stats;
     startTime := startTime stats |}.

Definition updates (files : list LargeFileData) (stats : Stats) : Stats :=
  fold_left (fun s d => update d s) files stats.

(** *** Extraction *)

Definition typeMap : list (string * string) :=
  [ ("doc", "Word Document"); ("docx", "Word Document");
    ("pdf", "PDF"); ("txt", "Text File");
    ("xls", "Excel"); ("xlsx", "Excel"); ("csv", "CSV");
    ("ppt", "PowerPoint"); ("pptx", "PowerPoint");
    ("jpg", "Image"); ("jpeg", "Image"); ("png", "Image"); ("gif", "Image");
    ("mp4", "Video"); ("avi", "Video"); ("mov", "Video"); ("wmv", "Video");
    ("mp3", "Audio"); ("wav", "Audio"); ("flac", "Audio");
    ("zip", "Archive"); ("rar", "Archive"); ("7z", "Archive");
    ("js", "Code"); ("html", "Code"); ("css", "Code"); ("py", "Code") ].

Definition getFileType (fileName mimeType : string) : value :=
  FileType.classify typeMap fileName mimeType.

(** The [sharingAccess] field [extractLargeFileData] leaves in the record:
    the field starts as ['Private'] and is overwritten with what
    [getSharingAccess] answered when that call and [getSharingPermission]
    both return. *)
Definition sharingAccessOf (file : File) : string :=
  if CONFIG.TRACK_PERMISSIONS then
    match getSharingAccess file, getSharingPermission file with
    | Ret access, Ret _ => access
    | _, _ => "Private"
    end
  else "Private".

(** [extractLargeFileData] at the time [now], for a file whose type label
    is a string; [None] when the label is an inherited member, for which
    [calculateCleanupScore] throws at [type.toLowerCase()]. *)
Definition extractLargeFileData (now : Date) (file : File)
  : Exc (option LargeFileData) :=
  (let* id_ := getId file in
   let* name_ := getName file in
   let* mime := getMimeType file in
   let* size_ := getSize file in
   let* created_ := getDateCreated file in
   let* modified := getLastUpdated file in
   let* owner_ := getOwner file in
   let* url_ := getUrl file in
   let* descr := getDescription file in
   Ret (match getFileType name_ mime with
        | VString label =>
            Some {| scored :=
                      {| name := name_; type := label; size := size_;
                         sharingAccess := sharingAccessOf file;
                         ageInDays := (getTime now - getTime modified) / msPerDay |};
                    created := toISOString created_;
                    lastModified := toISOString modified;
                    owner := ownerEmail owner_; url := url_;
                    folderPath := Drive.folderPath 5 file |}
        | VInherited _ => None
        end))%exc.

(** The cleanup score [processLargeFile] computes for a file, when it gets
    that far. *)
Definition cleanupScoreOf (now : Date) (file : File) : option Z :=
  match extractLargeFileData now file with
  | Ret (Some d) => Some (calculateCleanupScore (scored d))
  | _ => None
  end.

End LargeFiles.

(* ===================================================================== *)
(** ** code-files-inventory.js *)
(* ===================================================================== *)

Module CodeFiles.

Module CONFIG.
Definition BATCH_SIZE : nat := 100.
Definition LARGE_FILE_THRESHOLD_MB : Z := 5.
Definition OLD_FILE_THRESHOLD_DAYS : Z := 365.

Definition PROGRAMMING_LANGUAGES : list (string * string) :=
  [ ("js", "JavaScript"); ("jsx", "React/JSX"); ("ts", "TypeScript");
    ("tsx", "TypeScript React");
    ("html", "HTML"); ("htm", "HTML"); ("css", "CSS"); ("scss", "SASS/SCSS");
    ("sass", "SASS/SCSS");
    ("less", "LESS"); ("vue", "Vue.js"); ("svelte", "Svelte");
    ("py", "Python"); ("java", "Java"); ("c", "C"); ("cpp", "C++");
    ("cc", "C++"); ("cxx", "C++");
    ("cs", "C#"); ("php", "PHP"); ("rb", "Ruby"); ("go", "Go"); ("rs", "Rust");
    ("kt", "Kotlin"); ("scala", "Scala"); ("clj", "Clojure"); ("hs", "Haskell");
    ("swift", "Swift"); ("dart", "Dart"); ("lua", "Lua"); ("r", "R");
    ("m", "Objective-C"); ("mm", "Objective-C++");
    ("sql", "SQL"); ("json", "JSON"); ("xml", "XML"); ("yaml", "YAML");
    ("yml", "YAML");
    ("toml", "TOML"); ("ini", "INI"); ("cfg", "Config"); ("conf", "Config");
    ("sh", "Shell Script"); ("bash", "Bash Script"); ("ps1", "PowerShell");
    ("bat", "Batch File"); ("cmd", "Command File");
    ("md", "Markdown"); ("rst", "reStructuredText"); ("tex", "LaTeX");
    ("dockerfile", "Docker"); ("makefile", "Makefile"); ("cmake", "CMake") ].

Definition CONFIG_FILES : list string :=
  [ "package.json"; "composer.json"; "requirements.txt"; "gemfile"; "cargo.toml";
    "pom.xml"; "build.gradle"; "tsconfig.json"; "webpack.config.js"; "gulpfile.js";
    "dockerfile"; "docker-compose.yml"; ".gitignore"; ".env"; ".env.example";
    "makefile"; "cmake"; ".editorconfig"; ".prettierrc"; ".eslintrc" ].

Definition REPO_INDICATORS : list string :=
  [ ".git"; "package.json"; "composer.json"; "requirements.txt"; "gemfile";
    "cargo.toml"; "pom.xml"; "build.gradle"; "dockerfile"; "readme.md" ].

Definition SCRIPT_PATTERNS : list string :=
  [ "script"; "bin"; "tool"; "util"; "helper"; "run"; "build"; "deploy" ].
End CONFIG.

Definition knownLanguage (extension : string) : bool :=
  match get CONFIG.PROGRAMMING_LANGUAGES extension with
  | Some v => truthy v
  | None => false
  end.

Definition isCodeFile (file : File) : bool :=
  let checks : Exc bool :=
    (let* name_ := getName file in
     let fileName := toLowerCase name_ in
     let extension := pop (split "." fileName) in
     let* mimeType := getMimeType file in
     if knownLanguage extension then Ret true
     else if mem fileName CONFIG.CONFIG_FILES then Ret true
     else if negb (includes fileName ".")
             && (existsb (fun pattern => includes fileName pattern) CONFIG.SCRIPT_PATTERNS
                 || String.eqb fileName "makefile" || String.eqb fileName "dockerfile")
          then Ret true
     else if String.eqb mimeType "text/plain"
             && (knownLanguage extension || includes fileName "script"
                 || includes fileName "config")
          then Ret true
     else Ret false)%exc in
  match checks with
  | Ret b => b
  | Throw _ => false
  end.

(** The page loop, which gives up after [maxCheck] listings. *)
Fixpoint fill (batchSize maxCheck : nat) (files : list File)
         (count checkedCount : nat) (filesToProcess : list File) {struct files}
  : list File * list File :=
  match files with
  | [] => (filesToProcess, [])
  | file :: rest =>
      if ((count <? batchSize) && (checkedCount <? maxCheck))%nat then
        if isCodeFile file
        then fill batchSize maxCheck rest (S count) (S checkedCount)
                  (filesToProcess ++ [file])%list
        else fill batchSize maxCheck rest count (S checkedCount) filesToProcess
      else (filesToProcess, files)
  end.

Definition getCodeFilesToProcess (drive : list File)
           (continuationToken : option Token) (batchSize : nat)
  : list File * list File :=
  let files :=
    match continuationToken with
    | Some t => continueFileIterator drive t
    | None => drive
    end in
  let maxCheck := (batchSize * 15)%nat in
  fill batchSize maxCheck files 0 0 [].

Definition getLanguage (fileName : string) : value :=
  let lowerName := toLowerCase fileName in
  let extension := pop (split "." lowerName) in
  let special :=
    if String.eqb lowerName "makefile" || startsWith lowerName "makefile."
    then VString "Makefile"
    else if String.eqb lowerName "dockerfile" || startsWith lowerName "dockerfile."
    then VString "Docker"
    else if mem lowerName CONFIG.CONFIG_FILES then VString "Configuration"
    else VString "Unknown" in
  or_else (get CONFIG.PROGRAMMING_LANGUAGES extension) special.

Definition getFileCategory (fileName : string) : string :=
  let lowerName := toLowerCase fileName in
  if mem lowerName CONFIG.CONFIG_FILES || includes lowerName "config"
     || includes lowerName ".env" || startsWith lowerName "."
  then "Configuration"
  else if existsb (fun pattern => includes lowerName pattern) CONFIG.SCRIPT_PATTERNS
          || mem (pop (split "." lowerName)) ["sh"; "bash"; "ps1"; "bat"; "cmd"]
  then "Script"
  else if includes lowerName "test" || includes lowerName "spec" then "Test"
  else if includes lowerName "readme" || includes lowerName "doc" then "Documentation"
  else if includes lowerName "build" || includes lowerName "make"
          || mem lowerName ["pom.xml"; "build.gradle"; "cargo.toml"]
  then "Build"
  else "Source Code".

Definition repoLike (part : string) : bool :=
  let lowerPart := toLowerCase part in
  includes lowerPart "project" || includes lowerPart "repo"
  || includes lowerPart "code" || includes lowerPart "dev"
  || includes lowerPart "src" || includes lowerPart "app".

Definition extractProjectName (folderPath : string) : string :=
  if String.eqb folderPath "" || String.eqb folderPath "Root"
     || String.eqb folderPath "Unknown"
  then "Uncategorized"
  else
    let parts := split "/" folderPath in
    match find repoLike parts with
    | Some part => part
    | None =>
        match parts with
        | first :: _ => if String.eqb first "" then "Uncategorized" else first
        | [] => "Uncategorized"
        end
    end.

Definition checkIfInRepository (folderPath fileName : string) : bool :=
  let path := toLowerCase folderPath in
  let name_ := toLowerCase fileName in
  existsb (fun indicator => includes path indicator || String.eqb name_ indicator)
          CONFIG.REPO_INDICATORS
  || includes path "src" || includes path "lib" || includes path "app".

Record FileData := {
  id : string;
  name : string;
  mimeType : string;
  extension : string;
  language : value;
  category : string;
  size : Z;
  created : string;
  lastModified : Date;
  owner : string;
  url : string;
  description : string;
  folderPath : string;
  project : string;
  isInRepository : bool;
  sharingAccess : string
}.

Definition extractCodeFileData (file : File) : Exc FileData :=
  (let* fileName := getName file in
   let* id_ := getId file in
   let* mime := getMimeType file in
   let* size_ := getSize file in
   let* created_ := getDateCreated file in
   let* modified := getLastUpdated file in
   let* owner_ := getOwner file in
   let* url_ := getUrl file in
   let* descr := getDescription file in
   let '(path, project_, inRepo) :=
     match getParents file with
     | Throw _ => ("Unknown", "Uncategorized", false)
     | Ret _ =>
         let p := Drive.folderPath 4 file in
         (p, extractProjectName p, checkIfInRepository p fileName)
     end in
   let access :=
     match getSharingAccess file with
     | Ret a => a
     | Throw _ => "Private"
     end in
   Ret {| id := id_; name := fileName; mimeType := mime;
          extension := toLowerCase (pop (split "." fileName));
          language := getLanguage fileName; category := getFileCategory fileName;
          size := size_; created := toISOString created_; lastModified := modified;
          owner := ownerEmail owner_; url := url_; description := descr;
          folderPath := path; project := project_; isInRepository := inRepo;
          sharingAccess := access |})%exc.

(** The [languages] member of a repository entry.  [processCodeFile] creates
    it as a [Set]; such a set has no enumerable own property, so
    [JSON.stringify] writes it as the empty object and [JSON.parse] gives
    back a plain object, which has no [add] method. *)
Inductive Languages :=
| LanguageSet (members : list string)
| PlainObject.

Record Repository := {
  fileCount : Z;
  languages : Languages;
  hasConfig : bool;
  lastActivity : string
}.

Record LargeFile := {
  lf_name : string; lf_size : Z; lf_language : string; lf_category : string;
  lf_path : string; lf_url : string; lf_lastModified : string
}.

Record OldFile := {
  of_name : string; of_language : string; of_lastModified : string;
  of_ageInDays : Z; of_path : string; of_url : string
}.

Record Stats := {
  totalFiles : Z;
  totalSize : Z;
  byLanguage : list (string * Z);
  byCategory : list (string * Z);
  byProject : list (string * Arr.tally);
  byOwner : list (string * Z);
  byYear : list (string * Z);
  largeFiles : list LargeFile;
  oldFiles : list OldFile;
  repositories : list (string * Repository);
  errors : Z;
  startTime : string
}.

(** [JSON.parse(JSON.stringify(stats))] *)
Definition parseStringified (stats : Stats) : Stats :=
  {| totalFiles := totalFiles stats; totalSize := totalSize stats;
     byLanguage := byLanguage stats; byCategory := byCategory stats;
     byProject := byProject stats; byOwner := byOwner stats;
     byYear := byYear stats; largeFiles := largeFiles stats;
     oldFiles := oldFiles stats;
     repositories :=
       map (fun kv =>
              (fst kv,
               {| fileCount := fileCount (snd kv); languages := PlainObject;
                  hasConfig := hasConfig (snd kv);
                  lastActivity := lastActivity (snd kv) |}))
           (repositories stats);
     errors := errors stats; startTime := startTime stats |}.

Definition initializeCodeStats (now : Date) (stored : option Stats) : Stats :=
  match stored with
  | None =>
      {| totalFiles := 0; totalSize := 0; byLanguage := []; byCategory := [];
         byProject := []; byOwner := []; byYear := []; largeFiles := [];
         oldFiles := []; repositories := []; errors := 0;
         startTime := toISOString now |}
  | Some s =>
      {| totalFiles := totalFiles s; totalSize := totalSize s;
         byLanguage := byLanguage s; byCategory := byCategory s;
         byProject := byProject s; byOwner := byOwner s; byYear := byYear s;
         largeFiles := largeFiles s; oldFiles := oldFiles s;
         repositories := repositories s; errors := errors s;
         startTime := if String.eqb (startTime s) "" then toISOString now
                      else startTime s |}
  end.

(** [set.add(x)]; on the plain object the call throws a [TypeError]. *)
Definition add (x : string) (l : Languages) : Exc Languages :=
  match l with
  | LanguageSet members =>
      Ret (LanguageSet (if mem x members then members else members ++ [x])%list)
  | PlainObject => Throw "TypeError: languages.add is not a function"
  end.

Definition withRepositories (stats : Stats) (r : list (string * Repository)) : Stats :=
  {| totalFiles := totalFiles stats; totalSize := totalSize stats;
     byLanguage := byLanguage stats; byCategory := byCategory stats;
     byProject := byProject stats; byOwner := byOwner stats;
     byYear := byYear stats; largeFiles := largeFiles stats;
     oldFiles := oldFiles stats; repositories := r;
     errors := errors stats; startTime := startTime stats |}.

(** The statements of [processCodeFile] down to the project counter. *)
Definition updateCounts (fileData : FileData) (stats : Stats) : Stats :=
  {| totalFiles := totalFiles stats + 1;
     totalSize := totalSize stats + size fileData;
     byLanguage := Arr.bump (to_key (language fileData)) (byLanguage stats);
     byCategory := Arr.bump (category fileData) (byCategory stats);
     byProject :=
       if String.eqb (project fileData) "" then byProject stats
       else Arr.bumpAny (project fileData) (byProject stats);
     byOwner := byOwner stats; byYear := byYear stats;
     largeFiles := largeFiles stats; oldFiles := oldFiles stats;
     repositories := repositories stats;
     errors := errors stats; startTime := startTime stats |}.

(** The block under [if (fileData.isInRepository)]: the entry is created
    when missing, its counter is incremented, and then the language is added
    to its set; the statistics keep the increment when [add] throws.  When
    the project names a member that [stats.repositories] inherits, the
    lookup finds that member, no entry is created, the increment goes to the
    inherited function or object, outside the statistics, and reading
    [languages.add] from it throws. *)
Definition trackRepository (fileData : FileData) (stats : Stats) : Stats * Exc unit :=
  if negb (String.eqb (project fileData) "") && isInRepository fileData then
    if Arr.inherited (project fileData) (repositories stats) then
      (stats, Throw "TypeError: Cannot read properties of undefined (reading 'add')")
    else
    let modified := toISOString (lastModified fileData) in
    let entry :=
      match assoc (project fileData) (repositories stats) with
      | Some r => r
      | None => {| fileCount := 0; languages := LanguageSet [];
                   hasConfig := false; lastActivity := modified |}
      end in
    let counted :=
      {| fileCount := fileCount entry + 1; languages := languages entry;
         hasConfig := hasConfig entry; lastActivity := lastActivity entry |} in
    match add (to_key (language fileData)) (languages counted) with
    | Throw e =>
        (withRepositories stats
           (Arr.set (project fileData) counted (repositories stats)), Throw e)
    | Ret langs =>
        let updated :=
          {| fileCount := fileCount counted; languages := langs;
             hasConfig := if String.eqb (category fileData) "Configuration"
                          then true else hasConfig counted;
             lastActivity := if String.ltb (lastActivity counted) modified
                             then modified else lastActivity counted |} in
        (withRepositories stats
           (Arr.set (project fileData) updated (repositories stats)), Ret tt)
    end
  else (stats, Ret tt).

Definition ageMs (now : Date) (d : FileData) : Z :=
  getTime now - getTime (lastModified d).

Definition largeFile (d : FileData) : LargeFile :=
  {| lf_name := name d; lf_size := size d; lf_language := to_key (language d);
     lf_category := category d; lf_path := folderPath d; lf_url := url d;
     lf_lastModified := toISOString (lastModified d) |}.

Definition oldFile (now : Date) (d : FileData) : OldFile :=
  {| of_name := name d; of_language := to_key (language d);
     of_lastModified := toISOString (lastModified d);
     of_ageInDays := ageMs now d / msPerDay;
     of_path := folderPath d; of_url := url d |}.

(** The statements of [processCodeFile] from the owner counter on. *)
Definition updateRest (now : Date) (fileData : FileData) (stats : Stats) : Stats :=
  {| totalFiles := totalFiles stats; totalSize := totalSize stats;
     byLanguage := byLanguage stats; byCategory := byCategory stats;
     byProject := byProject stats;
     byOwner := Arr.bump (owner fileData) (byOwner stats);
     byYear :=
       Arr.bump (string_of_Z (getFullYear (lastModified fileData))) (byYear stats);
     largeFiles :=
       if size fileData >? CONFIG.LARGE_FILE_THRESHOLD_MB * 1024 * 1024
       then Arr.pushSortSlice lf_size 50 (largeFile fileData) (largeFiles stats)
       else largeFiles stats;
     oldFiles :=
       if ageMs now fileData >? CONFIG.OLD_FILE_THRESHOLD_DAYS * msPerDay
       then Arr.pushIfRoom 50 (oldFile now fileData) (oldFiles stats)
       else oldFiles stats;
     repositories := repositories stats;
     errors := errors stats; startTime := startTime stats |}.

Record Spreadsheet := {
  codeList : list FileData;
  rowsLeft : nat;
  overview : option Stats;
  finalReports : option Stats
}.

Definition addToCodeListSheet (spreadsheet : Spreadsheet) (fileData : FileData)
  : Exc Spreadsheet :=
  match rowsLeft spreadsheet with
  | O => Throw "appendRow"
  | S n => Ret {| codeList := (codeList spreadsheet ++ [fileData])%list;
                  rowsLeft := n; overview := overview spreadsheet;
                  finalReports := finalReports spreadsheet |}
  end.

Definition updateCodeOverviewSheet (spreadsheet : Spreadsheet) (stats : Stats)
  : Spreadsheet :=
  {| codeList := codeList spreadsheet; rowsLeft := rowsLeft spreadsheet;
     overview := Some stats; finalReports := finalReports spreadsheet |}.

(** The final reports are projections of the statistics they are given. *)
Definition generateCodeFinalReports (spreadsheet : Spreadsheet) (stats : Stats)
  : Spreadsheet :=
  let s := updateCodeOverviewSheet spreadsheet stats in
  {| codeList := codeList s; rowsLeft := rowsLeft s; overview := overview s;
     finalReports := Some stats |}.

Definition processCodeFile (now : Date) (file : File)
           (spreadsheet : Spreadsheet) (stats : Stats)
  : Stats * Spreadsheet * Exc unit :=
  match extractCodeFileData file with
  | Throw e => (stats, spreadsheet, Throw e)
  | Ret fileData =>
      match trackRepository fileData (updateCounts fileData stats) with
      | (stats1, Throw e) => (stats1, spreadsheet, Throw e)
      | (stats1, Ret _) =>
          let stats2 := updateRest now fileData stats1 in
          match addToCodeListSheet spreadsheet fileData with
          | Ret spreadsheet' => (stats2, spreadsheet', Ret tt)
          | Throw e => (stats2, spreadsheet, Throw e)
          end
      end
  end.

Definition countError (stats : Stats) : Stats :=
  {| totalFiles := totalFiles stats; totalSize := totalSize stats;
     byLanguage := byLanguage stats; byCategory := byCategory stats;
     byProject := byProject stats; byOwner := byOwner stats;
     byYear := byYear stats; largeFiles := largeFiles stats;
     oldFiles := oldFiles stats; repositories := repositories stats;
     errors := errors stats + 1; startTime := startTime stats |}.

(** The loop of [runCodeInventoryBatch]; its handler calls [file.getName()]
    for the log line before it counts the error. *)
Fixpoint processFiles (now : Date) (files : list File) (spreadsheet : Spreadsheet)
         (stats : Stats) (processedCount : nat)
  : Stats * Spreadsheet * nat * Exc unit :=
  match files with
  | [] => (stats, spreadsheet, processedCount, Ret tt)
  | file :: rest =>
      let attempt : Stats * Spreadsheet * Exc bool :=
        if isCodeFile file then
          match processCodeFile now file spreadsheet stats with
          | (s, sh, Ret _) => (s, sh, Ret true)
          | (s, sh, Throw e) => (s, sh, Throw e)
          end
        else (stats, spreadsheet, Ret false) in
      match attempt with
      | (stats', spreadsheet', Ret counted) =>
          processFiles now rest spreadsheet' stats'
                       (if counted then S processedCount else processedCount)
      | (stats', spreadsheet', Throw _) =>
          match getName file with
          | Ret _ => processFiles now rest spreadsheet' (countError stats') processedCount
          | Throw e => (stats', spreadsheet', processedCount, Throw e)
          end
      end
  end.

Definition countsJson (o : list (string * Z)) : json :=
  JObj (map (fun kv => (fst kv, JNum (snd kv))) o).

Definition talliesJson (o : list (string * Arr.tally)) : json :=
  JObj (map (fun kv => (fst kv, match snd kv with
                                | Arr.Number n => JNum n
                                | Arr.Text t => JStr t
                                end)) o).

Definition toJson (stats : Stats) : json :=
  JObj [ ("totalFiles", JNum (totalFiles stats));
         ("totalSize", JNum (totalSize stats));
         ("byLanguage", countsJson (byLanguage stats));
         ("byCategory", countsJson (byCategory stats));
         ("byProject", talliesJson (byProject stats));
         ("byOwner", countsJson (byOwner stats));
         ("byYear", countsJson (byYear stats));
         ("largeFiles",
          JArr (map (fun e => JObj [ ("name", JStr (lf_name e));
                                     ("size", JNum (lf_size e));
                                     ("language", JStr (lf_language e));
                                     ("category", JStr (lf_category e));
                                     ("path", JStr (lf_path e));
                                     ("url", JStr (lf_url e));
                                     ("lastModified", JStr (lf_lastModified e)) ])
                    (largeFiles stats)));
         ("oldFiles",
          JArr (map (fun e => JObj [ ("name", JStr (of_name e));
                                     ("language", JStr (of_language e));
                                     ("lastModified", JStr (of_lastModified e));
                                     ("ageInDays", JNum (of_ageInDays e));
                                     ("path", JStr (of_path e));
                                     ("url", JStr (of_url e)) ])
                    (oldFiles stats)));
         ("repositories",
          JObj (map (fun kv =>
                       (fst kv,
                        JObj [ ("fileCount", JNum (fileCount (snd kv)));
                               ("languages", JObj []);
                               ("hasConfig", JBool (hasConfig (snd kv)));
                               ("lastActivity", JStr (lastActivity (snd kv))) ]))
                    (repositories stats)));
         ("errors", JNum (errors stats));
         ("startTime", JStr (startTime stats)) ].

Record Properties := {
  codeContinuationToken : option Token;
  codeInventoryStats : option Stats
}.

Definition noProperties : Properties :=
  {| codeContinuationToken := None; codeInventoryStats := None |}.

Record World := {
  scriptProperties : Properties;
  spreadsheet : Spreadsheet
}.

Record BatchResult := {
  processedCount : nat;
  hasMore : bool
}.

(** [runCodeInventoryBatch], with the batch size as a parameter. *)
Definition runBatch (batchSize : nat) (drive : list File) (now : Date) (quota : nat)
           (w : World) : World * Exc BatchResult :=
  let continuationToken := codeContinuationToken (scriptProperties w) in
  let stats := initializeCodeStats now (codeInventoryStats (scriptProperties w)) in
  let '(files, iterator) := getCodeFilesToProcess drive continuationToken batchSize in
  if (List.length files =? 0)%nat then
    ({| scriptProperties := noProperties;
        spreadsheet := generateCodeFinalReports (spreadsheet w) stats |},
     Ret {| processedCount := 0; hasMore := false |})
  else
    match processFiles now files (spreadsheet w) stats 0 with
    | (stats', sheet1, _, Throw e) =>
        ({| scriptProperties := scriptProperties w; spreadsheet := sheet1 |}, Throw e)
    | (stats', sheet1, processed, Ret _) =>
        if fits quota (stringify (toJson stats')) then
          let sheet2 := updateCodeOverviewSheet sheet1 stats' in
          match iterator with
          | _ :: _ =>
              let nextToken := (List.length drive - List.length iterator)%nat in
              ({| scriptProperties :=
                    {| codeContinuationToken := Some nextToken;
                       codeInventoryStats := Some (parseStringified stats') |};
                  spreadsheet := sheet2 |},
               Ret {| processedCount := processed; hasMore := true |})
          | [] =>
              ({| scriptProperties := noProperties;
                  spreadsheet := generateCodeFinalReports sheet2 stats' |},
               Ret {| processedCount := processed; hasMore := false |})
          end
        else
          ({| scriptProperties := scriptProperties w; spreadsheet := sheet1 |},
           Throw "setProperty")
    end.

Definition runCodeInventoryBatch := runBatch CONFIG.BATCH_SIZE.

(** The operator runs [inventoryCodeFiles] again as long as it reports more
    files: at most [invocations] batches. *)
Fixpoint crawl (invocations : nat) (batchSize : nat) (drive : list File) (now : Date)
         (quota : nat) (w : World) : World :=
  match invocations with
  | O => w
  | S n =>
      match runBatch batchSize drive now quota w with
      | (w', Ret r) => if hasMore r then crawl n batchSize drive now quota w' else w'
      | (w', Throw _) => w'
      end
  end.


End CodeFiles.

(* ===================================================================== *)
(** ** Orders on records, runs of updates, and sample inputs *)
(* ===================================================================== *)

(** [a] is at least as exposed as [b] in every factor of the security
    score: the exposure level, the edit permission, the keywords matched,
    the sensitivity of the type and the number of external domains. *)
Definition atLeastAsExposed (b a : SharedAudit.FileData) : Prop :=
  (SharedAudit.exposure b <= SharedAudit.exposure a)%nat
  /\ (SharedAudit.sharingPermission b = "EDIT" -> SharedAudit.sharingPermission a = "EDIT")
  /\ (forall keyword, SharedAudit.matchesKeyword b keyword = true ->
                      SharedAudit.matchesKeyword a keyword = true)
  /\ (mem (toLowerCase (SharedAudit.type b)) SharedAudit.sensitiveTypes = true ->
      mem (toLowerCase (SharedAudit.type a)) SharedAudit.sensitiveTypes = true)
  /\ (SharedAudit.externalCount b <= SharedAudit.externalCount a)%nat.

(** [a] is at least as old and as large as [b] and has the same type;
    when the sharing label of [b] is the default ['Private'], so is that
    of [a]. *)
Definition atLeastAsStale (b a : LargeFiles.FileData) : Prop :=
  LargeFiles.type a = LargeFiles.type b
  /\ (LargeFiles.sharingAccess b = "Private" -> LargeFiles.sharingAccess a = "Private")
  /\ LargeFiles.ageInDays b <= LargeFiles.ageInDays a
  /\ LargeFiles.size b <= LargeFiles.size a.

(** The uninterrupted pass of the complete inventory: the per-file loop
    over the files of a listing that [shouldIncludeFile] accepts, from new
    statistics. *)
Definition uninterrupted (now : Date) (listing : list File)
           (sheet : Complete.Spreadsheet)
  : Complete.Stats * Complete.Spreadsheet * nat :=
  Complete.processFiles now (filter Complete.shouldIncludeFile listing) sheet
                        (Complete.initializeStats now None) 0.

(** The report sheets written from given statistics. *)
Definition reportsOf (stats : Complete.Stats) : Complete.Reports :=
  {| Complete.r_large := Complete.largeFiles stats;
     Complete.r_old := Complete.oldFiles stats;
     Complete.r_duplicates := Complete.generateDuplicatesReport stats;
     Complete.r_shared := Complete.sharedFiles stats;
     Complete.r_types := Complete.filesByType stats |}.

Module Samples.

Definition date (ms : Z) (text : string) (year : Z) : Date :=
  {| getTime := ms; toISOString := text; getFullYear := year |}.

Definition now : Date := date 1767225600000 "2026-01-01T00:00:00.000Z" 2026.
Definition lastYear : Date := date 1750000000000 "2025-06-15T15:06:40.000Z" 2025.

(** A file every accessor of which answers. *)
Definition file (name_ mime : string) (size_ : Z) (parents : list string) : File :=
  {| getId := Ret ("id-" ++ name_);
     getName := Ret name_;
     getMimeType := Ret mime;
     getSize := Ret size_;
     getDateCreated := Ret lastYear;
     getLastUpdated := Ret lastYear;
     getOwner := Ret (Some "owner@example.com");
     getUrl := Ret ("https://drive.example/" ++ name_);
     getDescription := Ret "";
     getParents := Ret parents;
     getSharingAccess := Ret "PRIVATE";
     getSharingPermission := Ret "NONE";
     getViewers := Ret [];
     getEditors := Ret [];
     isTrashed := Ret false |}.

(** A file the service no longer lets the script read: every accessor
    throws. *)
Definition unreadable : File :=
  let gone {A} : Exc A := Throw "No item with the given ID could be found" in
  {| getId := gone; getName := gone; getMimeType := gone; getSize := gone;
     getDateCreated := gone; getLastUpdated := gone; getOwner := gone;
     getUrl := gone; getDescription := gone; getParents := gone;
     getSharingAccess := gone; getSharingPermission := gone;
     getViewers := gone; getEditors := gone; isTrashed := gone |}.

(** A shared-audit record, by what the sharing calls answered; the two
    flags are set from the access level as [extractSharedFileData] sets
    them. *)
Definition shared (access permission : string) (domains : list string)
  : SharedAudit.FileData :=
  {| SharedAudit.name := "minutes"; SharedAudit.type := "TXT";
     SharedAudit.size := 1024; SharedAudit.owner := "owner@example.com";
     SharedAudit.url := "https://drive.example/minutes";
     SharedAudit.description := ""; SharedAudit.folderPath := "Root";
     SharedAudit.sharingAccess := access; SharedAudit.sharingPermission := permission;
     SharedAudit.viewers := []; SharedAudit.editors := [];
     SharedAudit.externalDomains := domains;
     SharedAudit.isPublic := mem access ["ANYONE"; "ANYONE_WITH_LINK"];
     SharedAudit.isDomainShared := mem access ["DOMAIN"; "DOMAIN_WITH_LINK"] |}.

(** A large-files record, by age, size and sharing. *)
Definition large (age bytes : Z) (access : string) : LargeFiles.FileData :=
  {| LargeFiles.name := "dump.bin"; LargeFiles.type := "BIN";
     LargeFiles.size := bytes; LargeFiles.sharingAccess := access;
     LargeFiles.ageInDays := age |}.

(** A record of the complete inventory, by name, size and modification
    date; [access] is what [getSharingAccess] answered. *)
Definition inventoried (name_ : string) (bytes : Z) (modified : Date)
           (access : string) : Complete.FileData :=
  {| Complete.id := "id-" ++ name_; Complete.name := name_;
     Complete.mimeType := "application/octet-stream";
     Complete.type := Complete.getFileType name_ "application/octet-stream";
     Complete.size := bytes; Complete.created := toISOString modified;
     Complete.lastModified := modified; Complete.owner := "owner@example.com";
     Complete.url := "https://drive.example/" ++ name_;
     Complete.description := ""; Complete.folderPath := "Root";
     Complete.sharingAccess := access; Complete.sharingPermission := "NONE";
     Complete.viewers := []; Complete.editors := [] |}.

(** 400 and 800 days before [now]. *)
Definition days400 : Date := date 1732665600000 "2024-11-27T00:00:00.000Z" 2024.
Definition days800 : Date := date 1698105600000 "2023-10-24T00:00:00.000Z" 2023.

(** A small file at the top of the Drive. *)
Definition tiny : File :=
  {| getId := Ret "i"; getName := Ret "a"; getMimeType := Ret "";
     getSize := Ret 1; getDateCreated := Ret lastYear;
     getLastUpdated := Ret lastYear; getOwner := Ret (Some "o");
     getUrl := Ret "u"; getDescription := Ret ""; getParents := Ret [];
     getSharingAccess := Ret "Private"; getSharingPermission := Ret "None";
     getViewers := Ret []; getEditors := Ret []; isTrashed := Ret false |}.

(** The size the property store takes for one value: 9 KB. *)
Definition quota : nat := 9 * 1024.

Definition emptySheet : Complete.Spreadsheet :=
  {| Complete.statusCell := None; Complete.fileList := [];
     Complete.rowsLeft := 1000; Complete.reports := None |}.

Definition freshWorld : Complete.World :=
  {| Complete.scriptProperties := Complete.noProperties;
     Complete.spreadsheet := emptySheet |}.

(** The world the first batch over 250 small files leaves behind. *)
Definition afterFirstBatch : Complete.World :=
  fst (Complete.runInventoryBatch (repeat tiny 250) now quota freshWorld).

Definition optimizedSheet : Optimized.Spreadsheet :=
  {| Optimized.fileList := []; Optimized.rowsLeft := 1000;
     Optimized.progress := None |}.

Definition pdf : File := file "report.pdf" "application/pdf" 2048 ["Reports"].
Definition photo : File := file "photo.jpg" "image/jpeg" 4096 ["Photos"].



(** A source file in a folder that passes for a repository. *)
Definition sourceFile : File := file "main.js" "text/javascript" 512 ["src"].


Definition codeWorld : CodeFiles.World :=
  {| CodeFiles.scriptProperties := CodeFiles.noProperties;
     CodeFiles.spreadsheet :=
       {| CodeFiles.codeList := []; CodeFiles.rowsLeft := 1000;
          CodeFiles.overview := None; CodeFiles.finalReports := None |} |}.

(** The three records of the duplicate-grouping example. *)
Definition threeRecords : list (Date * Complete.FileData) :=
  [ (now, inventoried "a.txt" 100 lastYear "Private");
    (now, inventoried "a.txt" 100 lastYear "Private");
    (now, inventoried "b.txt" 50 lastYear "Private") ].

(** A clock that advances by [ms] from one reading to the next. *)
Definition every (ms : Z) : nat -> Z := fun i => Z.of_nat i * ms.

Definition optimizedWorld : Optimized.World :=
  {| Optimized.continuationToken := None;
     Optimized.spreadsheet := optimizedSheet;
     Optimized.progressRows := []; Optimized.finalReports := None |}.

(** The same file with other answers to the two sharing calls. *)
Definition sharedAs (access permission : Exc string) (f : File) : File :=
  {| getId := getId f; getName := getName f; getMimeType := getMimeType f;
     getSize := getSize f; getDateCreated := getDateCreated f;
     getLastUpdated := getLastUpdated f; getOwner := getOwner f;
     getUrl := getUrl f; getDescription := getDescription f;
     getParents := getParents f;
     getSharingAccess := access; getSharingPermission := permission;
     getViewers := getViewers f; getEditors := getEditors f;
     isTrashed := isTrashed f |}.

(** A file of 60 MB in the folder [Archive]. *)
Definition dump : File :=
  file "dump.bin" "application/octet-stream" (60 * 1024 * 1024) ["Archive"].

(** A record of the large-files finder in the folder [Archive]. *)
Definition largeData (name_ type_ : string) (age bytes : Z) (access : string)
  : LargeFiles.LargeFileData :=
  {| LargeFiles.scored :=
       {| LargeFiles.name := name_; LargeFiles.type := type_;
          LargeFiles.size := bytes; LargeFiles.sharingAccess := access;
          LargeFiles.ageInDays := age |};
     LargeFiles.created := toISOString lastYear;
     LargeFiles.lastModified := toISOString lastYear;
     LargeFiles.owner := "owner@example.com";
     LargeFiles.url := "https://drive.example/" ++ name_;
     LargeFiles.folderPath := "Archive" |}.

End Samples.

(** Case analysis on every threshold test of a goal. *)
Ltac by_thresholds :=
  repeat match goal with
         | |- context [?x >? ?c] => destruct (Z.gtb_spec x c)
         end; lia.

(* ===================================================================== *)
(** ** Type detection *)
(* ===================================================================== *)

Lemma toUpperCase_empty s : toUpperCase s = "" -> s = "".
Proof. destruct s; simpl; [reflexivity | discriminate]. Qed.

Lemma or_else_truthy a b : truthy b = true -> truthy (or_else a b) = true.
Proof.
  intros Hb. unfold or_else.
  destruct a as [v|]; [|exact Hb].
  destruct (truthy v) eqn:Hv; [exact Hv | exact Hb].
Qed.

(** Whatever the table, [classify] returns and the value it returns is
    truthy: neither [undefined] nor the empty string. *)
Lemma classify_truthy typeMap fileName mimeType :
  truthy (FileType.classify typeMap fileName mimeType) = true.
Proof.
  unfold FileType.classify.
  destruct (startsWith mimeType FileType.google_prefix); [reflexivity|].
  apply or_else_truthy. apply or_else_truthy. reflexivity.
Qed.

(** An extension that is neither in the table nor a member of
    [Object.prototype] falls back to its upper-case form, and to "Unknown"
    when it is empty. *)
Lemma classify_fallback typeMap fileName mimeType :
  startsWith mimeType FileType.google_prefix = false ->
  let extension := toLowerCase (pop (split "." fileName)) in
  get typeMap extension = None ->
  FileType.classify typeMap fileName mimeType
  = VString (if String.eqb extension "" then "Unknown" else toUpperCase extension).
Proof.
  intros Hg extension Hget. unfold FileType.classify. rewrite Hg.
  fold extension. rewrite Hget. simpl.
  destruct (String.eqb_spec extension "") as [->|Hne]; [reflexivity|].
  destruct (toUpperCase extension) eqn:Hu; [|reflexivity].
  apply toUpperCase_empty in Hu. contradiction.
Qed.

Example getFileType_pdf :
  Complete.getFileType "Report.PDF" "application/pdf" = VString "PDF".
Proof. reflexivity. Qed.

Example getFileType_google :
  Complete.getFileType "Plan" "application/vnd.google-apps.spreadsheet"
  = VString "Google Spreadsheet".
Proof. reflexivity. Qed.

Example getFileType_no_extension :
  Complete.getFileType "README" "text/plain" = VString "README".
Proof. reflexivity. Qed.

Example getFileType_empty : Complete.getFileType "" "" = VString "Unknown".
Proof. reflexivity. Qed.

Example getFileTypeSimple_trailing_dot :
  Optimized.getFileTypeSimple "archive." "application/octet-stream"
  = VString "Unknown".
Proof. reflexivity. Qed.

Example getFileTypeSimple_unknown_extension :
  Optimized.getFileTypeSimple "movie.webm" "video/webm" = VString "WEBM".
Proof. reflexivity. Qed.

(** C10: classification totality.  The classifier always returns a truthy
    value, but for a file whose extension is [constructor] (or [__proto__])
    the table lookup [typeMap[extension]] finds the member every object
    inherits, and that member is returned in place of the upper-cased
    extension: the result is not a label. *)
Theorem getFileType_inherited_extension :
  Complete.getFileType "notes.constructor" "text/plain" = VInherited "constructor"
  /\ toUpperCase (toLowerCase (pop (split "." "notes.constructor"))) = "CONSTRUCTOR"
  /\ Optimized.getFileTypeSimple "notes.constructor" "text/plain"
     = VInherited "constructor"
  /\ Complete.getFileType "x.__proto__" "" = VInherited "__proto__"
  /\ get Complete.typeMap "constructor" = Some (VInherited "constructor").
Proof. repeat split; reflexivity. Qed.

(* ===================================================================== *)
(** ** Scores *)
(* ===================================================================== *)

Section KeywordLoop.
Variable matches : string -> bool.

(** The [forEach] loop adds five points per matching keyword. *)
Lemma keyword_loop keywords score :
  fold_left (fun s keyword => if matches keyword then s + 5 else s) keywords score
  = score + 5 * Z.of_nat (List.length (filter matches keywords)).
Proof.
  revert score.
  induction keywords as [|k r IH]; intros score; cbn [fold_left filter].
  - cbn [List.length]. lia.
  - rewrite IH. destruct (matches k); cbn [List.length]; lia.
Qed.
End KeywordLoop.

Lemma filter_length_le (f g : string -> bool) (l : list string) :
  (forall x, f x = true -> g x = true) ->
  (List.length (filter f l) <= List.length (filter g l))%nat.
Proof.
  intros Hfg. induction l as [|x r IH]; simpl; [lia|].
  destruct (f x) eqn:Hf.
  - rewrite (Hfg x Hf). simpl. lia.
  - destruct (g x); simpl; lia.
Qed.

(** The score the code computes, factor by factor: the ceiling of 25 sits
    on the running total of sharing, permission and keyword points. *)
Lemma assessSecurityRisk_factors fileData :
  SharedAudit.assessSecurityRisk fileData
  = Z.min (Z.min (SharedAudit.sharingPoints fileData
                  + SharedAudit.permissionPoints fileData
                  + SharedAudit.keywordPoints fileData) 25
           + SharedAudit.typePoints fileData
           + SharedAudit.collaboratorPoints fileData) 100.
Proof.
  unfold SharedAudit.assessSecurityRisk. rewrite keyword_loop.
  unfold SharedAudit.sharingPoints, SharedAudit.permissionPoints,
    SharedAudit.keywordPoints, SharedAudit.typePoints,
    SharedAudit.collaboratorPoints.
  f_equal.
  destruct (SharedAudit.isPublic fileData), (SharedAudit.isDomainShared fileData),
    (0 <? SharedAudit.externalCount fileData)%nat,
    (String.eqb (SharedAudit.sharingPermission fileData) "EDIT"),
    (mem (toLowerCase (SharedAudit.type fileData)) SharedAudit.sensitiveTypes),
    (5 <? SharedAudit.externalCount fileData)%nat,
    (2 <? SharedAudit.externalCount fileData)%nat; cbn [andb]; lia.
Qed.

Lemma sharingPoints_range d : 0 <= SharedAudit.sharingPoints d <= 40.
Proof.
  unfold SharedAudit.sharingPoints.
  destruct (SharedAudit.isPublic d), (SharedAudit.isDomainShared d),
    (0 <? SharedAudit.externalCount d)%nat; lia.
Qed.

Lemma permissionPoints_range d : 0 <= SharedAudit.permissionPoints d <= 20.
Proof.
  unfold SharedAudit.permissionPoints.
  destruct (String.eqb (SharedAudit.sharingPermission d) "EDIT"),
    (SharedAudit.isPublic d); cbn [andb]; lia.
Qed.

Lemma keywordPoints_range d : 0 <= SharedAudit.keywordPoints d.
Proof. unfold SharedAudit.keywordPoints. lia. Qed.

Lemma typePoints_range d : 0 <= SharedAudit.typePoints d <= 10.
Proof.
  unfold SharedAudit.typePoints.
  destruct (mem (toLowerCase (SharedAudit.type d)) SharedAudit.sensitiveTypes); lia.
Qed.

Lemma collaboratorPoints_range d : 0 <= SharedAudit.collaboratorPoints d <= 15.
Proof.
  unfold SharedAudit.collaboratorPoints.
  destruct (5 <? SharedAudit.externalCount d)%nat,
    (2 <? SharedAudit.externalCount d)%nat,
    (0 <? SharedAudit.externalCount d)%nat; lia.
Qed.

Lemma assessSecurityRisk_range d : 0 <= SharedAudit.assessSecurityRisk d <= 50.
Proof.
  rewrite assessSecurityRisk_factors.
  pose proof (sharingPoints_range d). pose proof (permissionPoints_range d).
  pose proof (keywordPoints_range d). pose proof (typePoints_range d).
  pose proof (collaboratorPoints_range d). lia.
Qed.

(** The code never scores above the rule of the specification. *)
Lemma assessSecurityRisk_below_specified d :
  SharedAudit.assessSecurityRisk d <= SharedAudit.specifiedRisk d.
Proof.
  rewrite assessSecurityRisk_factors. unfold SharedAudit.specifiedRisk.
  pose proof (sharingPoints_range d). pose proof (permissionPoints_range d).
  pose proof (keywordPoints_range d). lia.
Qed.

(** C3: keyword-only sub-cap.  For a publicly editable file with no keyword
    in its name the code returns 25: [Math.min(riskScore, 25)] is applied to
    the running total, so the 40 points for public access and the 20 for
    public edit permission are cut down, where the rule with the cap on the
    keyword points alone gives 60. *)
Theorem assessSecurityRisk_caps_sharing_points :
  let fileData := Samples.shared "ANYONE" "EDIT" [] in
  SharedAudit.keywordPoints fileData = 0
  /\ SharedAudit.sharingPoints fileData + SharedAudit.permissionPoints fileData = 60
  /\ SharedAudit.assessSecurityRisk fileData = 25
  /\ SharedAudit.specifiedRisk fileData = 60.
Proof. repeat split; reflexivity. Qed.

Lemma highRiskFiles_update fileData stats :
  SharedAudit.highRiskFiles (SharedAudit.update fileData stats)
  = SharedAudit.highRiskFiles stats.
Proof.
  unfold SharedAudit.update. cbn [SharedAudit.highRiskFiles].
  pose proof (assessSecurityRisk_range fileData) as H.
  destruct (SharedAudit.assessSecurityRisk fileData >=? 70) eqn:E; [|reflexivity].
  apply Z.geb_le in E. lia.
Qed.

Lemma highRiskFiles_updates files stats :
  SharedAudit.highRiskFiles
    (SharedAudit.updates files stats)
  = SharedAudit.highRiskFiles stats.
Proof.
  unfold SharedAudit.updates.
  revert stats. induction files as [|d r IH]; intros stats; simpl; [reflexivity|].
  rewrite IH. apply highRiskFiles_update.
Qed.

(** C5: the ceiling of 25 sits on the sum of the sharing, permission and
    keyword points; at most 10 points for the type and 15 for the external
    domains come on top.  So the security score never exceeds 50, the test
    [riskLevel >= 70] of [processSharedFile] never holds, no update changes
    the high-risk list, and after any run that starts from fresh statistics
    the list and the report written from it are empty. *)
Theorem highRiskFiles_always_empty :
  forall (now : Date) (files : list SharedAudit.FileData)
         (fileData : SharedAudit.FileData) (stats : SharedAudit.Stats),
    SharedAudit.assessSecurityRisk fileData
    = Z.min (Z.min (SharedAudit.sharingPoints fileData
                    + SharedAudit.permissionPoints fileData
                    + SharedAudit.keywordPoints fileData) 25
             + SharedAudit.typePoints fileData
             + SharedAudit.collaboratorPoints fileData) 100
    /\ SharedAudit.typePoints fileData <= 10
    /\ SharedAudit.collaboratorPoints fileData <= 15
    /\ SharedAudit.assessSecurityRisk fileData <= 50
    /\ (SharedAudit.assessSecurityRisk fileData >=? 70) = false
    /\ SharedAudit.highRiskFiles (SharedAudit.update fileData stats)
       = SharedAudit.highRiskFiles stats
    /\ SharedAudit.highRiskFiles
         (SharedAudit.updates files (SharedAudit.initialStats now)) = []
    /\ SharedAudit.generateHighRiskFilesReport
         (SharedAudit.updates files (SharedAudit.initialStats now)) = [].
Proof.
  intros now files fileData stats.
  pose proof (assessSecurityRisk_range fileData) as H.
  pose proof (typePoints_range fileData) as Ht.
  pose proof (collaboratorPoints_range fileData) as Hc.
  split; [apply assessSecurityRisk_factors|].
  split; [lia|]. split; [lia|]. split; [lia|].
  split.
  - destruct (SharedAudit.assessSecurityRisk fileData >=? 70) eqn:E; [|reflexivity].
    apply Z.geb_le in E. lia.
  - split; [apply highRiskFiles_update|].
    split; [apply highRiskFiles_updates|].
    unfold SharedAudit.generateHighRiskFilesReport.
    rewrite highRiskFiles_updates. reflexivity.
Qed.

(** The bound of 50 is reached. *)
Example assessSecurityRisk_reaches_50 :
  SharedAudit.assessSecurityRisk
    {| SharedAudit.name := "salary.pdf"; SharedAudit.type := "PDF";
       SharedAudit.size := 1; SharedAudit.owner := "a@x.org";
       SharedAudit.url := ""; SharedAudit.description := "";
       SharedAudit.folderPath := "Root"; SharedAudit.sharingAccess := "ANYONE";
       SharedAudit.sharingPermission := "EDIT"; SharedAudit.viewers := [];
       SharedAudit.editors := [];
       SharedAudit.externalDomains := ["a"; "b"; "c"; "d"; "e"; "f"];
       SharedAudit.isPublic := true; SharedAudit.isDomainShared := false |} = 50.
Proof. reflexivity. Qed.

Lemma calculateCleanupScore_factors d :
  LargeFiles.calculateCleanupScore d
  = Z.min (LargeFiles.agePoints d + LargeFiles.sizePoints d
           + LargeFiles.typePoints d + LargeFiles.privatePoints d) 100.
Proof.
  unfold LargeFiles.calculateCleanupScore, LargeFiles.agePoints,
    LargeFiles.sizePoints, LargeFiles.typePoints, LargeFiles.privatePoints.
  f_equal.
  destruct (LargeFiles.ageInDays d >? 730), (LargeFiles.ageInDays d >? 365),
    (LargeFiles.ageInDays d >? 180), (LargeFiles.ageInDays d >? 90),
    (LargeFiles.size d >? 1000 * LargeFiles.MB),
    (LargeFiles.size d >? 500 * LargeFiles.MB),
    (LargeFiles.size d >? 100 * LargeFiles.MB),
    (LargeFiles.size d >? 50 * LargeFiles.MB),
    (existsb (fun t => includes (toLowerCase (LargeFiles.type d)) t)
             LargeFiles.suspiciousTypes),
    (includes (toLowerCase (LargeFiles.type d)) "video"
     || includes (toLowerCase (LargeFiles.type d)) "audio"),
    (String.eqb (LargeFiles.sharingAccess d) "Private"); lia.
Qed.

Lemma agePoints_range d : 0 <= LargeFiles.agePoints d <= 40.
Proof.
  unfold LargeFiles.agePoints.
  destruct (LargeFiles.ageInDays d >? 730), (LargeFiles.ageInDays d >? 365),
    (LargeFiles.ageInDays d >? 180), (LargeFiles.ageInDays d >? 90); lia.
Qed.

Lemma sizePoints_range d : 10 <= LargeFiles.sizePoints d <= 30.
Proof.
  unfold LargeFiles.sizePoints.
  destruct (LargeFiles.size d >? 1000 * LargeFiles.MB),
    (LargeFiles.size d >? 500 * LargeFiles.MB),
    (LargeFiles.size d >? 100 * LargeFiles.MB),
    (LargeFiles.size d >? 50 * LargeFiles.MB); lia.
Qed.

Lemma cleanup_typePoints_range d : 0 <= LargeFiles.typePoints d <= 20.
Proof.
  unfold LargeFiles.typePoints.
  repeat match goal with
         | |- context [if ?c then _ else _] => destruct c
         end; lia.
Qed.

Lemma privatePoints_range d : 0 <= LargeFiles.privatePoints d <= 10.
Proof.
  unfold LargeFiles.privatePoints.
  destruct (String.eqb (LargeFiles.sharingAccess d) "Private"); lia.
Qed.

Lemma calculateCleanupScore_range d :
  10 <= LargeFiles.calculateCleanupScore d <= 100.
Proof.
  rewrite calculateCleanupScore_factors.
  pose proof (agePoints_range d). pose proof (sizePoints_range d).
  pose proof (cleanup_typePoints_range d). pose proof (privatePoints_range d). lia.
Qed.

Lemma agePoints_monotone b a :
  LargeFiles.ageInDays b <= LargeFiles.ageInDays a ->
  LargeFiles.agePoints b <= LargeFiles.agePoints a.
Proof. intros H. unfold LargeFiles.agePoints. by_thresholds. Qed.

Lemma sizePoints_monotone b a :
  LargeFiles.size b <= LargeFiles.size a ->
  LargeFiles.sizePoints b <= LargeFiles.sizePoints a.
Proof.
  intros H. unfold LargeFiles.sizePoints, LargeFiles.MB. by_thresholds.
Qed.

Lemma calculateCleanupScore_monotone b a :
  atLeastAsStale b a ->
  LargeFiles.calculateCleanupScore b <= LargeFiles.calculateCleanupScore a.
Proof.
  intros (Ht & Hs & Hage & Hsize).
  rewrite !calculateCleanupScore_factors.
  pose proof (agePoints_monotone b a Hage).
  pose proof (sizePoints_monotone b a Hsize).
  assert (LargeFiles.privatePoints b <= LargeFiles.privatePoints a).
  { unfold LargeFiles.privatePoints.
    destruct (String.eqb_spec (LargeFiles.sharingAccess b) "Private") as [E|E].
    - rewrite (Hs E). cbn. lia.
    - destruct (String.eqb _ _); lia. }
  unfold LargeFiles.typePoints.
  rewrite Ht. lia.
Qed.

Lemma exposure_public b a :
  (SharedAudit.exposure b <= SharedAudit.exposure a)%nat ->
  SharedAudit.isPublic b = true -> SharedAudit.isPublic a = true.
Proof.
  unfold SharedAudit.exposure. intros H Hb. rewrite Hb in H.
  destruct (SharedAudit.isPublic a); [reflexivity|].
  destruct (SharedAudit.isDomainShared a); lia.
Qed.

Lemma sharingPoints_monotone b a :
  SharedAudit.externalOnly b = false ->
  atLeastAsExposed b a ->
  SharedAudit.sharingPoints b <= SharedAudit.sharingPoints a.
Proof.
  intros Hb (He & _ & _ & _ & Hn).
  unfold SharedAudit.sharingPoints, SharedAudit.exposure, SharedAudit.externalOnly in *.
  destruct (SharedAudit.isPublic b), (SharedAudit.isDomainShared b),
    (SharedAudit.isPublic a), (SharedAudit.isDomainShared a);
    cbn [negb andb] in Hb; try lia;
    try (rewrite Hb); try lia;
    destruct (0 <? SharedAudit.externalCount a)%nat; lia.
Qed.

Lemma permissionPoints_monotone b a :
  atLeastAsExposed b a ->
  SharedAudit.permissionPoints b <= SharedAudit.permissionPoints a.
Proof.
  intros (Hx & He & _). pose proof (exposure_public b a Hx) as Hp.
  unfold SharedAudit.permissionPoints.
  destruct (String.eqb_spec (SharedAudit.sharingPermission b) "EDIT") as [E|E].
  - rewrite (He E). rewrite String.eqb_refl.
    destruct (SharedAudit.isPublic b).
    + rewrite (Hp eq_refl). cbn [andb]. lia.
    + destruct (SharedAudit.isPublic a); cbn [andb]; lia.
  - cbn [andb].
    destruct (String.eqb (SharedAudit.sharingPermission a) "EDIT"),
      (SharedAudit.isPublic a); cbn [andb]; lia.
Qed.

Lemma keywordPoints_monotone b a :
  atLeastAsExposed b a ->
  SharedAudit.keywordPoints b <= SharedAudit.keywordPoints a.
Proof.
  intros (_ & _ & Hk & _). unfold SharedAudit.keywordPoints.
  pose proof (filter_length_le (SharedAudit.matchesKeyword b)
                (SharedAudit.matchesKeyword a)
                SharedAudit.CONFIG.HIGH_RISK_KEYWORDS Hk).
  lia.
Qed.

Lemma typePoints_monotone b a :
  atLeastAsExposed b a ->
  SharedAudit.typePoints b <= SharedAudit.typePoints a.
Proof.
  intros (_ & _ & _ & Ht & _). unfold SharedAudit.typePoints.
  destruct (mem (toLowerCase (SharedAudit.type b)) SharedAudit.sensitiveTypes).
  - rewrite (Ht eq_refl). lia.
  - destruct (mem _ _); lia.
Qed.

Lemma collaboratorPoints_monotone b a :
  atLeastAsExposed b a ->
  SharedAudit.collaboratorPoints b <= SharedAudit.collaboratorPoints a.
Proof.
  intros (_ & _ & _ & _ & Hn). unfold SharedAudit.collaboratorPoints.
  destruct (Nat.ltb_spec 5 (SharedAudit.externalCount b)),
    (Nat.ltb_spec 5 (SharedAudit.externalCount a)),
    (Nat.ltb_spec 2 (SharedAudit.externalCount b)),
    (Nat.ltb_spec 2 (SharedAudit.externalCount a)),
    (Nat.ltb_spec 0 (SharedAudit.externalCount b)),
    (Nat.ltb_spec 0 (SharedAudit.externalCount a)); lia.
Qed.

Lemma assessSecurityRisk_monotone b a :
  SharedAudit.externalOnly b = false ->
  atLeastAsExposed b a ->
  SharedAudit.assessSecurityRisk b <= SharedAudit.assessSecurityRisk a.
Proof.
  intros Hb H. rewrite !assessSecurityRisk_factors.
  pose proof (sharingPoints_monotone b a Hb H).
  pose proof (permissionPoints_monotone b a H).
  pose proof (keywordPoints_monotone b a H).
  pose proof (typePoints_monotone b a H).
  pose proof (collaboratorPoints_monotone b a H).
  lia.
Qed.

(** What [sharingDetails] leaves for a file whose access is one of the
    values of [DriveApp.Access] other than [PRIVATE]: a public or a
    domain-shared record, or the defaults, without external domains. *)
Lemma sharingDetails_exposure owner_ file access :
  getSharingAccess file = Ret access ->
  mem access SharedAudit.Access = true ->
  SharedAudit.isSharedFile file = true ->
  let s := SharedAudit.sharingDetails owner_ file in
  negb (SharedAudit.sh_isPublic s) && negb (SharedAudit.sh_isDomainShared s)
  && (0 <? List.length (SharedAudit.sh_externalDomains s))%nat = false.
Proof.
  intros Ha Hmem Hshared. unfold SharedAudit.isSharedFile in Hshared.
  unfold SharedAudit.sharingDetails. rewrite Ha in *.
  destruct (getSharingPermission file) as [permission|]; [|reflexivity].
  assert (Hflag : (String.eqb access "ANYONE" || String.eqb access "ANYONE_WITH_LINK")
                  || (String.eqb access "DOMAIN" || String.eqb access "DOMAIN_WITH_LINK")
                  = true).
  { unfold SharedAudit.Access in Hmem. cbn [mem existsb] in Hmem.
    destruct (String.eqb access "ANYONE"); [reflexivity|].
    destruct (String.eqb access "ANYONE_WITH_LINK"); [reflexivity|].
    destruct (String.eqb access "DOMAIN"); [reflexivity|].
    destruct (String.eqb access "DOMAIN_WITH_LINK"); [reflexivity|].
    destruct (String.eqb access "PRIVATE"); discriminate. }
  apply orb_prop in Hflag.
  destruct (getViewers file), (getEditors file); cbv zeta;
    cbn [SharedAudit.sh_isPublic SharedAudit.sh_isDomainShared];
    destruct Hflag as [-> | ->]; cbn [negb andb];
    try reflexivity; now rewrite andb_false_r.
Qed.

Lemma audited_not_externalOnly file access fileData :
  getSharingAccess file = Ret access ->
  mem access SharedAudit.Access = true ->
  SharedAudit.isSharedFile file = true ->
  SharedAudit.extractSharedFileData file = Ret (Some fileData) ->
  SharedAudit.externalOnly fileData = false.
Proof.
  intros Ha Hmem Hshared H. unfold SharedAudit.extractSharedFileData in H.
  repeat match type of H with
         | bind ?m _ = _ => destruct m; cbn [bind] in H; [|discriminate]
         end.
  cbv zeta in H.
  destruct (SharedAudit.getFileType _ _); [|discriminate].
  injection H as <-.
  exact (sharingDetails_exposure _ file access Ha Hmem Hshared).
Qed.

(** C4 (amended): both scores lie in [0,100].  The security score does not
    decrease when a record moves up in sharing exposure (neither, domain,
    public), gains edit permission, keyword matches, a sensitive type or
    external domains; the one record excluded as the lower one is neither
    public nor domain-shared and has external domains, and the audit builds
    no such record from an access of [DriveApp.Access].  The cleanup score
    does not decrease when a file gets older or larger or when its sharing
    label becomes ['Private'], the type being equal. *)
Theorem scores_clamped_and_monotone :
  forall (b a : SharedAudit.FileData) (y x : LargeFiles.FileData),
    SharedAudit.externalOnly b = false ->
    atLeastAsExposed b a ->
    atLeastAsStale y x ->
    0 <= SharedAudit.assessSecurityRisk a <= 100
    /\ 0 <= LargeFiles.calculateCleanupScore x <= 100
    /\ SharedAudit.assessSecurityRisk b <= SharedAudit.assessSecurityRisk a
    /\ LargeFiles.calculateCleanupScore y <= LargeFiles.calculateCleanupScore x
    /\ (forall (file : File) (access : string) (fileData : SharedAudit.FileData),
          getSharingAccess file = Ret access ->
          mem access SharedAudit.Access = true ->
          SharedAudit.isSharedFile file = true ->
          SharedAudit.extractSharedFileData file = Ret (Some fileData) ->
          SharedAudit.externalOnly fileData = false).
Proof.
  intros b a y x Hb Hexposed Hstale.
  pose proof (assessSecurityRisk_range a).
  pose proof (calculateCleanupScore_range x).
  pose proof (assessSecurityRisk_monotone b a Hb Hexposed).
  pose proof (calculateCleanupScore_monotone y x Hstale).
  repeat split; try lia.
  exact audited_not_externalOnly.
Qed.

(** The amended C4 at a concrete pair of records: a domain-shared record
    against a public one that can be edited and has three external domains,
    20 against 35 for the security score; and 25 against 75 for the cleanup
    score. *)
Lemma scores_clamped_and_monotone_witness :
  let b := Samples.shared "DOMAIN" "VIEW" [] in
  let a := Samples.shared "ANYONE" "EDIT"
                          ["partner.example"; "vendor.example"; "lab.example"] in
  let y := Samples.large 100 (60 * 1024 * 1024) "PRIVATE" in
  let x := Samples.large 800 (600 * 1024 * 1024) "Private" in
  SharedAudit.assessSecurityRisk b = 20
  /\ SharedAudit.assessSecurityRisk a = 35
  /\ LargeFiles.calculateCleanupScore y = 25
  /\ LargeFiles.calculateCleanupScore x = 75
  /\ SharedAudit.assessSecurityRisk b <= SharedAudit.assessSecurityRisk a
  /\ LargeFiles.calculateCleanupScore y <= LargeFiles.calculateCleanupScore x.
Proof.
  intros b a y x.
  assert (Hexposed : atLeastAsExposed b a).
  { unfold atLeastAsExposed. cbn.
    repeat split; try discriminate; try lia.
    intros keyword H. exact H. }
  assert (Hstale : atLeastAsStale y x).
  { unfold atLeastAsStale. cbn. repeat split; lia. }
  pose proof (scores_clamped_and_monotone b a y x eq_refl Hexposed Hstale)
    as (_ & _ & Hsecurity & Hcleanup & _).
  repeat split; try reflexivity; assumption.
Defined.

(** C4 as stated fails for sharing exposure in the cleanup score.  Of three
    copies of one file, the one open to anyone and the one whose sharing
    reads [PRIVATE] score 35; the one whose sharing calls throw keeps the
    default label ['Private'], the only label the score tests for, and
    scores 45.  A file known to be public scores 10 less than the same file
    with sharing the script could not read. *)
Lemma score_not_monotone_in_sharing :
  let denied : Exc string := Throw "Access denied: DriveApp" in
  let public := Samples.sharedAs (Ret "ANYONE") (Ret "VIEW") Samples.dump in
  let private := Samples.sharedAs (Ret "PRIVATE") (Ret "NONE") Samples.dump in
  let unread := Samples.sharedAs denied denied Samples.dump in
  LargeFiles.isLargeFile public = true
  /\ LargeFiles.isLargeFile private = true
  /\ LargeFiles.isLargeFile unread = true
  /\ LargeFiles.sharingAccessOf public = "ANYONE"
  /\ LargeFiles.sharingAccessOf private = "PRIVATE"
  /\ LargeFiles.sharingAccessOf unread = "Private"
  /\ LargeFiles.cleanupScoreOf Samples.now public = Some 35
  /\ LargeFiles.cleanupScoreOf Samples.now private = Some 35
  /\ LargeFiles.cleanupScoreOf Samples.now unread = Some 45.
Proof. repeat split; vm_compute; reflexivity. Qed.

Lemma firstn_In {A} n (l : list A) z : In z (firstn n l) -> In z l.
Proof.
  intros H. rewrite <- (firstn_skipn n l). apply in_or_app. left. exact H.
Qed.

Section RankedFacts.
Context {A : Type} (key : A -> Z).

Lemma insert_Forall (P : A -> Prop) x l :
  P x -> Forall P l -> Forall P (Arr.insert key x l).
Proof.
  intros Hx Hl. induction Hl as [|y r Hy Hr IH]; simpl.
  - constructor; [exact Hx | constructor].
  - destruct (key x <? key y); constructor; auto.
Qed.

Lemma insert_descending x l :
  Arr.descending key l -> Arr.descending key (Arr.insert key x l).
Proof.
  unfold Arr.descending.
  intros Hl. induction Hl as [|y r Hr IH Hy]; simpl.
  - constructor; constructor.
  - destruct (Z.ltb_spec (key x) (key y)) as [Hlt|Hge].
    + constructor; [exact IH|].
      apply insert_Forall; [lia | exact Hy].
    + constructor.
      * constructor; assumption.
      * constructor; [exact Hge|].
        eapply Forall_impl; [|exact Hy]. simpl. intros z Hz. lia.
Qed.

Lemma sortDesc_descending l : Arr.descending key (Arr.sortDesc key l).
Proof.
  induction l as [|x r IH]; simpl.
  - constructor.
  - apply insert_descending. exact IH.
Qed.

Lemma insert_perm x l : Permutation (Arr.insert key x l) (x :: l).
Proof.
  induction l as [|y r IH]; simpl; [reflexivity|].
  destruct (key x <? key y); [|reflexivity].
  rewrite IH. apply perm_swap.
Qed.

Lemma sortDesc_perm l : Permutation (Arr.sortDesc key l) l.
Proof.
  induction l as [|x r IH]; simpl; [reflexivity|].
  etransitivity; [apply insert_perm|]. constructor. exact IH.
Qed.

Lemma sortDesc_length l : List.length (Arr.sortDesc key l) = List.length l.
Proof. apply Permutation_length, sortDesc_perm. Qed.

(** A sorted array is left as it is. *)
Lemma sortDesc_id l : Arr.descending key l -> Arr.sortDesc key l = l.
Proof.
  unfold Arr.descending.
  intros Hl. induction Hl as [|y r Hr IH Hy]; [reflexivity|].
  simpl. rewrite IH.
  destruct r as [|z r']; [reflexivity|].
  simpl. inversion Hy as [|? ? Hz _]; subst.
  destruct (Z.ltb_spec (key y) (key z)); [lia | reflexivity].
Qed.

Lemma insert_place x a l :
  Arr.insert key a (Arr.place key x l) = Arr.place key x (Arr.insert key a l).
Proof.
  induction l as [|y r IH]; simpl.
  - destruct (Z.ltb_spec (key a) (key x)); reflexivity.
  - repeat (match goal with
            | |- context [?u <? ?v] => destruct (Z.ltb_spec u v)
            end; simpl);
      try lia; try reflexivity; f_equal; exact IH.
Qed.

(** Sorting after a push puts the new element behind its equals. *)
Lemma sortDesc_snoc x l :
  Arr.sortDesc key (l ++ [x]) = Arr.place key x (Arr.sortDesc key l).
Proof.
  induction l as [|a r IH]; [reflexivity|].
  simpl. rewrite IH. apply insert_place.
Qed.

Lemma firstn_place n x l :
  firstn n (Arr.place key x (firstn n l)) = firstn n (Arr.place key x l).
Proof.
  revert n. induction l as [|y r IH]; intros n.
  - rewrite firstn_nil. reflexivity.
  - destruct n as [|m]; [reflexivity|].
    simpl. destruct (key y <? key x).
    + simpl. f_equal.
      change (y :: firstn m r) with (firstn (S m) (y :: r)).
      rewrite firstn_firstn. f_equal. lia.
    + simpl. f_equal. apply IH.
Qed.

Lemma descending_firstn n l :
  Arr.descending key l -> Arr.descending key (firstn n l).
Proof.
  unfold Arr.descending.
  intros Hl. revert n. induction Hl as [|y r Hr IH Hy]; intros n.
  - rewrite firstn_nil. constructor.
  - destruct n as [|m]; [constructor|].
    simpl. constructor; [apply IH|].
    apply Forall_forall. intros z Hz.
    rewrite Forall_forall in Hy. apply Hy.
    eapply firstn_In; eauto.
Qed.

(** One push-sort-slice step keeps the list equal to the first [cap]
    elements of everything pushed so far, sorted. *)
Lemma pushSortSlice_top cap x seen :
  Arr.pushSortSlice key cap x (firstn cap (Arr.sortDesc key seen))
  = firstn cap (Arr.sortDesc key (seen ++ [x])).
Proof.
  unfold Arr.pushSortSlice.
  rewrite !sortDesc_snoc.
  rewrite (sortDesc_id (firstn cap (Arr.sortDesc key seen))).
  - apply firstn_place.
  - apply descending_firstn, sortDesc_descending.
Qed.

Lemma pushSortSlice_length cap x l :
  (List.length (Arr.pushSortSlice key cap x l) <= cap)%nat.
Proof. unfold Arr.pushSortSlice. apply firstn_le_length. Qed.

Lemma pushSortSlice_descending cap x l :
  Arr.descending key (Arr.pushSortSlice key cap x l).
Proof.
  unfold Arr.pushSortSlice. apply descending_firstn, sortDesc_descending.
Qed.
End RankedFacts.

Lemma pushIfRoom_first {A} cap (x : A) seen :
  Arr.pushIfRoom cap x (firstn cap seen) = firstn cap (seen ++ [x]).
Proof.
  unfold Arr.pushIfRoom. rewrite firstn_app.
  destruct (Nat.ltb_spec (List.length (firstn cap seen)) cap) as [Hlt|Hge].
  - rewrite length_firstn in Hlt.
    assert (Hs : (List.length seen < cap)%nat) by lia.
    rewrite (firstn_all2 (n := cap) seen) by lia.
    f_equal. destruct (cap - List.length seen)%nat eqn:E; [lia|].
    simpl. rewrite firstn_nil. reflexivity.
  - rewrite length_firstn in Hge.
    assert (Hs : (cap <= List.length seen)%nat) by lia.
    replace (cap - List.length seen)%nat with 0%nat by lia.
    cbn [firstn]. rewrite app_nil_r. reflexivity.
Qed.

Lemma pushIfRoom_length {A} cap (x : A) l :
  (List.length l <= cap)%nat -> (List.length (Arr.pushIfRoom cap x l) <= cap)%nat.
Proof.
  intros H. unfold Arr.pushIfRoom.
  destruct (Nat.ltb_spec (List.length l) cap); [|exact H].
  rewrite length_app. simpl. lia.
Qed.

(** *** The lists of the complete inventory *)

Lemma updates_snoc observed o stats :
  Complete.updates (observed ++ [o]) stats
  = Complete.update (fst o) (snd o) (Complete.updates observed stats).
Proof. unfold Complete.updates. rewrite fold_left_app. reflexivity. Qed.

Lemma largeFiles_updates now observed :
  Complete.largeFiles (Complete.updates observed (Complete.initializeStats now None))
  = firstn 100 (Arr.sortDesc Complete.lf_size
                  (map Complete.largeFile
                       (filter Complete.isLarge (map snd observed)))).
Proof.
  induction observed as [|o r IH] using rev_ind; [reflexivity|].
  rewrite updates_snoc. cbn [Complete.update Complete.largeFiles].
  rewrite map_app, filter_app, map_app. cbn [map filter].
  destruct (Complete.isLarge (snd o)).
  - rewrite IH. apply pushSortSlice_top.
  - cbn [map]. rewrite app_nil_r. exact IH.
Qed.

Lemma oldFiles_updates now observed :
  Complete.oldFiles (Complete.updates observed (Complete.initializeStats now None))
  = firstn 100 (map (fun o => Complete.oldFile (fst o) (snd o))
                    (filter (fun o => Complete.isOld (fst o) (snd o)) observed)).
Proof.
  induction observed as [|o r IH] using rev_ind; [reflexivity|].
  rewrite updates_snoc. cbn [Complete.update Complete.oldFiles].
  rewrite filter_app, map_app. cbn [map filter].
  destruct (Complete.isOld (fst o) (snd o)).
  - rewrite IH. apply pushIfRoom_first.
  - cbn [map]. rewrite app_nil_r. exact IH.
Qed.

Lemma sharedFiles_updates now observed :
  Complete.sharedFiles (Complete.updates observed (Complete.initializeStats now None))
  = firstn 100 (map Complete.sharedFile
                    (filter Complete.isShared (map snd observed))).
Proof.
  induction observed as [|o r IH] using rev_ind; [reflexivity|].
  rewrite updates_snoc. cbn [Complete.update Complete.sharedFiles].
  rewrite map_app, filter_app, map_app. cbn [map filter].
  destruct (Complete.isShared (snd o)).
  - rewrite IH. apply pushIfRoom_first.
  - cbn [map]. rewrite app_nil_r. exact IH.
Qed.

(** *** The lists of the optimized inventory *)

Lemma optimized_updates_snoc observed o stats :
  Optimized.updates (observed ++ [o]) stats
  = Optimized.update (fst o) (snd o) (Optimized.updates observed stats).
Proof. unfold Optimized.updates. rewrite fold_left_app. reflexivity. Qed.

Lemma keepLargest_bounded x l :
  (List.length l <= 100)%nat -> Arr.descending Optimized.lf_size l ->
  (List.length (Optimized.keepLargest x l) <= 100)%nat
  /\ Arr.descending Optimized.lf_size (Optimized.keepLargest x l).
Proof.
  intros Hlen Hdesc. unfold Optimized.keepLargest, Optimized.CONFIG.MAX_LARGE_FILES.
  destruct (Nat.ltb_spec (List.length l) 100) as [Hroom|Hfull]; [|auto].
  destruct (Nat.ltb_spec 100
              (List.length (Arr.sortDesc Optimized.lf_size (l ++ [x])))) as [Hbig|Hfit].
  - split; [apply firstn_le_length|].
    apply descending_firstn, sortDesc_descending.
  - split; [exact Hfit | apply sortDesc_descending].
Qed.

Lemma optimized_largeFiles_bounded now observed :
  let t := Optimized.updates observed (Optimized.initialStats now) in
  (List.length (Optimized.largeFiles t) <= 100)%nat
  /\ Arr.descending Optimized.lf_size (Optimized.largeFiles t).
Proof.
  induction observed as [|o r IH] using rev_ind.
  - simpl. split; [lia | constructor].
  - rewrite optimized_updates_snoc.
    cbn [Optimized.update Optimized.updateLists Optimized.updateCounts
         Optimized.largeFiles].
    destruct IH as [Hlen Hdesc].
    destruct (Optimized.isLarge (snd o)); [|split; assumption].
    apply keepLargest_bounded; assumption.
Qed.

Lemma optimized_oldFiles_updates now observed :
  Optimized.oldFiles (Optimized.updates observed (Optimized.initialStats now))
  = firstn 100 (map (fun o => Optimized.oldFile (fst o) (snd o))
                    (filter (fun o => Optimized.isOld (fst o) (snd o)) observed)).
Proof.
  induction observed as [|o r IH] using rev_ind; [reflexivity|].
  rewrite optimized_updates_snoc.
  cbn [Optimized.update Optimized.updateLists Optimized.updateCounts
       Optimized.oldFiles].
  rewrite filter_app, map_app. cbn [map filter].
  destruct (Optimized.isOld (fst o) (snd o)).
  - rewrite IH. apply pushIfRoom_first.
  - cbn [map]. rewrite app_nil_r. exact IH.
Qed.

Lemma optimized_sharedFiles_updates now observed :
  Optimized.sharedFiles (Optimized.updates observed (Optimized.initialStats now))
  = firstn 100 (map Optimized.sharedFile
                    (filter Optimized.isShared (map snd observed))).
Proof.
  induction observed as [|o r IH] using rev_ind; [reflexivity|].
  rewrite optimized_updates_snoc.
  cbn [Optimized.update Optimized.updateLists Optimized.updateCounts
       Optimized.sharedFiles].
  rewrite map_app, filter_app, map_app. cbn [map filter].
  destruct (Optimized.isShared (snd o)).
  - rewrite IH. apply pushIfRoom_first.
  - cbn [map]. rewrite app_nil_r. exact IH.
Qed.

(** C2 (amended): after any run of updates from fresh statistics every
    bounded list holds at most 100 entries.  The large-file list of the
    complete inventory is kept by push, sort, slice: it is the 100 largest
    of the large files seen, in descending order of size.  The old-file and
    shared-file lists are filled while there is room and never sorted: they
    are the first 100 qualifying files in the order they were seen.  The
    large-file list of the optimized inventory is bounded and sorted, and so
    is the high-risk list of the sharing audit. *)
Theorem bounded_lists :
  forall (now : Date)
         (observed : list (Date * Complete.FileData))
         (observed' : list (Date * Optimized.FileData))
         (audited : list SharedAudit.FileData),
    let s := Complete.updates observed (Complete.initializeStats now None) in
    let t := Optimized.updates observed' (Optimized.initialStats now) in
    let u := SharedAudit.updates audited (SharedAudit.initialStats now) in
    (Complete.largeFiles s
     = firstn 100 (Arr.sortDesc Complete.lf_size
                     (map Complete.largeFile
                          (filter Complete.isLarge (map snd observed))))
     /\ Arr.descending Complete.lf_size (Complete.largeFiles s)
     /\ (List.length (Complete.largeFiles s) <= 100)%nat)
    /\ (Complete.oldFiles s
        = firstn 100 (map (fun o => Complete.oldFile (fst o) (snd o))
                          (filter (fun o => Complete.isOld (fst o) (snd o)) observed))
        /\ (List.length (Complete.oldFiles s) <= 100)%nat)
    /\ (Complete.sharedFiles s
        = firstn 100 (map Complete.sharedFile
                          (filter Complete.isShared (map snd observed)))
        /\ (List.length (Complete.sharedFiles s) <= 100)%nat)
    /\ ((List.length (Optimized.largeFiles t) <= 100)%nat
        /\ Arr.descending Optimized.lf_size (Optimized.largeFiles t))
    /\ (Optimized.oldFiles t
        = firstn 100 (map (fun o => Optimized.oldFile (fst o) (snd o))
                          (filter (fun o => Optimized.isOld (fst o) (snd o)) observed'))
        /\ (List.length (Optimized.oldFiles t) <= 100)%nat)
    /\ (Optimized.sharedFiles t
        = firstn 100 (map Optimized.sharedFile
                          (filter Optimized.isShared (map snd observed')))
        /\ (List.length (Optimized.sharedFiles t) <= 100)%nat)
    /\ ((List.length (SharedAudit.highRiskFiles u) <= 100)%nat
        /\ Arr.descending SharedAudit.hr_riskScore (SharedAudit.highRiskFiles u)).
Proof.
  intros now observed observed' audited s t u. subst s t u.
  rewrite largeFiles_updates, oldFiles_updates, sharedFiles_updates,
    optimized_oldFiles_updates, optimized_sharedFiles_updates,
    highRiskFiles_updates.
  repeat split; try apply firstn_le_length.
  - apply descending_firstn, sortDesc_descending.
  - apply (optimized_largeFiles_bounded now observed').
  - apply (optimized_largeFiles_bounded now observed').
  - simpl. lia.
  - constructor.
Qed.

(** C2 as stated fails for the old-file list: a file 400 days old followed
    by one 800 days old leaves the list in arrival order, ages 400 then 800,
    which is not descending. *)
Lemma oldFiles_in_arrival_order :
  let observed :=
    [ (Samples.now, Samples.inventoried "a.log" 10 Samples.days400 "Private");
      (Samples.now, Samples.inventoried "b.log" 10 Samples.days800 "Private") ] in
  let s := Complete.updates observed (Complete.initializeStats Samples.now None) in
  map Complete.of_ageInDays (Complete.oldFiles s) = [400; 800]
  /\ ~ Arr.descending Complete.of_ageInDays (Complete.oldFiles s).
Proof.
  split; [reflexivity|].
  intros H. inversion H as [|? ? _ Hall]; subst.
  inversion Hall as [|? ? Hle _]; subst.
  vm_compute in Hle. apply Hle. reflexivity.
Qed.

(* ===================================================================== *)
(** ** Duplicate candidates *)
(* ===================================================================== *)

(** *** The key *)

Lemma digits_no_underscore d : occurs "_" (NilEmpty.string_of_uint d) = false.
Proof. induction d; simpl; auto. Qed.

Lemma string_of_Z_no_underscore z : occurs "_" (string_of_Z z) = false.
Proof.
  unfold string_of_Z, NilZero.string_of_int, NilZero.string_of_uint.
  destruct (Z.to_int z) as [d|d]; destruct d; simpl;
    try reflexivity; apply digits_no_underscore.
Qed.

Lemma string_of_Z_inj a b : string_of_Z a = string_of_Z b -> a = b.
Proof.
  unfold string_of_Z. intros H.
  assert (Hnn : forall z, Z.to_int z <> Decimal.Pos Decimal.Nil
                          /\ Z.to_int z <> Decimal.Neg Decimal.Nil).
  { intros z. destruct z as [|p|p]; simpl; split; try discriminate;
      intros [= E]; exact (DecimalPos.Unsigned.to_uint_nonnil p E). }
  assert (E : Some (Z.to_int a) = Some (Z.to_int b)).
  { rewrite <- (NilZero.isi (Z.to_int a)) by apply Hnn.
    rewrite <- (NilZero.isi (Z.to_int b)) by apply Hnn.
    rewrite H. reflexivity. }
  injection E as E.
  rewrite <- (DecimalZ.of_to a), <- (DecimalZ.of_to b), E. reflexivity.
Qed.

Lemma occurs_append c a b : occurs c (a ++ String c b) = true.
Proof.
  induction a as [|x r IH]; simpl.
  - rewrite Ascii.eqb_refl. reflexivity.
  - rewrite IH. apply orb_true_r.
Qed.

(** A name, an underscore and a run of characters without underscore can
    be read back in one way only. *)
Lemma key_unique n1 n2 s1 s2 :
  occurs "_" s1 = false -> occurs "_" s2 = false ->
  (n1 ++ "_" ++ s1 = n2 ++ "_" ++ s2)%string -> n1 = n2 /\ s1 = s2.
Proof.
  intros H1 H2. revert n2.
  induction n1 as [|c r IH]; intros [|c' r']; simpl; intros E.
  - injection E as E. auto.
  - injection E as Ec E. subst s1.
    rewrite (occurs_append "_" r' s2) in H1. discriminate.
  - injection E as Ec E. subst s2.
    rewrite (occurs_append "_" r s1) in H2. discriminate.
  - injection E as Ec E. subst c'.
    destruct (IH r' E) as [-> ->]. auto.
Qed.

Lemma duplicateKey_inj d1 d2 :
  Complete.duplicateKey d1 = Complete.duplicateKey d2 ->
  Complete.name d1 = Complete.name d2 /\ Complete.size d1 = Complete.size d2.
Proof.
  unfold Complete.duplicateKey. intros E.
  apply key_unique in E; try apply string_of_Z_no_underscore.
  destruct E as [En Es]. split; [exact En | apply string_of_Z_inj, Es].
Qed.

Lemma duplicateKey_eqb d1 d2 :
  String.eqb (Complete.duplicateKey d1) (Complete.duplicateKey d2)
  = String.eqb (Complete.name d1) (Complete.name d2)
    && (Complete.size d1 =? Complete.size d2).
Proof.
  destruct (String.eqb_spec (Complete.duplicateKey d1) (Complete.duplicateKey d2))
    as [E|E].
  - apply duplicateKey_inj in E. destruct E as [En Es].
    rewrite En, Es, String.eqb_refl, Z.eqb_refl. reflexivity.
  - symmetry. apply andb_false_iff.
    destruct (String.eqb_spec (Complete.name d1) (Complete.name d2)) as [En|En];
      [|auto].
    right. apply Z.eqb_neq. intros Es. apply E.
    unfold Complete.duplicateKey. rewrite En, Es. reflexivity.
Qed.

(** *** The map *)

Lemma assoc_set_same {V} k (v : V) o : assoc k (Arr.set k v o) = Some v.
Proof.
  induction o as [|[k' v'] r IH]; simpl.
  - rewrite String.eqb_refl. reflexivity.
  - destruct (String.eqb_spec k k') as [->|Hne]; simpl.
    + rewrite String.eqb_refl. reflexivity.
    + destruct (String.eqb_spec k k'); [contradiction | exact IH].
Qed.

Lemma assoc_set_other {V} k k' (v : V) o :
  k' <> k -> assoc k' (Arr.set k v o) = assoc k' o.
Proof.
  intros Hne. induction o as [|[k0 v0] r IH]; simpl.
  - destruct (String.eqb_spec k' k); [contradiction | reflexivity].
  - destruct (String.eqb_spec k k0) as [->|Hk]; simpl.
    + destruct (String.eqb_spec k' k0); [contradiction | reflexivity].
    + destruct (String.eqb_spec k' k0); [reflexivity | exact IH].
Qed.

Lemma set_keys {V} k (v : V) o :
  map fst (Arr.set k v o)
  = if mem k (map fst o) then map fst o else (map fst o ++ [k])%list.
Proof.
  unfold mem. induction o as [|[k' v'] r IH]; simpl; [reflexivity|].
  destruct (String.eqb_spec k k') as [->|Hne]; simpl; [reflexivity|].
  rewrite IH. destruct (existsb (String.eqb k) (map fst r)); reflexivity.
Qed.

Lemma mem_In k l : mem k l = true <-> In k l.
Proof.
  unfold mem. rewrite existsb_exists. split.
  - intros (x & Hx & E). apply String.eqb_eq in E. subst. exact Hx.
  - intros H. exists k. split; [exact H | apply String.eqb_refl].
Qed.

Lemma set_NoDup {V} k (v : V) o :
  NoDup (map fst o) -> NoDup (map fst (Arr.set k v o)).
Proof.
  intros H. rewrite set_keys.
  destruct (mem k (map fst o)) eqn:E; [exact H|].
  apply NoDup_app; [exact H | constructor; [intros [] | constructor] |].
  intros x Hx [Hk|[]]. subst x.
  apply mem_In in Hx. congruence.
Qed.

Lemma assoc_In {V} k (v : V) o :
  NoDup (map fst o) -> In (k, v) o -> assoc k o = Some v.
Proof.
  induction o as [|[k' v'] r IH]; simpl; intros Hnd Hin; [contradiction|].
  inversion Hnd as [|? ? Hnotin Hnd']; subst.
  destruct Hin as [[= -> ->]|Hin].
  - rewrite String.eqb_refl. reflexivity.
  - destruct (String.eqb_spec k k') as [->|Hne]; [|auto].
    exfalso. apply Hnotin. apply in_map_iff. exists (k', v). auto.
Qed.

(** *** Groups *)

Lemma duplicateCandidates_updates now observed :
  let s := Complete.updates observed (Complete.initializeStats now None) in
  NoDup (map fst (Complete.duplicateCandidates s))
  /\ forall k,
      assoc k (Complete.duplicateCandidates s)
      = match filter (Complete.sameKey k) (map snd observed) with
        | [] => None
        | group => Some (map Complete.candidate group)
        end.
Proof.
  induction observed as [|o r IH] using rev_ind.
  - simpl. split; [constructor | reflexivity].
  - destruct IH as [Hnd Hassoc]. rewrite updates_snoc.
    cbn [Complete.update Complete.duplicateCandidates].
    set (prev := Complete.duplicateCandidates
                   (Complete.updates r (Complete.initializeStats now None))) in *.
    set (d := snd o). set (k0 := Complete.duplicateKey d).
    unfold Complete.pushCandidate.
    split.
    + destruct (assoc k0 prev); apply set_NoDup; exact Hnd.
    + intros k. rewrite map_app, filter_app. cbn [map filter]. fold d.
      unfold Complete.sameKey at 2. fold k0.
      destruct (String.eqb_spec k0 k) as [<-|Hne].
      * rewrite (Hassoc k0).
        destruct (filter (Complete.sameKey k0) (map snd r)) as [|g gs];
          rewrite assoc_set_same; [reflexivity|].
        simpl. rewrite map_app. reflexivity.
      * rewrite app_nil_r.
        destruct (assoc k0 prev); rewrite assoc_set_other by congruence;
          apply Hassoc.
Qed.

Lemma duplicates_report_rows stats :
  Forall (fun row => exists entry,
              In entry (Complete.duplicateCandidates stats)
              /\ row = Complete.duplicateRow entry
              /\ (2 <= Complete.dr_count row)%nat)
         (Complete.generateDuplicatesReport stats).
Proof.
  unfold Complete.generateDuplicatesReport.
  apply Forall_forall. intros row Hrow.
  apply in_map_iff in Hrow. destruct Hrow as (entry & <- & Hin).
  apply firstn_In in Hin.
  apply (Permutation_in _ (sortDesc_perm Complete.groupSize _)) in Hin.
  apply filter_In in Hin. destruct Hin as [Hin Hsize].
  exists entry. split; [exact Hin|]. split; [reflexivity|].
  apply Nat.ltb_lt in Hsize. simpl. lia.
Qed.

(** C9: duplicate candidates are grouped under the key made of name and
    size, a key that stands for exactly one pair of name and size; every
    group holds, in order, the candidates of all files seen with its key;
    and every row of the duplicates report comes from a group of at least
    two.  For the three records a.txt/100, a.txt/100, b.txt/50 the report
    has one row: a.txt, with count 2. *)
Theorem duplicate_groups :
  forall (now : Date) (observed : list (Date * Complete.FileData))
         (d1 d2 : Complete.FileData),
    let s := Complete.updates observed (Complete.initializeStats now None) in
    String.eqb (Complete.duplicateKey d1) (Complete.duplicateKey d2)
    = String.eqb (Complete.name d1) (Complete.name d2)
      && (Complete.size d1 =? Complete.size d2)
    /\ NoDup (map fst (Complete.duplicateCandidates s))
    /\ Forall (fun entry =>
                 snd entry
                 = map Complete.candidate
                       (filter (Complete.sameKey (fst entry)) (map snd observed)))
              (Complete.duplicateCandidates s)
    /\ Forall (fun row => exists entry,
                   In entry (Complete.duplicateCandidates s)
                   /\ row = Complete.duplicateRow entry
                   /\ (2 <= Complete.dr_count row)%nat)
              (Complete.generateDuplicatesReport s)
    /\ map (fun row => (Complete.dr_name row, Complete.dr_size row,
                        Complete.dr_count row))
           (Complete.generateDuplicatesReport
              (Complete.updates Samples.threeRecords
                                (Complete.initializeStats Samples.now None)))
       = [("a.txt", 100, 2%nat)].
Proof.
  intros now observed d1 d2 s.
  destruct (duplicateCandidates_updates now observed) as [Hnd Hassoc].
  fold s in Hnd, Hassoc.
  split; [apply duplicateKey_eqb|].
  split; [exact Hnd|].
  split.
  - apply Forall_forall. intros [k g] Hin. simpl.
    pose proof (assoc_In k g _ Hnd Hin) as E. rewrite Hassoc in E.
    destruct (filter (Complete.sameKey k) (map snd observed)); [discriminate|].
    injection E as E. symmetry. exact E.
  - split; [apply duplicates_report_rows | reflexivity].
Qed.

Example duplicates_in_other_order :
  map (fun row => (Complete.dr_name row, Complete.dr_count row))
      (Complete.generateDuplicatesReport
         (Complete.updates
            [ (Samples.now, Samples.inventoried "b.txt" 50 Samples.lastYear "Private");
              (Samples.now, Samples.inventoried "a.txt" 100 Samples.lastYear "Private");
              (Samples.now, Samples.inventoried "c.txt" 100 Samples.lastYear "Private");
              (Samples.now, Samples.inventoried "a.txt" 100 Samples.lastYear "Private") ]
            (Complete.initializeStats Samples.now None)))
  = [("a.txt", 2%nat)].
Proof. reflexivity. Qed.

(* ===================================================================== *)
(** ** Per-file errors *)
(* ===================================================================== *)

Lemma processFileForInventory_errors now file sheet stats :
  Complete.errors (fst (fst (Complete.processFileForInventory now file sheet stats)))
  = Complete.errors stats.
Proof.
  unfold Complete.processFileForInventory.
  destruct (Complete.extractFileData file) as [d|e]; [|reflexivity].
  destruct (Complete.addToFileListSheet sheet d); reflexivity.
Qed.

(** The loop of the complete inventory goes through the whole page: it
    splits at any point of the page, ... *)
Lemma complete_processFiles_app now page1 page2 sheet stats n :
  Complete.processFiles now (page1 ++ page2) sheet stats n
  = let '(stats1, sheet1, n1) := Complete.processFiles now page1 sheet stats n in
    Complete.processFiles now page2 sheet1 stats1 n1.
Proof.
  revert sheet stats n. induction page1 as [|f r IH]; intros sheet stats n.
  - reflexivity.
  - cbn [app Complete.processFiles].
    destruct (Complete.processFileForInventory now f sheet stats) as [[s sh] [u|e]];
      apply IH.
Qed.

(** ... and every file of the page is either counted as processed or
    counted as an error. *)
Lemma complete_processFiles_accounts now page sheet stats n :
  let '(stats', _, n') := Complete.processFiles now page sheet stats n in
  Z.of_nat n' + Complete.errors stats'
  = Z.of_nat n + Complete.errors stats + Z.of_nat (List.length page).
Proof.
  revert sheet stats n. induction page as [|f r IH]; intros sheet stats n.
  - simpl. lia.
  - cbn [Complete.processFiles List.length].
    pose proof (processFileForInventory_errors now f sheet stats) as He.
    destruct (Complete.processFileForInventory now f sheet stats) as [[s sh] [u|e]];
      simpl in He.
    + specialize (IH sh s (S n)).
      destruct (Complete.processFiles now r sh s (S n)) as [[s' sh'] n']. lia.
    + specialize (IH sh (Complete.countError s) n).
      destruct (Complete.processFiles now r sh (Complete.countError s) n)
        as [[s' sh'] n'].
      simpl in IH. lia.
Qed.

(** A file that throws costs one error and the loop goes on with the rest
    of the page. *)
Lemma complete_processFiles_contains now file rest sheet stats n e s sh :
  Complete.processFileForInventory now file sheet stats = (s, sh, Throw e) ->
  Complete.processFiles now (file :: rest) sheet stats n
  = Complete.processFiles now rest sh (Complete.countError s) n.
Proof. intros H. cbn [Complete.processFiles]. rewrite H. reflexivity. Qed.

(** The loop of the optimized inventory does the same as long as the name
    of every file can be read. *)
Lemma optimized_processFiles_returns now page sheet stats n :
  Forall (fun file => exists name, getName file = Ret name) page ->
  snd (Optimized.processFiles now page sheet stats n) = Ret tt.
Proof.
  intros H. revert sheet stats n.
  induction H as [|f r [name Hname] Hr IH]; intros sheet stats n; [reflexivity|].
  cbn [Optimized.processFiles].
  destruct (Optimized.processFileOptimized now f sheet stats) as [[s sh] [u|e]].
  - apply IH.
  - rewrite Hname. apply IH.
Qed.

(** When the name cannot be read either, the exception of the handler
    ends the loop, whatever is left of the page. *)
Lemma optimized_processFiles_aborts now file rest sheet stats n s sh e e' :
  Optimized.processFileOptimized now file sheet stats = (s, sh, Throw e) ->
  getName file = Throw e' ->
  Optimized.processFiles now (file :: rest) sheet stats n = (s, sh, n, Throw e').
Proof.
  intros Hfile Hname. cbn [Optimized.processFiles]. rewrite Hfile, Hname.
  reflexivity.
Qed.

(** C8: per-file error containment.  In the optimized inventory the handler
    of the per-file [try] formats its log line with [file.getName()] before
    it increments the error counter.  For a file the service no longer lets
    the script read, that call throws again: the exception leaves the loop,
    the error is not counted and the next file of the page is never
    processed.  The loop of the complete inventory, whose handler does not
    touch the file, counts one error and processes the next file. *)
Theorem optimized_handler_aborts_batch :
  let page := [Samples.unreadable; Samples.pdf] in
  let stats := Optimized.initialStats Samples.now in
  Optimized.processFiles Samples.now page Samples.optimizedSheet stats 0
  = (stats, Samples.optimizedSheet, 0%nat,
     Throw "No item with the given ID could be found")
  /\ Optimized.errors stats = 0
  /\ (let '(stats', sheet', processed) :=
        Complete.processFiles Samples.now page Samples.emptySheet
                              (Complete.initializeStats Samples.now None) 0 in
      Complete.errors stats' = 1
      /\ Complete.totalFiles stats' = 1
      /\ processed = 1%nat
      /\ map Complete.name (Complete.fileList sheet') = ["report.pdf"]).
Proof. repeat split; reflexivity. Qed.

(* ===================================================================== *)
(** ** The batch: completion and checkpoint *)
(* ===================================================================== *)

(** The page loop of the complete inventory stops early only when the
    iterator is exhausted. *)
Lemma fill_short batchSize files count acc page iterator :
  Complete.fill batchSize files count acc = (page, iterator) ->
  count = List.length acc -> (count <= batchSize)%nat ->
  (List.length page <= batchSize)%nat
  /\ ((List.length page < batchSize)%nat -> iterator = []).
Proof.
  revert count acc. induction files as [|f r IH]; intros count acc E Hc Hb.
  - simpl in E. injection E as <- <-. split; [lia | reflexivity].
  - simpl in E. destruct (Nat.ltb_spec count batchSize) as [Hlt|Hge].
    + destruct (Complete.shouldIncludeFile f).
      * apply (IH _ _ E); [rewrite length_app; simpl; lia | lia].
      * apply (IH _ _ E); assumption.
    + injection E as <- <-. split; lia.
Qed.

Lemma getFilesToProcess_short drive token :
  let page := Complete.getFilesToProcess drive token Complete.CONFIG.BATCH_SIZE in
  (List.length (fst page) < Complete.CONFIG.BATCH_SIZE)%nat -> snd page = [].
Proof.
  unfold Complete.getFilesToProcess. cbv zeta.
  destruct (Complete.fill _ _ 0 []) as [page iterator] eqn:E.
  apply fill_short in E; [|reflexivity|lia]. apply E.
Qed.

Lemma processFileForInventory_sheet now file sheet stats :
  let sheet' := snd (fst (Complete.processFileForInventory now file sheet stats)) in
  Complete.statusCell sheet' = Complete.statusCell sheet
  /\ Complete.reports sheet' = Complete.reports sheet.
Proof.
  unfold Complete.processFileForInventory, Complete.addToFileListSheet.
  destruct (Complete.extractFileData file) as [d|e]; [|split; reflexivity].
  destruct (Complete.rowsLeft sheet); split; reflexivity.
Qed.

Lemma processFiles_sheet now page sheet stats n :
  let sheet' := snd (fst (Complete.processFiles now page sheet stats n)) in
  Complete.statusCell sheet' = Complete.statusCell sheet
  /\ Complete.reports sheet' = Complete.reports sheet.
Proof.
  revert sheet stats n. induction page as [|f r IH]; intros sheet stats n.
  - split; reflexivity.
  - cbn [Complete.processFiles].
    pose proof (processFileForInventory_sheet now f sheet stats) as Hf.
    destruct (Complete.processFileForInventory now f sheet stats) as [[s sh] [u|e]];
      simpl in Hf; destruct Hf as [Hs Hr].
    + destruct (IH sh s (S n)) as [IHs IHr]. split; congruence.
    + destruct (IH sh (Complete.countError s) n) as [IHs IHr]. split; congruence.
Qed.

Lemma length_zero_nil {A} (l : list A) : (List.length l =? 0)%nat = true <-> l = [].
Proof.
  destruct l; simpl; split; intros H; try reflexivity; discriminate.
Qed.

(** What [runInventoryBatch] decides when it returns. *)
Lemma runInventoryBatch_decision drive now quota w w' r :
  Complete.runInventoryBatch drive now quota w = (w', Ret r) ->
  let page := Complete.getFilesToProcess
                drive (Complete.continuationToken (Complete.scriptProperties w))
                Complete.CONFIG.BATCH_SIZE in
  (Complete.hasMore r = false <-> fst page = [] \/ snd page = [])
  /\ (Complete.hasMore r = false ->
      Complete.scriptProperties w' = Complete.noProperties
      /\ Complete.statusCell (Complete.spreadsheet w') = Some COMPLETE
      /\ exists final, Complete.reports (Complete.spreadsheet w') = Some final)
  /\ (Complete.hasMore r = true ->
      Complete.continuationToken (Complete.scriptProperties w')
      = Some (List.length drive - List.length (snd page))%nat
      /\ Complete.reports (Complete.spreadsheet w')
         = Complete.reports (Complete.spreadsheet w)
      /\ Complete.statusCell (Complete.spreadsheet w') = None).
Proof.
  unfold Complete.runInventoryBatch. cbv zeta.
  destruct (Complete.getFilesToProcess _ _ _) as [files iterator].
  destruct (List.length files =? 0)%nat eqn:Elen.
  - intros [= <- <-]. apply length_zero_nil in Elen. subst files. simpl.
    repeat split; eauto; discriminate.
  - pose proof (processFiles_sheet now files
                  (Complete.updateInventoryStatus RUNNING (Complete.spreadsheet w))
                  (Complete.initializeStats now
                     (Complete.inventoryStats (Complete.scriptProperties w))) 0)
      as Hsheet.
    destruct (Complete.processFiles _ _ _ _ _) as [[stats' sheet2] processed].
    simpl in Hsheet. destruct Hsheet as [_ Hreports].
    destruct (fits _ _); [|discriminate].
    assert (Hne : files <> []).
    { intros ->. discriminate. }
    destruct iterator as [|f rest]; intros [= <- <-]; simpl.
    + repeat split; eauto; discriminate.
    + repeat split; try discriminate; try (intros [H|H]; [contradiction|discriminate]).
      exact Hreports.
Qed.






(* ===================================================================== *)
(** ** A refused checkpoint *)
(* ===================================================================== *)

Lemma runInventoryBatch_refused drive now quota w :
  let page := Complete.getFilesToProcess
                drive (Complete.continuationToken (Complete.scriptProperties w))
                Complete.CONFIG.BATCH_SIZE in
  let done := Complete.processFiles
                now (fst page)
                (Complete.updateInventoryStatus RUNNING (Complete.spreadsheet w))
                (Complete.initializeStats
                   now (Complete.inventoryStats (Complete.scriptProperties w)))
                0 in
  (List.length (fst page) =? 0)%nat = false ->
  fits quota (stringify (Complete.toJson (fst (fst done)))) = false ->
  exists w',
    Complete.runInventoryBatch drive now quota w = (w', Throw "setProperty")
    /\ Complete.scriptProperties w' = Complete.scriptProperties w
    /\ Complete.statusCell (Complete.spreadsheet w') = Some RUNNING
    /\ Complete.reports (Complete.spreadsheet w')
       = Complete.reports (Complete.spreadsheet w).
Proof.
  intros page done Hpage Hfits.
  unfold Complete.runInventoryBatch. cbv zeta.
  subst done page.
  destruct (Complete.getFilesToProcess _ _ _) as [files iterator].
  cbn [fst snd] in Hpage, Hfits. rewrite Hpage.
  pose proof (processFiles_sheet now files
                (Complete.updateInventoryStatus RUNNING (Complete.spreadsheet w))
                (Complete.initializeStats now
                   (Complete.inventoryStats (Complete.scriptProperties w))) 0)
    as Hsheet.
  destruct (Complete.processFiles _ _ _ _ _) as [[stats' sheet2] processed].
  cbn [fst snd] in Hsheet, Hfits. rewrite Hfits.
  eexists. split; [reflexivity|]. cbn [Complete.scriptProperties Complete.spreadsheet].
  destruct Hsheet as [Hs Hr].
  repeat split; assumption.
Qed.

(** C7 (amended): when the property store refuses the serialized
    statistics, [setProperty] throws and neither [runInventoryBatch] nor
    [inventoryDrive] catches it: the exception reaches the operator.  The
    properties are those the batch started from, so the previous checkpoint
    is unchanged, and the status cell still reads RUNNING; no code path
    writes ERROR. *)
Theorem refused_checkpoint :
  forall (drive : list File) (now : Date) (quota : nat) (w : Complete.World),
    let page := Complete.getFilesToProcess
                  drive (Complete.continuationToken (Complete.scriptProperties w))
                  Complete.CONFIG.BATCH_SIZE in
    let done := Complete.processFiles
                  now (fst page)
                  (Complete.updateInventoryStatus RUNNING (Complete.spreadsheet w))
                  (Complete.initializeStats
                     now (Complete.inventoryStats (Complete.scriptProperties w)))
                  0 in
    (List.length (fst page) =? 0)%nat = false ->
    fits quota (stringify (Complete.toJson (fst (fst done)))) = false ->
    exists w',
      Complete.runInventoryBatch drive now quota w = (w', Throw "setProperty")
      /\ (forall clock,
             (clock 1%nat - clock 0%nat >? Complete.MAX_RUNTIME_MS) = false ->
             Complete.inventoryDrive clock drive now quota w
             = (w', Throw "setProperty"))
      /\ Complete.scriptProperties w' = Complete.scriptProperties w
      /\ Complete.statusCell (Complete.spreadsheet w') = Some RUNNING
      /\ Complete.reports (Complete.spreadsheet w')
         = Complete.reports (Complete.spreadsheet w).
Proof.
  intros drive now quota w page done Hpage Hfits.
  destruct (runInventoryBatch_refused drive now quota w Hpage Hfits)
    as (w' & Hrun & Hprops & Hstatus & Hreports).
  exists w'. split; [exact Hrun|]. split; [|auto].
  intros clock Hclock.
  unfold Complete.inventoryDrive, Complete.runInventoryContinuously.
  cbn [Complete.loop]. rewrite Hclock, Hrun.
  destruct (negb (Complete.isAutoMode w)); reflexivity.
Qed.

(** The amended C7 on the second batch over 250 small files: the statistics
    of 200 files no longer fit in 9 KB. *)
Lemma refused_checkpoint_witness :
  exists w',
    Complete.runInventoryBatch (repeat Samples.tiny 250) Samples.now Samples.quota
                               Samples.afterFirstBatch
    = (w', Throw "setProperty")
    /\ Complete.scriptProperties w'
       = Complete.scriptProperties Samples.afterFirstBatch
    /\ Complete.statusCell (Complete.spreadsheet w') = Some RUNNING.
Proof.
  destruct (refused_checkpoint (repeat Samples.tiny 250) Samples.now Samples.quota
                               Samples.afterFirstBatch)
    as (w' & Hrun & _ & Hprops & Hstatus & _).
  - vm_compute. reflexivity.
  - vm_compute. reflexivity.
  - exists w'. repeat split; assumption.
Defined.

(** C7 as stated fails: after the refused save the run is not in status
    ERROR.  The first batch over 250 small files leaves a checkpoint of 100
    files; the second batch cannot save 200, throws, and leaves the status
    cell at RUNNING and the checkpoint of the first batch in place. *)
Lemma status_stays_running :
  let before := Samples.afterFirstBatch in
  let run := Complete.runInventoryBatch (repeat Samples.tiny 250) Samples.now
                                        Samples.quota before in
  snd run = Throw "setProperty"
  /\ Complete.statusCell (Complete.spreadsheet (fst run)) = Some RUNNING
  /\ Complete.statusCell (Complete.spreadsheet (fst run)) <> Some ERROR
  /\ Complete.scriptProperties (fst run) = Complete.scriptProperties before
  /\ Complete.continuationToken (Complete.scriptProperties before) = Some 100%nat
  /\ option_map Complete.totalFiles
                (Complete.inventoryStats (Complete.scriptProperties before))
     = Some 100.
Proof.
  repeat split; try (vm_compute; reflexivity).
  vm_compute. discriminate.
Qed.

(* ===================================================================== *)
(** ** Resumption of the code inventory *)
(* ===================================================================== *)

Lemma assoc_map {V W} (f : V -> W) k (o : list (string * V)) :
  assoc k (map (fun kv => (fst kv, f (snd kv))) o) = option_map f (assoc k o).
Proof.
  induction o as [|[k' v] r IH]; simpl; [reflexivity|].
  destruct (String.eqb k k'); [reflexivity | exact IH].
Qed.

(** Once the statistics have been through the property store, a file of a
    repository the store already knows makes [processCodeFile] throw at
    [languages.add]. *)
Lemma reloaded_repository_throws fileData stats entry :
  String.eqb (CodeFiles.project fileData) "" = false ->
  CodeFiles.isInRepository fileData = true ->
  assoc (CodeFiles.project fileData) (CodeFiles.repositories stats) = Some entry ->
  snd (CodeFiles.trackRepository
         fileData
         (CodeFiles.updateCounts fileData (CodeFiles.parseStringified stats)))
  = Throw "TypeError: languages.add is not a function".
Proof.
  intros Hproject Hrepo Hentry. unfold CodeFiles.trackRepository.
  rewrite Hproject, Hrepo.
  cbn [negb andb CodeFiles.updateCounts CodeFiles.parseStringified
       CodeFiles.repositories].
  unfold Arr.inherited.
  rewrite !(assoc_map (fun r => {| CodeFiles.fileCount := CodeFiles.fileCount r;
                                   CodeFiles.languages := CodeFiles.PlainObject;
                                   CodeFiles.hasConfig := CodeFiles.hasConfig r;
                                   CodeFiles.lastActivity := CodeFiles.lastActivity r |})).
  rewrite Hentry. reflexivity.
Qed.

(** C1: idempotent resumption.  101 source files of one repository, crawled
    with the configured batch size of 100, take two batches.  The set of
    languages of the repository is written to the property store as [{}];
    in the second batch [languages.add] throws for the 101st file, after the
    file, language, category, project and repository counters have been
    incremented and before the owner and year counters are.  The final
    statistics count one error and 100 files by owner and by year, and have
    lost the languages; the same files crawled in one batch give no error,
    101 files by owner and by year, and the language set. *)
Theorem resumed_crawl_differs :
  let drive := repeat Samples.sourceFile 101 in
  let final batchSize :=
    CodeFiles.finalReports
      (CodeFiles.spreadsheet
         (CodeFiles.crawl 2 batchSize drive Samples.now Samples.quota
                          Samples.codeWorld)) in
  let batched := final CodeFiles.CONFIG.BATCH_SIZE in
  let uninterrupted := final 101%nat in
  (option_map CodeFiles.totalFiles batched = Some 101
   /\ option_map CodeFiles.totalFiles uninterrupted = Some 101)
  /\ (option_map CodeFiles.errors batched = Some 1
      /\ option_map CodeFiles.errors uninterrupted = Some 0)
  /\ (option_map CodeFiles.byOwner batched = Some [("owner@example.com", 100)]
      /\ option_map CodeFiles.byOwner uninterrupted = Some [("owner@example.com", 101)])
  /\ (option_map CodeFiles.byYear batched = Some [("2025", 100)]
      /\ option_map CodeFiles.byYear uninterrupted = Some [("2025", 101)])
  /\ (option_map (fun s => map (fun kv => CodeFiles.languages (snd kv))
                               (CodeFiles.repositories s)) batched
      = Some [CodeFiles.PlainObject]
      /\ option_map (fun s => map (fun kv => CodeFiles.languages (snd kv))
                                  (CodeFiles.repositories s)) uninterrupted
         = Some [CodeFiles.LanguageSet ["JavaScript"]]).
Proof. repeat split; vm_compute; reflexivity. Qed.

Example two_files_two_batches :
  let drive := [Samples.sourceFile; Samples.file "util.py" "text/x-python" 100 ["src"]] in
  let final batchSize :=
    CodeFiles.finalReports
      (CodeFiles.spreadsheet
         (CodeFiles.crawl 2 batchSize drive Samples.now Samples.quota
                          Samples.codeWorld)) in
  option_map CodeFiles.errors (final 1%nat) = Some 1
  /\ option_map CodeFiles.errors (final 2%nat) = Some 0
  /\ option_map CodeFiles.byOwner (final 1%nat) = Some [("owner@example.com", 1)]
  /\ option_map CodeFiles.byOwner (final 2%nat) = Some [("owner@example.com", 2)].
Proof. repeat split; vm_compute; reflexivity. Qed.

(* ===================================================================== *)
(** ** Resumption of the complete inventory *)
(* ===================================================================== *)

Lemma processFileForInventory_startTime now file sheet stats :
  Complete.startTime (fst (fst (Complete.processFileForInventory now file sheet stats)))
  = Complete.startTime stats.
Proof.
  unfold Complete.processFileForInventory.
  destruct (Complete.extractFileData file) as [d|e]; [|reflexivity].
  destruct (Complete.addToFileListSheet sheet d); reflexivity.
Qed.

Lemma processFiles_startTime now page sheet stats n :
  Complete.startTime (fst (fst (Complete.processFiles now page sheet stats n)))
  = Complete.startTime stats.
Proof.
  revert sheet stats n. induction page as [|f r IH]; intros sheet stats n.
  - reflexivity.
  - cbn [Complete.processFiles].
    pose proof (processFileForInventory_startTime now f sheet stats) as Hf.
    destruct (Complete.processFileForInventory now f sheet stats) as [[s sh] [u|e]];
      simpl in Hf; rewrite IH; [exact Hf|].
    simpl. exact Hf.
Qed.

(** Statistics that carry a start time come back from the store as they
    went in. *)
Lemma initializeStats_reload now stats :
  Complete.startTime stats <> "" ->
  Complete.initializeStats now (Some stats) = stats.
Proof.
  intros H. destruct stats. unfold Complete.initializeStats. simpl in *.
  destruct (String.eqb_spec startTime ""); [contradiction | reflexivity].
Qed.

(** For the complete inventory the checkpoint is transparent: cutting the
    files into pages, with a save and a reload before each page, gives the
    statistics, the sheet and the count of the uninterrupted loop. *)
Theorem complete_resumption now pages sheet stats n :
  Complete.startTime stats <> "" ->
  Complete.resumed now pages sheet stats n
  = Complete.processFiles now (List.concat pages) sheet stats n.
Proof.
  revert sheet stats n. induction pages as [|page later IH]; intros sheet stats n H.
  - reflexivity.
  - cbn [Complete.resumed List.concat]. rewrite complete_processFiles_app.
    rewrite (initializeStats_reload now stats H).
    pose proof (processFiles_startTime now page sheet stats n) as Hs.
    destruct (Complete.processFiles now page sheet stats n) as [[s sh] k].
    simpl in Hs. apply IH. rewrite Hs. exact H.
Qed.

(* ===================================================================== *)
(** * Further properties of the scripts *)
(* ===================================================================== *)

(* ===================================================================== *)
(** ** Pages of the listing *)
(* ===================================================================== *)

Lemma complete_fill_split batchSize files count acc :
  let '(page, rest) := Complete.fill batchSize files count acc in
  exists consumed,
    files = (consumed ++ rest)%list
    /\ page = (acc ++ filter Complete.shouldIncludeFile consumed)%list.
Proof.
  revert count acc.
  induction files as [|file files IH]; intros count acc; cbn [Complete.fill].
  - exists []. cbn. now rewrite app_nil_r.
  - destruct (count <? batchSize)%nat.
    + destruct (Complete.shouldIncludeFile file) eqn:Hi.
      * specialize (IH (S count) (acc ++ [file])%list).
        destruct (Complete.fill _ files _ _) as [page rest].
        destruct IH as (consumed & -> & ->).
        exists (file :: consumed). cbn [filter]. rewrite Hi.
        now rewrite <- app_assoc.
      * specialize (IH count acc).
        destruct (Complete.fill _ files _ _) as [page rest].
        destruct IH as (consumed & -> & ->).
        exists (file :: consumed). cbn [filter]. now rewrite Hi.
    + exists []. cbn. now rewrite app_nil_r.
Qed.

Lemma skipn_suffix {A} (pre rest : list A) :
  skipn (List.length (pre ++ rest) - List.length rest) (pre ++ rest)%list = rest.
Proof.
  rewrite length_app, Nat.add_sub.
  induction pre; [reflexivity | assumption].
Qed.

Lemma skipn_is_suffix {A} n (l : list A) : exists pre, l = (pre ++ skipn n l)%list.
Proof. exists (firstn n l). now rewrite firstn_skipn. Qed.

Lemma shouldIncludeFile_not_trashed file :
  Complete.shouldIncludeFile file = true -> isTrashed file = Ret false.
Proof.
  unfold Complete.shouldIncludeFile. cbn.
  destruct (isTrashed file) as [[]|]; cbn; congruence.
Qed.

Lemma page_splits_listing_aux drive token batchSize :
  let files := match token with
               | Some t => continueFileIterator drive t
               | None => drive
               end in
  let page := fst (Complete.getFilesToProcess drive token batchSize) in
  let iterator := snd (Complete.getFilesToProcess drive token batchSize) in
  (exists consumed,
      files = (consumed ++ iterator)%list
      /\ page = filter Complete.shouldIncludeFile consumed)
  /\ continueFileIterator drive (List.length drive - List.length iterator)%nat = iterator.
Proof.
  intros files page iterator.
  assert (Hsplit := complete_fill_split batchSize files 0%nat []).
  unfold page, iterator, Complete.getFilesToProcess. fold files.
  destruct (Complete.fill batchSize files 0%nat []) as [p r]. cbn [fst snd].
  destruct Hsplit as (consumed & Hfiles & Hpage). cbn [app] in Hpage.
  split.
  - now exists consumed.
  - unfold continueFileIterator.
    destruct (skipn_is_suffix (match token with Some t => t | None => 0%nat end) drive)
      as [pre Hpre].
    assert (Hf : files = skipn (match token with Some t => t | None => 0%nat end) drive).
    { unfold files, continueFileIterator. destruct token; reflexivity. }
    rewrite <- Hf, Hfiles, app_assoc in Hpre.
    rewrite Hpre at 1 2. apply skipn_suffix.
Qed.

(** X1 [getFilesToProcess], [shouldIncludeFile]: a page and the iterator
    left behind split the listing the page was read from.  The page is, in
    order, the files of the consumed part that [shouldIncludeFile] accepts,
    none of them trashed; no more than [batchSize] of them; and the
    continuation token taken from the iterator resumes exactly at the
    files that were not consumed. *)
Theorem page_splits_listing :
  forall (drive : list File) (token : option Token) (batchSize : nat),
    let files := match token with
                 | Some t => continueFileIterator drive t
                 | None => drive
                 end in
    let page := fst (Complete.getFilesToProcess drive token batchSize) in
    let iterator := snd (Complete.getFilesToProcess drive token batchSize) in
    (exists consumed,
        files = (consumed ++ iterator)%list
        /\ page = filter Complete.shouldIncludeFile consumed)
    /\ (List.length page <= batchSize)%nat
    /\ Forall (fun file => isTrashed file = Ret false) page
    /\ continueFileIterator drive (List.length drive - List.length iterator)%nat = iterator.
Proof.
  intros drive token batchSize files page iterator.
  destruct (page_splits_listing_aux drive token batchSize) as [Hsplit Hresume].
  fold files page iterator in Hsplit, Hresume.
  split; [exact Hsplit|]. split; [|split; [|exact Hresume]].
  - pose proof (fill_short batchSize files 0%nat [] page iterator) as Hshort.
    unfold page, iterator, Complete.getFilesToProcess in *. fold files in Hshort |- *.
    destruct (Complete.fill batchSize files 0%nat []) as [p r]. cbn [fst snd] in *.
    now destruct (Hshort eq_refl eq_refl (Nat.le_0_l _)).
  - destruct Hsplit as (consumed & _ & ->). apply Forall_forall. intros f Hf.
    apply filter_In in Hf. now apply shouldIncludeFile_not_trashed.
Qed.
(* ===================================================================== *)
(** ** Counters and grouping maps *)
(* ===================================================================== *)

Lemma total_cons k n o : Arr.total ((k, n) :: o) = n + Arr.total o.
Proof. reflexivity. Qed.

Lemma total_set k v o :
  Arr.total (Arr.set k v o)
  = Arr.total o + v - match assoc k o with Some n => n | None => 0 end.
Proof.
  induction o as [|[k' n] o IH]; cbn [Arr.set assoc].
  - cbn. lia.
  - destruct (String.eqb k k'); rewrite !total_cons; lia.
Qed.

Lemma total_bump k o : Arr.total (Arr.bump k o) = Arr.total o + 1.
Proof.
  unfold Arr.bump. destruct (assoc k o) eqn:H; rewrite total_set, H; lia.
Qed.

Lemma members_cons {V} k (g : list V) o :
  Arr.members ((k, g) :: o) = (List.length g + Arr.members o)%nat.
Proof. reflexivity. Qed.

Lemma members_set {V} k (v : list V) o :
  (Arr.members (Arr.set k v o)
   + match assoc k o with Some g => List.length g | None => 0 end
   = Arr.members o + List.length v)%nat.
Proof.
  induction o as [|[k' g] o IH]; cbn [Arr.set assoc].
  - cbn. lia.
  - destruct (String.eqb k k'); rewrite !members_cons; lia.
Qed.

Lemma members_pushCandidate k c o :
  Arr.members (Complete.pushCandidate k c o) = S (Arr.members o).
Proof.
  unfold Complete.pushCandidate.
  destruct (assoc k o) eqn:H.
  - pose proof (members_set k (l ++ [c])%list o) as E.
    rewrite H, length_app in E. cbn [List.length] in E. lia.
  - pose proof (members_set k [c] o) as E.
    rewrite H in E. cbn [List.length] in E. lia.
Qed.

(** X2 [processFileForInventory]: after any run of updates from new
    statistics, [totalFiles] is the number of files seen, [totalSize] the
    sum of their sizes, and the counters of [filesByYear] add up to
    [totalFiles]. *)
Theorem counters_add_up :
  forall (now : Date) (observed : list (Date * Complete.FileData)),
    let s := Complete.updates observed (Complete.initializeStats now None) in
    Complete.totalFiles s = Z.of_nat (List.length observed)
    /\ Complete.totalSize s
       = fold_right Z.add 0 (map (fun o => Complete.size (snd o)) observed)
    /\ Arr.total (Complete.filesByYear s) = Complete.totalFiles s
    /\ Complete.errors s = 0.
Proof.
  intros now observed.
  induction observed as [|o observed IH] using rev_ind.
  - cbn. auto.
  - cbn zeta in *. rewrite updates_snoc.
    destruct IH as (H1 & H2 & H3 & H4).
    cbn [Complete.update Complete.totalFiles Complete.totalSize
         Complete.filesByYear Complete.errors].
    rewrite total_bump, H1, H2, H3, H4, length_app, map_app, fold_right_app.
    cbn [List.length map fold_right].
    repeat split; try lia.
    clear. induction observed as [|a l IH]; cbn [map fold_right]; lia.
Qed.

(** X3 [processFileForInventory]: the duplicate candidates grow by one
    entry with every file: together the groups hold as many entries as files
    were seen, whatever their number. *)
Theorem duplicateCandidates_keep_every_file :
  forall (now : Date) (observed : list (Date * Complete.FileData)),
    Arr.members
      (Complete.duplicateCandidates
         (Complete.updates observed (Complete.initializeStats now None)))
    = List.length observed.
Proof.
  intros now observed.
  induction observed as [|o observed IH] using rev_ind.
  - reflexivity.
  - rewrite updates_snoc.
    cbn [Complete.update Complete.duplicateCandidates].
    rewrite members_pushCandidate, IH, length_app. cbn. lia.
Qed.

Lemma descending_map {A B} (f : A -> B) (key : B -> Z) l :
  Arr.descending (fun a => key (f a)) l -> Arr.descending key (map f l).
Proof.
  unfold Arr.descending. induction 1 as [|a l Hs IH Hall]; cbn [map]; constructor.
  - assumption.
  - apply Forall_map. exact Hall.
Qed.

(** X4 [generateDuplicatesReport]: the report has at most
    [MAX_DUPLICATE_GROUPS] rows, in descending order of group size; when no
    more than that many groups have two members or more, each of them has
    its row. *)
Theorem duplicates_report_ordered :
  forall (stats : Complete.Stats),
    let groups := filter (fun entry => (1 <? List.length (snd entry))%nat)
                         (Complete.duplicateCandidates stats) in
    let report := Complete.generateDuplicatesReport stats in
    (List.length report <= Complete.CONFIG.MAX_DUPLICATE_GROUPS)%nat
    /\ Arr.descending (fun row => Z.of_nat (Complete.dr_count row)) report
    /\ ((List.length groups <= Complete.CONFIG.MAX_DUPLICATE_GROUPS)%nat ->
        Permutation report (map Complete.duplicateRow groups)).
Proof.
  intros stats groups report. unfold report, Complete.generateDuplicatesReport.
  fold groups. repeat split.
  - rewrite length_map, length_firstn. lia.
  - apply descending_map.
    apply (descending_firstn Complete.groupSize).
    apply sortDesc_descending.
  - intros H. apply Permutation_map.
    rewrite firstn_all2 by (rewrite sortDesc_length; exact H).
    apply sortDesc_perm.
Qed.
(* ===================================================================== *)
(** ** One file: extraction, the row, the error counter *)
(* ===================================================================== *)

(** X5 [extractFileData]: the extraction throws only what one of the nine
    metadata calls threw; a failing walk to the parents or a failing sharing
    call never makes it throw.  A record it returns lists at most five
    viewers and five editors, and reads ['Private'] when the sharing access
    cannot be read. *)
Theorem extractFileData_failures :
  forall (file : File),
    match Complete.extractFileData file with
    | Throw e =>
        getId file = Throw e \/ getName file = Throw e
        \/ getMimeType file = Throw e \/ getSize file = Throw e
        \/ getDateCreated file = Throw e \/ getLastUpdated file = Throw e
        \/ getOwner file = Throw e \/ getUrl file = Throw e
        \/ getDescription file = Throw e
    | Ret fileData =>
        getName file = Ret (Complete.name fileData)
        /\ getSize file = Ret (Complete.size fileData)
        /\ (List.length (Complete.viewers fileData) <= 5)%nat
        /\ (List.length (Complete.editors fileData) <= 5)%nat
        /\ (forall e, getSharingAccess file = Throw e ->
                      Complete.sharingAccess fileData = "Private"
                      /\ Complete.sharingPermission fileData = "None")
    end.
Proof.
  intros file. unfold Complete.extractFileData.
  destruct (getId file); cbn [bind]; [|tauto].
  destruct (getName file); cbn [bind]; [|tauto].
  destruct (getMimeType file); cbn [bind]; [|tauto].
  destruct (getSize file); cbn [bind]; [|tauto].
  destruct (getDateCreated file); cbn [bind]; [|tauto].
  destruct (getLastUpdated file); cbn [bind]; [|tauto].
  destruct (getOwner file); cbn [bind]; [|tauto].
  destruct (getUrl file); cbn [bind]; [|tauto].
  destruct (getDescription file); cbn [bind]; [|tauto].
  cbn [Complete.CONFIG.TRACK_PERMISSIONS].
  destruct (getSharingAccess file), (getSharingPermission file),
    (getViewers file), (getEditors file);
    cbn [Complete.name Complete.size Complete.viewers Complete.editors
         Complete.sharingAccess Complete.sharingPermission List.length];
    repeat split; try rewrite length_firstn; try lia; try discriminate.
Qed.

Lemma processFileForInventory_totalFiles now file sheet stats :
  let '(stats', _, outcome) := Complete.processFileForInventory now file sheet stats in
  Complete.totalFiles stats <= Complete.totalFiles stats'
  <= Complete.totalFiles stats + 1
  /\ (outcome = Ret tt -> Complete.totalFiles stats' = Complete.totalFiles stats + 1).
Proof.
  unfold Complete.processFileForInventory.
  destruct (Complete.extractFileData file) as [d|e].
  - destruct (Complete.addToFileListSheet sheet d);
      cbn [Complete.update Complete.totalFiles]; split; try lia; intros; lia || discriminate.
  - split; [lia | discriminate].
Qed.

(** X6 [runInventoryBatch]: the per-file loop reports every file of the
    page exactly once, as processed or as an error, and never stops early;
    a processed file adds one to [totalFiles], and no file adds more than
    one. *)
Theorem every_file_reported_once :
  forall (now : Date) (page : list File) (sheet : Complete.Spreadsheet)
         (stats : Complete.Stats) (n : nat),
    let '(stats', _, n') := Complete.processFiles now page sheet stats n in
    Z.of_nat n' + Complete.errors stats'
    = Z.of_nat n + Complete.errors stats + Z.of_nat (List.length page)
    /\ (n <= n')%nat
    /\ Complete.totalFiles stats + Z.of_nat (n' - n)
       <= Complete.totalFiles stats'
       <= Complete.totalFiles stats + Z.of_nat (List.length page).
Proof.
  intros now page. induction page as [|file page IH]; intros sheet stats n.
  - cbn. lia.
  - cbn [Complete.processFiles].
    pose proof (processFileForInventory_totalFiles now file sheet stats) as T.
    pose proof (processFileForInventory_errors now file sheet stats) as E.
    destruct (Complete.processFileForInventory now file sheet stats)
      as [[stats1 sheet1] [[]|e]]; cbn [fst] in E.
    + specialize (IH sheet1 stats1 (S n)).
      destruct (Complete.processFiles now page sheet1 stats1 (S n)) as [[s' sh'] n'].
      destruct T as [T1 T2]. specialize (T2 eq_refl).
      cbn [List.length]. lia.
    + specialize (IH sheet1 (Complete.countError stats1) n).
      destruct (Complete.processFiles now page sheet1 _ n) as [[s' sh'] n'].
      cbn [Complete.countError Complete.errors Complete.totalFiles] in IH.
      destruct T as [T1 _]. cbn [List.length]. lia.
Qed.

(** X7 [processFileForInventory], [addToFileListSheet]: a file is counted
    before its row is written.  When the file list takes no more rows,
    every file of the page whose metadata can be read is counted in
    [totalFiles] and in [errors] as well, and none is reported as
    processed. *)
Theorem full_sheet_counts_twice :
  forall (now : Date) (page : list File) (sheet : Complete.Spreadsheet)
         (stats : Complete.Stats) (n : nat),
    Complete.rowsLeft sheet = 0%nat ->
    forallb (fun file => match Complete.extractFileData file with
                         | Ret _ => true
                         | Throw _ => false
                         end) page = true ->
    let '(stats', sheet', n') := Complete.processFiles now page sheet stats n in
    n' = n
    /\ Complete.totalFiles stats'
       = Complete.totalFiles stats + Z.of_nat (List.length page)
    /\ Complete.errors stats' = Complete.errors stats + Z.of_nat (List.length page)
    /\ sheet' = sheet.
Proof.
  intros now page sheet. induction page as [|file page IH]; intros stats n Hfull Hread.
  - cbn. repeat split; lia.
  - cbn [forallb] in Hread. apply andb_prop in Hread as [Hfile Hread].
    cbn [Complete.processFiles]. unfold Complete.processFileForInventory.
    destruct (Complete.extractFileData file) as [d|]; [|discriminate].
    unfold Complete.addToFileListSheet. rewrite Hfull.
    specialize (IH (Complete.countError (Complete.update now d stats)) n Hfull Hread).
    destruct (Complete.processFiles now page sheet _ n) as [[s' sh'] n'].
    cbn [Complete.countError Complete.update Complete.errors Complete.totalFiles] in IH.
    cbn [List.length]. repeat split; try tauto; lia.
Qed.

Lemma full_sheet_counts_twice_witness :
  let sheet := {| Complete.statusCell := None; Complete.fileList := [];
                  Complete.rowsLeft := 0; Complete.reports := None |} in
  let '(stats', sheet', n') :=
    Complete.processFiles Samples.now [Samples.pdf; Samples.photo] sheet
                          (Complete.initializeStats Samples.now None) 0 in
  n' = 0%nat
  /\ Complete.totalFiles stats' = 0 + Z.of_nat 2
  /\ Complete.errors stats' = 0 + Z.of_nat 2
  /\ sheet' = sheet.
Proof.
  intros sheet.
  exact (full_sheet_counts_twice Samples.now [Samples.pdf; Samples.photo] sheet
           (Complete.initializeStats Samples.now None) 0 eq_refl eq_refl).
Defined.
(* ===================================================================== *)
(** ** The optimized inventory: bounded maps, kept files, the run *)
(* ===================================================================== *)

Lemma length_set {V} k (v : V) o :
  List.length (Arr.set k v o)
  = match assoc k o with
    | Some _ => List.length o
    | None => S (List.length o)
    end.
Proof.
  induction o as [|[k' v'] o IH]; cbn [Arr.set assoc]; [reflexivity|].
  destruct (String.eqb k k'); cbn [List.length]; [reflexivity|].
  rewrite IH. destruct (assoc k o); reflexivity.
Qed.

Lemma length_bump k o :
  List.length (Arr.bump k o)
  = match assoc k o with
    | Some _ => List.length o
    | None => S (List.length o)
    end.
Proof.
  unfold Arr.bump. destruct (assoc k o) eqn:H; rewrite length_set, H; reflexivity.
Qed.

Lemma optimized_update_filesByType now d stats :
  (List.length (Optimized.filesByType stats) <= 50)%nat ->
  Arr.total (Optimized.filesByType stats) <= Optimized.totalFiles stats ->
  (List.length (Optimized.filesByType (Optimized.update now d stats)) <= 50)%nat
  /\ Arr.total (Optimized.filesByType (Optimized.update now d stats))
     <= Optimized.totalFiles (Optimized.update now d stats).
Proof.
  intros Hl Ht.
  cbn [Optimized.update Optimized.updateLists Optimized.updateCounts
       Optimized.filesByType Optimized.totalFiles].
  destruct (List.length (Optimized.filesByType stats) <? 50)%nat eqn:Hroom;
    cbn [orb].
  - apply Nat.ltb_lt in Hroom. rewrite length_bump, total_bump.
    destruct (assoc _ _); split; lia.
  - destruct (assoc (to_key (Optimized.type d)) (Optimized.filesByType stats)) eqn:Ha.
    + destruct (negb (z =? 0)).
      * rewrite length_bump, total_bump, Ha. split; lia.
      * split; lia.
    + split; lia.
Qed.

(** X8 [processFileOptimized]: the map of file types never holds more than
    50 types, and its counters add up to no more than [totalFiles]: a file
    of a type that is first seen when 50 types are known is counted in
    [totalFiles] and in no type. *)
Theorem filesByType_bounded :
  forall (now : Date) (observed : list (Date * Optimized.FileData))
         (at_ : Date) (d : Optimized.FileData),
    let s := Optimized.updates observed (Optimized.initialStats now) in
    (List.length (Optimized.filesByType s) <= 50)%nat
    /\ Arr.total (Optimized.filesByType s) <= Optimized.totalFiles s
    /\ Optimized.totalFiles s = Z.of_nat (List.length observed)
    /\ ((List.length (Optimized.filesByType s) <? 50)%nat = false ->
        assoc (to_key (Optimized.type d)) (Optimized.filesByType s) = None ->
        Optimized.filesByType (Optimized.update at_ d s) = Optimized.filesByType s
        /\ Optimized.totalFiles (Optimized.update at_ d s)
           = Optimized.totalFiles s + 1).
Proof.
  intros now observed at_ d s.
  assert (H : (List.length (Optimized.filesByType s) <= 50)%nat
              /\ Arr.total (Optimized.filesByType s) <= Optimized.totalFiles s
              /\ Optimized.totalFiles s = Z.of_nat (List.length observed)).
  { unfold s. clear s.
    induction observed as [|o observed IH] using rev_ind.
    - cbn. repeat split; lia.
    - rewrite optimized_updates_snoc. destruct IH as (H1 & H2 & H3).
      destruct (optimized_update_filesByType (fst o) (snd o) _ H1 H2) as [H4 H5].
      repeat split; try assumption.
      cbn [Optimized.update Optimized.updateLists Optimized.updateCounts
           Optimized.totalFiles].
      rewrite H3, length_app. cbn [List.length]. lia. }
  destruct H as (H1 & H2 & H3). repeat split; try assumption.
  - cbn [Optimized.update Optimized.updateLists Optimized.updateCounts
         Optimized.filesByType].
    rewrite H, H0. reflexivity.
Qed.

Lemma firstn_snoc_room {A} n (l : list A) x :
  (List.length l < n)%nat -> firstn n (l ++ [x]) = (l ++ [x])%list.
Proof. intros H. apply firstn_all2. rewrite length_app. cbn. lia. Qed.

Lemma firstn_snoc_full {A} n (l : list A) x :
  (n <= List.length l)%nat -> firstn n (l ++ [x]) = firstn n l.
Proof.
  intros H. rewrite firstn_app.
  replace (n - List.length l)%nat with 0%nat by lia.
  cbn. apply app_nil_r.
Qed.

(** X9 [processFileOptimized]: the list of large files is the first 100
    large files in the order they were seen, sorted by size; a large file
    seen later is not kept, whatever its size. *)
Theorem largeFiles_first_hundred :
  forall (now : Date) (observed : list (Date * Optimized.FileData)),
    Optimized.largeFiles (Optimized.updates observed (Optimized.initialStats now))
    = Arr.sortDesc Optimized.lf_size
        (firstn Optimized.CONFIG.MAX_LARGE_FILES
                (map Optimized.largeFile
                     (filter Optimized.isLarge (map snd observed)))).
Proof.
  intros now observed.
  induction observed as [|o observed IH] using rev_ind; [reflexivity|].
  rewrite optimized_updates_snoc, map_app, filter_app, map_app.
  cbn [map filter].
  cbn [Optimized.update Optimized.updateLists Optimized.updateCounts
       Optimized.largeFiles Optimized.isLarge Optimized.size].
  fold (Optimized.isLarge (snd o)).
  destruct (Optimized.isLarge (snd o)); cbn [map].
  2:{ rewrite app_nil_r. exact IH. }
  rewrite IH. clear IH.
  set (L := map Optimized.largeFile (filter Optimized.isLarge (map snd observed))).
  unfold Optimized.keepLargest. rewrite sortDesc_length, length_firstn.
  change Optimized.CONFIG.MAX_LARGE_FILES with 100%nat.
  destruct (Nat.min 100 (List.length L) <? 100)%nat eqn:Hroom.
  - apply Nat.ltb_lt in Hroom.
    assert (HL : (List.length L < 100)%nat) by lia.
    rewrite (firstn_all2 L) by lia.
    rewrite firstn_snoc_room by exact HL.
    rewrite !sortDesc_snoc, (sortDesc_id _ (Arr.sortDesc _ L))
      by apply sortDesc_descending.
    rewrite <- sortDesc_snoc.
    assert (Hlen : (List.length (Arr.sortDesc Optimized.lf_size (L ++ [Optimized.largeFile (snd o)])) <= 100)%nat).
    { rewrite sortDesc_length, length_app. cbn. lia. }
    destruct (Nat.ltb_spec 100 (List.length (Arr.sortDesc Optimized.lf_size
                                               (L ++ [Optimized.largeFile (snd o)])))).
    + lia.
    + reflexivity.
  - apply Nat.ltb_ge in Hroom.
    rewrite firstn_snoc_full by lia. reflexivity.
Qed.
Lemma optimized_fill_firstn batchSize files count acc :
  Optimized.fill batchSize files count acc
  = ((acc ++ firstn (batchSize - count) files)%list, skipn (batchSize - count) files).
Proof.
  revert count acc. induction files as [|file files IH]; intros count acc;
    cbn [Optimized.fill].
  - now rewrite firstn_nil, skipn_nil, app_nil_r.
  - destruct (Nat.ltb_spec count batchSize).
    + rewrite IH. replace (batchSize - count)%nat with (S (batchSize - S count)) by lia.
      cbn [firstn skipn]. now rewrite <- app_assoc.
    + replace (batchSize - count)%nat with 0%nat by lia.
      cbn [firstn skipn]. now rewrite app_nil_r.
Qed.

Lemma optimized_getFilesToProcess drive token batchSize :
  let files := match token with
               | Some t => continueFileIterator drive t
               | None => drive
               end in
  Optimized.getFilesToProcess drive token batchSize
  = (firstn batchSize files, skipn batchSize files).
Proof.
  cbn zeta. unfold Optimized.getFilesToProcess.
  rewrite optimized_fill_firstn, Nat.sub_0_r. reflexivity.
Qed.

Lemma optimized_processFiles_counts now page sheet stats n :
  forallb (fun file => match Optimized.extractFileDataOptimized file with
                       | Ret _ => true
                       | Throw _ => false
                       end) page = true ->
  exists stats' sheet' n',
    Optimized.processFiles now page sheet stats n = (stats', sheet', n', Ret tt)
    /\ Optimized.totalFiles stats'
       = Optimized.totalFiles stats + Z.of_nat (List.length page).
Proof.
  revert sheet stats n. induction page as [|file page IH]; intros sheet stats n H.
  - exists stats, sheet, n. cbn. split; [reflexivity | lia].
  - cbn [forallb] in H. apply andb_prop in H as [Hfile Hpage].
    cbn [Optimized.processFiles]. unfold Optimized.processFileOptimized.
    assert (Hname : exists name, getName file = Ret name).
    { unfold Optimized.extractFileDataOptimized in Hfile.
      destruct (getName file); [eauto | discriminate]. }
    destruct (Optimized.extractFileDataOptimized file) as [d|]; [|discriminate].
    destruct (Optimized.addToFileListSheetOptimized sheet d) as [sheet1|e].
    + match goal with
      | |- context [Optimized.processFiles now page ?sh ?st ?k] =>
          destruct (IH sh st k Hpage) as (s' & sh' & n' & E & T)
      end.
      exists s', sh', n'. split; [exact E|].
      rewrite T.
      cbn [Optimized.updateLists Optimized.updateCounts Optimized.totalFiles
           List.length].
      lia.
    + destruct Hname as [name ->].
      match goal with
      | |- context [Optimized.processFiles now page ?sh ?st ?k] =>
          destruct (IH sh st k Hpage) as (s' & sh' & n' & E & T)
      end.
      exists s', sh', n'. split; [exact E|].
      rewrite T.
      cbn [Optimized.countError Optimized.updateCounts Optimized.totalFiles
           List.length].
      lia.
Qed.

Lemma batches_repeat_page drive now clock startTime token page rest :
  Optimized.getFilesToProcess drive token Optimized.CONFIG.BATCH_SIZE = (page, rest) ->
  (List.length page =? 0)%nat = false ->
  (List.length rest =? 0)%nat = false ->
  forallb (fun file => match Optimized.extractFileDataOptimized file with
                       | Ret _ => true
                       | Throw _ => false
                       end) page = true ->
  forall k iterations i w stats,
    forallb (fun j => negb (clock j - startTime >? 300 * 1000)) (seq i k) = true ->
    (clock (i + k)%nat - startTime >? 300 * 1000) = true ->
    (k < iterations)%nat ->
    exists w' stats',
      Optimized.batches iterations clock i startTime drive now token w stats
      = Some (w', stats', Ret Optimized.Scheduled)
      /\ Optimized.totalFiles stats'
         = Optimized.totalFiles stats + Z.of_nat (S k) * Z.of_nat (List.length page)
      /\ Optimized.progress (Optimized.spreadsheet w') = Some stats'
      /\ Optimized.continuationToken w'
         = Some (List.length drive - List.length rest)%nat
      /\ Optimized.finalReports w' = Optimized.finalReports w.
Proof.
  intros Hpage Hsome Hmore Hread.
  induction k as [|k IH]; intros iterations i w stats Hbefore Hafter Hfuel;
    (destruct iterations as [|iterations]; [lia|]);
    cbn [Optimized.batches]; rewrite Hpage, Hsome;
    match goal with
    | |- context [Optimized.processFiles now page ?sh ?st ?n] =>
        destruct (optimized_processFiles_counts now page sh st n Hread)
          as (s1 & sh1 & n1 & -> & T)
    end;
    (destruct rest as [|r rest]; [discriminate|]).
  - rewrite Nat.add_0_r in Hafter. rewrite Hafter.
    eexists _, _. split; [reflexivity|]. split; [rewrite T; lia|].
    cbn. repeat split.
  - cbn [seq forallb] in Hbefore. apply andb_prop in Hbefore as [Hi Hbefore].
    apply negb_true_iff in Hi. rewrite Hi.
    match goal with
    | |- context [Optimized.batches iterations clock (S i) startTime drive now token ?w1 ?st] =>
        destruct (IH iterations (S i) w1 st Hbefore) as (w' & s' & E & T' & P & K & F);
          [ now rewrite Nat.add_succ_comm | lia | ]
    end.
    exists w', s'. split; [exact E|]. rewrite T', T. repeat split; try assumption.
    lia.
Qed.
(** X10 [runOptimizedInventory], [getFilesToProcess]: the loop reads every
    page with the token the invocation started with.  As long as files
    remain behind the page and the five minutes have not passed, the same
    page is processed again: when the time is up after [k] repetitions, the
    statistics count [S k] times the 200 files of that one page, files
    further on have not been looked at, and the stored token is the one
    behind that page.  The statistics start from zero in every invocation,
    whatever the progress sheet held. *)
Theorem stale_token_repeats_page :
  forall (drive : list File) (now : Date) (clock : nat -> Z)
         (w : Optimized.World) (k iterations : nat),
    let files := match Optimized.continuationToken w with
                 | Some t => continueFileIterator drive t
                 | None => drive
                 end in
    (Optimized.CONFIG.BATCH_SIZE <? List.length files)%nat = true ->
    forallb (fun file => match Optimized.extractFileDataOptimized file with
                         | Ret _ => true
                         | Throw _ => false
                         end)
            (firstn Optimized.CONFIG.BATCH_SIZE files) = true ->
    forallb (fun j => negb (clock j - clock 0%nat >? 300 * 1000)) (seq 1 k) = true ->
    (clock (S k) - clock 0%nat >? 300 * 1000) = true ->
    (k < iterations)%nat ->
    exists w',
      Optimized.runOptimizedInventory iterations clock drive now w
      = Some (w', Ret Optimized.Scheduled)
      /\ option_map Optimized.totalFiles (Optimized.progress (Optimized.spreadsheet w'))
         = Some (Z.of_nat (S k) * Z.of_nat Optimized.CONFIG.BATCH_SIZE)
      /\ Optimized.continuationToken w'
         = Some (List.length drive - List.length files
                 + Optimized.CONFIG.BATCH_SIZE)%nat
      /\ Optimized.finalReports w' = Optimized.finalReports w.
Proof.
  intros drive now clock w k iterations files Hmore Hread Hbefore Hafter Hfuel.
  apply Nat.ltb_lt in Hmore.
  pose proof (optimized_getFilesToProcess drive (Optimized.continuationToken w)
                Optimized.CONFIG.BATCH_SIZE) as Hpage.
  cbn zeta in Hpage. fold files in Hpage.
  assert (Hlen : (List.length files <= List.length drive)%nat).
  { unfold files, continueFileIterator. destruct (Optimized.continuationToken w).
    - rewrite length_skipn. lia.
    - lia. }
  unfold Optimized.runOptimizedInventory. cbn [Optimized.initializeStatsInSheet].
  match goal with
  | |- context [Optimized.batches iterations clock 1 ?st drive now ?tok ?w1 ?s] =>
      destruct (batches_repeat_page drive now clock st tok _ _ Hpage) with
        (k := k) (iterations := iterations) (i := 1%nat) (w := w1) (stats := s)
        as (w' & s' & E & T & P & K & F)
  end.
  - rewrite length_firstn. apply Nat.eqb_neq. change Optimized.CONFIG.BATCH_SIZE with 200%nat in *. lia.
  - rewrite length_skipn. apply Nat.eqb_neq. lia.
  - exact Hread.
  - exact Hbefore.
  - exact Hafter.
  - exact Hfuel.
  - rewrite E. exists w'. split; [reflexivity|].
    rewrite P, K, F. cbn [option_map]. rewrite T.
    rewrite length_firstn, length_skipn.
    change Optimized.CONFIG.BATCH_SIZE with 200%nat in *.
    cbn [Optimized.initialStats Optimized.totalFiles Optimized.finalReports
         Optimized.updateProgressSheet Optimized.addRow].
    repeat split.
    + f_equal. lia.
    + f_equal. lia.
Qed.

Lemma stale_token_repeats_page_witness :
  exists w',
    Optimized.runOptimizedInventory 3 (Samples.every 150000) (repeat Samples.tiny 201)
                                    Samples.now Samples.optimizedWorld
    = Some (w', Ret Optimized.Scheduled)
    /\ option_map Optimized.totalFiles (Optimized.progress (Optimized.spreadsheet w'))
       = Some 600
    /\ Optimized.continuationToken w' = Some 200%nat
    /\ Optimized.finalReports w' = None.
Proof.
  apply (stale_token_repeats_page (repeat Samples.tiny 201) Samples.now
           (Samples.every 150000) Samples.optimizedWorld 2 3);
    [ vm_compute; reflexivity | vm_compute; reflexivity | vm_compute; reflexivity
    | vm_compute; reflexivity | lia ].
Defined.
Lemma processFileOptimized_errors now file sheet stats :
  Optimized.errors (fst (fst (Optimized.processFileOptimized now file sheet stats)))
  = Optimized.errors stats.
Proof.
  unfold Optimized.processFileOptimized.
  destruct (Optimized.extractFileDataOptimized file) as [d|]; [|reflexivity].
  destruct (Optimized.addToFileListSheetOptimized sheet d); reflexivity.
Qed.

(** X11 [runOptimizedInventory]: when the name of every file of the page
    can be read, the per-file loop returns, and every file of the page is
    reported once, as processed or as an error. *)
Theorem readable_names_finish_page :
  forall (now : Date) (page : list File) (sheet : Optimized.Spreadsheet)
         (stats : Optimized.Stats) (n : nat),
    forallb (fun file => match getName file with
                         | Ret _ => true
                         | Throw _ => false
                         end) page = true ->
    exists stats' sheet' n',
      Optimized.processFiles now page sheet stats n = (stats', sheet', n', Ret tt)
      /\ Z.of_nat n' + Optimized.errors stats'
         = Z.of_nat n + Optimized.errors stats + Z.of_nat (List.length page).
Proof.
  intros now page. induction page as [|file page IH]; intros sheet stats n H.
  - exists stats, sheet, n. cbn. split; [reflexivity | lia].
  - cbn [forallb] in H. apply andb_prop in H as [Hfile Hpage].
    cbn [Optimized.processFiles].
    pose proof (processFileOptimized_errors now file sheet stats) as E.
    destruct (Optimized.processFileOptimized now file sheet stats)
      as [[stats1 sheet1] [[]|e]]; cbn [fst] in E.
    + match goal with
      | |- context [Optimized.processFiles now page ?sh ?st ?k] =>
          destruct (IH sh st k Hpage) as (s' & sh' & n' & R & T)
      end.
      exists s', sh', n'. split; [exact R|]. cbn [List.length]. lia.
    + destruct (getName file); [|discriminate].
      destruct (IH sheet1 (Optimized.countError stats1) n Hpage)
        as (s' & sh' & n' & R & T).
      exists s', sh', n'. split; [exact R|].
      cbn [Optimized.countError Optimized.errors List.length] in *. lia.
Qed.

Lemma readable_names_finish_page_witness :
  exists stats' sheet' n',
    Optimized.processFiles Samples.now [Samples.pdf; Samples.photo]
                           Samples.optimizedSheet
                           (Optimized.initialStats Samples.now) 0
    = (stats', sheet', n', Ret tt)
    /\ Z.of_nat n' + Optimized.errors stats' = 2.
Proof.
  exact (readable_names_finish_page Samples.now [Samples.pdf; Samples.photo]
           Samples.optimizedSheet (Optimized.initialStats Samples.now) 0 eq_refl).
Defined.

(* ===================================================================== *)
(** ** The document inventory *)
(* ===================================================================== *)

Lemma document_fill_split batchSize maxCheck files count checked acc :
  (count <= batchSize)%nat -> (checked <= maxCheck)%nat ->
  match Documents.fill batchSize maxCheck files count checked acc with
  | Ret (page, rest) =>
      exists consumed,
        files = (consumed ++ rest)%list
        /\ page = (acc ++ filter (fun file =>
                                    match Documents.isDocumentFile file with
                                    | Ret b => b
                                    | Throw _ => false
                                    end) consumed)%list
        /\ (List.length page + count <= List.length acc + batchSize)%nat
        /\ (List.length consumed + checked <= maxCheck)%nat
        /\ Forall (fun file => exists b, Documents.isDocumentFile file = Ret b) consumed
  | Throw e => exists file, In file files /\ getName file = Throw e
  end.
Proof.
  revert count checked acc.
  induction files as [|file files IH]; intros count checked acc Hc Hk;
    cbn [Documents.fill].
  - exists []. cbn. rewrite app_nil_r. repeat split; try lia. constructor.
  - destruct (Nat.ltb_spec count batchSize); cbn [andb].
    2:{ exists []. cbn. rewrite app_nil_r. repeat split; try lia. constructor. }
    destruct (Nat.ltb_spec checked maxCheck).
    2:{ exists []. cbn. rewrite app_nil_r. repeat split; try lia. constructor. }
    destruct (Documents.isDocumentFile file) as [[]|e] eqn:Hdoc; cbn [bind].
    + specialize (IH (S count) (S checked) (acc ++ [file])%list ltac:(lia) ltac:(lia)).
      destruct (Documents.fill _ _ files _ _ _) as [[page rest]|e].
      * destruct IH as (consumed & -> & -> & Hl & Hm & Hall).
        exists (file :: consumed). cbn [filter]. rewrite Hdoc.
        rewrite <- app_assoc. cbn [app List.length].
        rewrite !length_app in *. cbn [List.length] in *.
        repeat split; try lia. constructor; eauto.
      * destruct IH as (f & Hin & Hf). exists f. split; [now right | exact Hf].
    + specialize (IH count (S checked) acc ltac:(lia) ltac:(lia)).
      destruct (Documents.fill _ _ files _ _ _) as [[page rest]|e'].
      * destruct IH as (consumed & -> & -> & Hl & Hm & Hall).
        exists (file :: consumed). cbn [filter]. rewrite Hdoc.
        cbn [app List.length]. repeat split; try lia. constructor; eauto.
      * destruct IH as (f & Hin & Hf). exists f. split; [now right | exact Hf].
    + exists file. split; [now left|].
      unfold Documents.isDocumentFile, catch in Hdoc.
      destruct (bind (getMimeType file) _); [discriminate|].
      destruct (getName file); cbn [bind] in Hdoc; congruence.
Qed.

(** X12 [getDocumentFilesToProcess], [isDocumentFile]: a page of the
    document inventory holds at most [batchSize] files, every one of them a
    document, in the order of the listing; the files taken from the
    iterator for it are at most ten times [batchSize], and no document
    among them is left out.  The call throws only when the name of a listed
    file cannot be read. *)
Theorem document_page_bounds :
  forall (drive : list File) (token : option Token) (batchSize : nat),
    let files := match token with
                 | Some t => continueFileIterator drive t
                 | None => drive
                 end in
    match Documents.getDocumentFilesToProcess drive token batchSize with
    | Ret (page, iterator) =>
        exists consumed,
          files = (consumed ++ iterator)%list
          /\ page = filter (fun file => match Documents.isDocumentFile file with
                                        | Ret b => b
                                        | Throw _ => false
                                        end) consumed
          /\ (List.length page <= batchSize)%nat
          /\ (List.length consumed <= batchSize * 10)%nat
          /\ Forall (fun file => Documents.isDocumentFile file = Ret true) page
    | Throw e => exists file, In file files /\ getName file = Throw e
    end.
Proof.
  intros drive token batchSize files.
  unfold Documents.getDocumentFilesToProcess. fold files.
  pose proof (document_fill_split batchSize (batchSize * 10) files 0 0 []
                (Nat.le_0_l _) (Nat.le_0_l _)) as H.
  destruct (Documents.fill _ _ files _ _ _) as [[page rest]|e]; [|exact H].
  destruct H as (consumed & Hf & Hp & Hl & Hm & Hall).
  exists consumed. cbn [app List.length] in *.
  repeat split; try assumption; try lia.
  subst page. apply Forall_forall. intros f Hin. apply filter_In in Hin as [Hin Hb].
  destruct (Documents.isDocumentFile f) as [[]|]; congruence.
Qed.

Lemma processDocumentFile_counters now file sheet stats :
  let stats' := fst (fst (Documents.processDocumentFile now file sheet stats)) in
  Documents.googleWorkspaceFiles stats' + Documents.otherDocumentFiles stats'
  - Documents.totalFiles stats'
  = Documents.googleWorkspaceFiles stats + Documents.otherDocumentFiles stats
    - Documents.totalFiles stats.
Proof.
  unfold Documents.processDocumentFile.
  destruct (Documents.extractFileData file) as [d|]; [|reflexivity].
  destruct (Documents.addToDocumentListSheet sheet d);
    cbn [fst Documents.update Documents.googleWorkspaceFiles
         Documents.otherDocumentFiles Documents.totalFiles];
    destruct (Documents.isGoogleFile d); lia.
Qed.

(** X13 [processDocumentFile], [runDocumentInventoryBatch]: every counted
    document is counted as a Google Workspace file or as another document,
    never as both: over a page, also one that ends in an exception, the two
    counters together grow exactly as [totalFiles] does, and they add up to
    it in a run that starts from new statistics. *)
Theorem document_kinds_partition :
  forall (now : Date) (page : list File) (sheet : Documents.Spreadsheet)
         (stats : Documents.Stats) (n : nat),
    let stats' := fst (fst (fst (Documents.processFiles now page sheet stats n))) in
    (Documents.googleWorkspaceFiles stats' + Documents.otherDocumentFiles stats'
     - Documents.totalFiles stats'
     = Documents.googleWorkspaceFiles stats + Documents.otherDocumentFiles stats
       - Documents.totalFiles stats)
    /\ (let fresh := fst (fst (fst (Documents.processFiles
                                      now page sheet
                                      (Documents.initializeStats now None) n))) in
        Documents.googleWorkspaceFiles fresh + Documents.otherDocumentFiles fresh
        = Documents.totalFiles fresh).
Proof.
  assert (H : forall now page sheet stats n,
             let stats' := fst (fst (fst (Documents.processFiles now page sheet stats n))) in
             Documents.googleWorkspaceFiles stats' + Documents.otherDocumentFiles stats'
             - Documents.totalFiles stats'
             = Documents.googleWorkspaceFiles stats + Documents.otherDocumentFiles stats
               - Documents.totalFiles stats).
  { intros now page. induction page as [|file page IH]; intros sheet stats n;
      [reflexivity|].
    cbn [Documents.processFiles].
    pose proof (processDocumentFile_counters now file sheet stats) as P.
    destruct (Documents.isDocumentFile file) as [[]|e].
    - destruct (Documents.processDocumentFile now file sheet stats)
        as [[s1 sh1] [[]|e]]; cbn [fst] in P.
      + cbn zeta in *. rewrite IH. exact P.
      + destruct (getName file).
        * cbn zeta in *. rewrite IH. cbn [Documents.countError
            Documents.googleWorkspaceFiles Documents.otherDocumentFiles
            Documents.totalFiles]. exact P.
        * cbn [fst]. exact P.
    - cbn zeta in *. apply IH.
    - destruct (getName file).
      + cbn zeta in *. rewrite IH. reflexivity.
      + reflexivity. }
  intros now page sheet stats n. split; [apply H|].
  cbn zeta. specialize (H now page sheet (Documents.initializeStats now None) n).
  cbn zeta in H.
  change (Documents.googleWorkspaceFiles (Documents.initializeStats now None))
    with 0 in H.
  change (Documents.otherDocumentFiles (Documents.initializeStats now None))
    with 0 in H.
  change (Documents.totalFiles (Documents.initializeStats now None)) with 0 in H.
  lia.
Qed.
(* ===================================================================== *)
(** ** The shared-files audit *)
(* ===================================================================== *)

Lemma shared_updates_snoc files d stats :
  SharedAudit.updates (files ++ [d]) stats
  = SharedAudit.update d (SharedAudit.updates files stats).
Proof. unfold SharedAudit.updates. now rewrite fold_left_app. Qed.

(** X14 [categorizeSharing], [processSharedFile]: every audited file falls
    into exactly one of the four sharing categories: the four counters add
    up to [totalFiles], which is the number of files audited. *)
Theorem sharing_categories_partition :
  forall (now : Date) (files : list SharedAudit.FileData),
    let u := SharedAudit.updates files (SharedAudit.initialStats now) in
    SharedAudit.publicFiles u + SharedAudit.domainSharedFiles u
    + SharedAudit.externallySharedFiles u + SharedAudit.internallySharedFiles u
    = SharedAudit.totalFiles u
    /\ SharedAudit.totalFiles u = Z.of_nat (List.length files)
    /\ SharedAudit.publicFiles u
       = Z.of_nat (List.length (filter SharedAudit.isPublic files)).
Proof.
  intros now files.
  induction files as [|d files IH] using rev_ind.
  - cbn. auto.
  - cbn zeta in *. rewrite shared_updates_snoc. destruct IH as (H1 & H2 & H3).
    cbn [SharedAudit.update SharedAudit.publicFiles SharedAudit.domainSharedFiles
         SharedAudit.externallySharedFiles SharedAudit.internallySharedFiles
         SharedAudit.totalFiles].
    rewrite filter_app, !length_app. cbn [filter List.length].
    destruct (SharedAudit.isPublic d), (SharedAudit.isDomainShared d),
      (0 <? SharedAudit.externalCount d)%nat; cbn [negb andb List.length];
      repeat split; lia.
Qed.

Lemma unique_In x a : In x (Arr.unique a) <-> In x a.
Proof.
  induction a as [|y a IH]; cbn [Arr.unique]; [tauto|].
  cbn [In]. rewrite filter_In, IH.
  destruct (String.eqb_spec x y) as [->|Hne].
  - tauto.
  - cbn. intuition congruence.
Qed.

Lemma unique_NoDup a : NoDup (Arr.unique a).
Proof.
  induction a as [|y a IH]; cbn [Arr.unique]; constructor.
  - rewrite filter_In. intros [_ H]. rewrite String.eqb_refl in H. discriminate.
  - now apply NoDup_filter.
Qed.

Lemma filter_shorter {A} (f : A -> bool) l :
  (List.length (filter f l) <= List.length l)%nat.
Proof. induction l as [|x l IH]; cbn; [lia|]. destruct (f x); cbn; lia. Qed.

Lemma unique_length a : (List.length (Arr.unique a) <= List.length a)%nat.
Proof.
  induction a as [|y a IH]; cbn [Arr.unique List.length]; [lia|].
  pose proof (filter_shorter (fun y0 => negb (String.eqb y0 y)) (Arr.unique a)).
  lia.
Qed.

Lemma defined_In d a : In d (SharedAudit.defined a) <-> In (Some d) a.
Proof.
  unfold SharedAudit.defined. rewrite in_flat_map. split.
  - intros ([x|] & Hin & Hx); cbn in Hx; [|tauto].
    destruct Hx as [->|[]]. exact Hin.
  - intros H. exists (Some d). split; [exact H | now left].
Qed.

Lemma defined_length a : (List.length (SharedAudit.defined a) <= List.length a)%nat.
Proof.
  unfold SharedAudit.defined.
  induction a as [|[x|] a IH]; cbn [flat_map app List.length]; lia.
Qed.

(** X15 [extractSharedFileData]: the external domains of a record are
    pairwise distinct, none is empty, none is the domain of the owner, and
    each is the domain of a listed viewer or editor; at most 20 viewers and
    20 editors are listed; a file is never both public and domain-shared. *)
Theorem external_domains_distinct :
  forall (owner_ : string) (file : File),
    let s := SharedAudit.sharingDetails owner_ file in
    NoDup (SharedAudit.sh_externalDomains s)
    /\ Forall (fun domain =>
                 domain <> ""
                 /\ SharedAudit.domainOf owner_ <> Some domain
                 /\ exists user,
                     In user (SharedAudit.sh_viewers s ++ SharedAudit.sh_editors s)%list
                     /\ SharedAudit.domainOf user = Some domain)
              (SharedAudit.sh_externalDomains s)
    /\ (List.length (SharedAudit.sh_viewers s) <= 20)%nat
    /\ (List.length (SharedAudit.sh_editors s) <= 20)%nat
    /\ (List.length (SharedAudit.sh_externalDomains s) <= 40)%nat
    /\ SharedAudit.sh_isPublic s && SharedAudit.sh_isDomainShared s = false.
Proof.
  intros owner_ file. unfold SharedAudit.sharingDetails.
  destruct (getSharingAccess file) as [access|], (getSharingPermission file);
    cbn zeta; try (cbn; repeat split; try constructor; lia).
  assert (Hflags : (String.eqb access "ANYONE" || String.eqb access "ANYONE_WITH_LINK")
                   && (String.eqb access "DOMAIN" || String.eqb access "DOMAIN_WITH_LINK")
                   = false).
  { destruct (String.eqb_spec access "ANYONE") as [->|]; [reflexivity|].
    destruct (String.eqb_spec access "ANYONE_WITH_LINK") as [->|]; reflexivity. }
  destruct (getViewers file) as [vs|], (getEditors file) as [es|];
    cbn [SharedAudit.sh_externalDomains SharedAudit.sh_viewers SharedAudit.sh_editors
         SharedAudit.sh_isPublic SharedAudit.sh_isDomainShared];
    try (repeat split; try constructor; try assumption; cbn; lia).
  repeat split; try assumption.
  - apply unique_NoDup.
  - apply Forall_forall. intros d Hd.
    apply unique_In, defined_In, filter_In in Hd as [Hin Hext].
    apply in_map_iff in Hin as (user & Hdom & Huser).
    unfold SharedAudit.isExternal in Hext.
    apply andb_prop in Hext as [Hne Hown].
    repeat split.
    + intros ->. discriminate.
    + intros Ho. rewrite Ho, String.eqb_refl in Hown. discriminate.
    + now exists user.
  - rewrite length_firstn. lia.
  - rewrite length_firstn. lia.
  - etransitivity; [apply unique_length|].
    etransitivity; [apply defined_length|].
    etransitivity; [apply filter_shorter|].
    rewrite length_map, length_app, !length_firstn. lia.
Qed.
Lemma lower_upper_ascii c : lower_ascii (upper_ascii (lower_ascii c)) = lower_ascii c.
Proof.
  destruct c as [[] [] [] [] [] [] [] []]; vm_compute; reflexivity.
Qed.

(** On a string of ASCII characters, lower-casing undoes upper-casing. *)
Lemma lower_upper_lower s :
  isAscii s = true ->
  toLowerCase (toUpperCase (toLowerCase s)) = toLowerCase s.
Proof.
  induction s as [|c s IH]; cbn [toLowerCase toUpperCase isAscii]; [reflexivity|].
  intros H. apply andb_prop in H as [_ H].
  now rewrite lower_upper_ascii, IH.
Qed.

Lemma isAscii_split sep s :
  isAscii s = true -> Forall (fun part => isAscii part = true) (split sep s).
Proof.
  induction s as [|c s IH]; cbn [split isAscii]; intros H.
  - repeat constructor.
  - apply andb_prop in H as [Hc H]. specialize (IH H).
    destruct (Ascii.eqb c sep); [constructor; [reflexivity | exact IH]|].
    destruct (split sep s) as [|h t].
    + repeat constructor. cbn [isAscii]. now rewrite Hc.
    + inversion IH as [|? ? Hh Ht]; subst.
      constructor; [cbn [isAscii]; now rewrite Hc, Hh | exact Ht].
Qed.

Lemma isAscii_pop l :
  Forall (fun part => isAscii part = true) l -> isAscii (pop l) = true.
Proof.
  unfold pop. induction 1 as [|x l Hx Hl IH]; [reflexivity|].
  destruct l; [exact Hx | exact IH].
Qed.

Lemma assoc_Some_In {V} k (v : V) o : assoc k o = Some v -> In (k, v) o.
Proof.
  induction o as [|[k' v'] o IH]; cbn [assoc]; [discriminate|].
  destruct (String.eqb_spec k k') as [->|]; intros H.
  - injection H as ->. now left.
  - right. now apply IH.
Qed.

Lemma assoc_None_In {V} k (o : list (string * V)) :
  assoc k o = None -> ~ In k (map fst o).
Proof.
  induction o as [|[k' v'] o IH]; cbn [assoc map fst In]; [tauto|].
  destruct (String.eqb_spec k k') as [->|]; [discriminate|].
  intros H [E|Hin]; [congruence | now apply IH].
Qed.

(** X16 [assessSecurityRisk], [getFileType]: the score tests the label
    that [getFileType] gave the file against lower-case extensions.  For a
    file whose name is made of ASCII characters, of the six sensitive types
    only PDF and CSV files have such a label: these get the 10 points, and
    Word and Excel files, whose labels are ['Word Document'] and ['Excel'],
    get none, like every other file.  (A name with a character whose upper
    case is an ASCII letter, like the long s, is outside this statement: its
    extension can miss the table and still lower-case to a sensitive
    type.) *)
Theorem type_points_for_pdf_and_csv :
  forall (fileName mimeType label : string) (fileData : SharedAudit.FileData),
    isAscii fileName = true ->
    SharedAudit.getFileType fileName mimeType = VString label ->
    SharedAudit.type fileData = label ->
    SharedAudit.typePoints fileData
    = if negb (startsWith mimeType FileType.google_prefix)
         && mem (toLowerCase (pop (split "." fileName))) ["pdf"; "csv"]
      then 10 else 0.
Proof.
  intros fileName mimeType label fileData Hascii Hlabel Htype.
  unfold SharedAudit.typePoints. rewrite Htype. clear Htype fileData.
  apply (isAscii_split ".") in Hascii. apply isAscii_pop in Hascii.
  unfold SharedAudit.getFileType, FileType.classify in Hlabel.
  destruct (startsWith mimeType FileType.google_prefix).
  - injection Hlabel as <-. reflexivity.
  - cbn [negb andb].
    set (extension := toLowerCase (pop (split "." fileName))) in *.
    unfold get in Hlabel.
    destruct (assoc extension SharedAudit.typeMap) as [v|] eqn:Ha.
    + apply assoc_Some_In in Ha.
      assert (Hv : truthy (VString v) = true).
      { cbn in Ha. repeat (destruct Ha as [Ha|Ha]; [injection Ha as _ <-; reflexivity|]).
        destruct Ha. }
      cbn [or_else] in Hlabel. rewrite Hv in Hlabel. injection Hlabel as <-.
      cbn in Ha.
      repeat (destruct Ha as [Ha|Ha]; [injection Ha as <- <-; reflexivity|]).
      destruct Ha.
    + apply assoc_None_In in Ha.
      assert (Hpdf : mem extension ["pdf"; "csv"] = false).
      { cbn [mem existsb].
        destruct (String.eqb_spec extension "pdf") as [E|];
          [exfalso; apply Ha; rewrite E; cbn; tauto|].
        destruct (String.eqb_spec extension "csv") as [E|];
          [exfalso; apply Ha; rewrite E; cbn; tauto|].
        reflexivity. }
      rewrite Hpdf.
      destruct (mem extension Object_prototype); [discriminate|].
      cbn [or_else] in Hlabel.
      destruct (truthy (VString (toUpperCase extension))).
      * injection Hlabel as <-. unfold extension at 1.
        rewrite (lower_upper_lower _ Hascii). fold extension.
        unfold SharedAudit.sensitiveTypes. cbn [mem existsb].
        repeat match goal with
               | |- context [String.eqb extension ?t] =>
                   destruct (String.eqb_spec extension t) as [E|];
                     [exfalso; apply Ha; rewrite E; cbn; tauto|]
               end.
        reflexivity.
      * injection Hlabel as <-. reflexivity.
Qed.

Lemma type_points_for_pdf_and_csv_witness :
  let fileData :=
    {| SharedAudit.name := "Q3.docx"; SharedAudit.type := "Word Document";
       SharedAudit.size := 1; SharedAudit.owner := "a@x.org";
       SharedAudit.url := ""; SharedAudit.description := "";
       SharedAudit.folderPath := "Root"; SharedAudit.sharingAccess := "ANYONE";
       SharedAudit.sharingPermission := "VIEW"; SharedAudit.viewers := [];
       SharedAudit.editors := []; SharedAudit.externalDomains := [];
       SharedAudit.isPublic := true; SharedAudit.isDomainShared := false |} in
  SharedAudit.typePoints fileData = 0.
Proof.
  intros fileData.
  exact (type_points_for_pdf_and_csv
           "Q3.docx"
           "application/vnd.openxmlformats-officedocument.wordprocessingml.document"
           "Word Document" fileData eq_refl eq_refl eq_refl).
Defined.
(* ===================================================================== *)
(** ** The large-files finder *)
(* ===================================================================== *)

Lemma large_updates_snoc files d stats :
  LargeFiles.updates (files ++ [d]) stats
  = LargeFiles.update d (LargeFiles.updates files stats).
Proof. unfold LargeFiles.updates. now rewrite fold_left_app. Qed.

Lemma getSizeCategory_other bytes :
  String.eqb (LargeFiles.getSizeCategory bytes) "Other"
  = negb (bytes >=? LargeFiles.CONFIG.SIZE_THRESHOLDS.MEDIUM * LargeFiles.MB).
Proof.
  unfold LargeFiles.getSizeCategory.
  repeat match goal with
         | |- context [if ?c then _ else _] => destruct c eqn:?
         end; try reflexivity.
  all: unfold LargeFiles.CONFIG.SIZE_THRESHOLDS.MEDIUM,
         LargeFiles.CONFIG.SIZE_THRESHOLDS.LARGE,
         LargeFiles.CONFIG.SIZE_THRESHOLDS.VERY_LARGE,
         LargeFiles.CONFIG.SIZE_THRESHOLDS.HUGE, LargeFiles.MB in *.
  all: destruct (Z.geb_spec bytes (10 * (1024 * 1024))); try reflexivity;
    repeat match goal with
           | H : (_ >=? _) = true |- _ => apply Z.geb_le in H
           end; lia.
Qed.

Lemma assoc_bump_other k k' o :
  k' <> k -> assoc k' (Arr.bump k o) = assoc k' o.
Proof.
  intros H. unfold Arr.bump. destruct (assoc k o); now apply assoc_set_other.
Qed.

(** X17 [isLargeFile], [getSizeCategory], [processLargeFile]: the files
    the page filter lets through have 10 MB or more, and [getSizeCategory]
    gives such a file one of its four named categories: the category
    ['Other'] stays without a counter, and the counters of the categories
    add up to [totalFiles]. *)
Theorem no_file_in_category_other :
  forall (now : Date) (files : list LargeFiles.LargeFileData),
    forallb (fun d => LargeFiles.size (LargeFiles.scored d)
                      >=? LargeFiles.CONFIG.SIZE_THRESHOLDS.MEDIUM * LargeFiles.MB)
            files = true ->
    let s := LargeFiles.updates files (LargeFiles.initialStats now) in
    assoc "Other" (LargeFiles.bySizeCategory s) = None
    /\ Arr.total (LargeFiles.bySizeCategory s) = LargeFiles.totalFiles s
    /\ LargeFiles.totalFiles s = Z.of_nat (List.length files)
    /\ (forall (file : File) (bytes : Z),
           getSize file = Ret bytes ->
           LargeFiles.isLargeFile file
           = negb (String.eqb (LargeFiles.getSizeCategory bytes) "Other")).
Proof.
  intros now files. induction files as [|d files IH] using rev_ind; intros Hlarge.
  - cbn. repeat split. intros file bytes H.
    unfold LargeFiles.isLargeFile. rewrite H, getSizeCategory_other.
    now rewrite negb_involutive.
  - rewrite forallb_app in Hlarge. apply andb_prop in Hlarge as [Hfiles Hd].
    cbn [forallb] in Hd. rewrite andb_true_r in Hd.
    destruct (IH Hfiles) as (H1 & H2 & H3 & H4). clear IH.
    cbn zeta. rewrite large_updates_snoc.
    cbn [LargeFiles.update LargeFiles.bySizeCategory LargeFiles.totalFiles].
    repeat split.
    + rewrite assoc_bump_other; [exact H1|].
      intros E. pose proof (getSizeCategory_other (LargeFiles.size (LargeFiles.scored d))) as O.
      rewrite <- E, Hd in O. discriminate.
    + rewrite total_bump, H2. reflexivity.
    + rewrite H3, length_app. cbn [List.length]. lia.
    + exact H4.
Qed.

Lemma no_file_in_category_other_witness :
  let files := [ Samples.largeData "dump.zip" "Archive" 800 (600 * 1024 * 1024) "Private";
                 Samples.largeData "clip.mp4" "Video" 30 (20 * 1024 * 1024) "ANYONE" ] in
  let s := LargeFiles.updates files (LargeFiles.initialStats Samples.now) in
  assoc "Other" (LargeFiles.bySizeCategory s) = None
  /\ Arr.total (LargeFiles.bySizeCategory s) = LargeFiles.totalFiles s
  /\ LargeFiles.totalFiles s = 2.
Proof.
  intros files s.
  destruct (no_file_in_category_other Samples.now files eq_refl) as (H1 & H2 & H3 & _).
  repeat split; assumption.
Defined.

Lemma Forall_pushSortSlice {A} (key : A -> Z) (P : A -> Prop) cap x l :
  P x -> Forall P l -> Forall P (Arr.pushSortSlice key cap x l).
Proof.
  intros Hx Hl. unfold Arr.pushSortSlice. apply Forall_forall. intros y Hy.
  apply firstn_In in Hy.
  apply (Permutation_in _ (sortDesc_perm key _)) in Hy.
  apply in_app_or in Hy as [Hy|[<-|[]]]; [|exact Hx].
  now apply (proj1 (Forall_forall P l) Hl).
Qed.

Lemma no_reason_low_score fileData :
  LargeFiles.getCleanupReasons fileData = [] ->
  LargeFiles.calculateCleanupScore fileData <= 60.
Proof.
  unfold LargeFiles.getCleanupReasons. intros H.
  rewrite calculateCleanupScore_factors.
  pose proof (cleanup_typePoints_range fileData) as Ht.
  unfold LargeFiles.agePoints, LargeFiles.sizePoints, LargeFiles.privatePoints.
  destruct (Z.gtb_spec (LargeFiles.ageInDays fileData) 365); [discriminate|].
  destruct (Z.gtb_spec (LargeFiles.size fileData) (500 * LargeFiles.MB)); [discriminate|].
  destruct (existsb _ LargeFiles.reasonTypes); [discriminate|].
  destruct (String.eqb (LargeFiles.sharingAccess fileData) "Private"); [discriminate|].
  unfold LargeFiles.MB in *.
  repeat match goal with
         | |- context [?x >? ?c] => destruct (Z.gtb_spec x c)
         end; lia.
Qed.

(** X18 [processLargeFile], [calculateCleanupScore], [getCleanupReasons]:
    the cleanup candidates are at most 100, in descending order of score,
    each with a score of 70 to 100 and at least one reason: a file to
    which [getCleanupReasons] gives no reason scores 60 at most. *)
Theorem cleanup_candidates_justified :
  forall (now : Date) (files : list LargeFiles.LargeFileData)
         (fileData : LargeFiles.FileData),
    let s := LargeFiles.updates files (LargeFiles.initialStats now) in
    Forall (fun c => 70 <= LargeFiles.cc_cleanupScore c <= 100
                     /\ (0 < List.length (LargeFiles.cc_reasons c))%nat)
           (LargeFiles.cleanupCandidates s)
    /\ Arr.descending LargeFiles.cc_cleanupScore (LargeFiles.cleanupCandidates s)
    /\ (List.length (LargeFiles.cleanupCandidates s) <= 100)%nat
    /\ match LargeFiles.getCleanupReasons fileData with
       | [] => LargeFiles.calculateCleanupScore fileData <= 60
       | _ :: _ => True
       end.
Proof.
  intros now files fileData. cbn zeta.
  split; [|split; [|split]].
  - induction files as [|d files IH] using rev_ind; [constructor|].
    rewrite large_updates_snoc. cbn [LargeFiles.update LargeFiles.cleanupCandidates].
    destruct (Z.geb_spec (LargeFiles.calculateCleanupScore (LargeFiles.scored d)) 70);
      [|exact IH].
    apply Forall_pushSortSlice; [|exact IH].
    cbn [LargeFiles.cleanupCandidate LargeFiles.cc_cleanupScore LargeFiles.cc_reasons].
    pose proof (calculateCleanupScore_range (LargeFiles.scored d)).
    split; [lia|].
    pose proof (no_reason_low_score (LargeFiles.scored d)) as N.
    destruct (LargeFiles.getCleanupReasons (LargeFiles.scored d)).
    + specialize (N eq_refl). lia.
    + cbn. lia.
  - induction files as [|d files IH] using rev_ind; [constructor|].
    rewrite large_updates_snoc. cbn [LargeFiles.update LargeFiles.cleanupCandidates].
    destruct (_ >=? 70); [apply pushSortSlice_descending | exact IH].
  - induction files as [|d files IH] using rev_ind; [cbn; lia|].
    rewrite large_updates_snoc. cbn [LargeFiles.update LargeFiles.cleanupCandidates].
    destruct (_ >=? 70); [apply pushSortSlice_length | exact IH].
  - pose proof (no_reason_low_score fileData) as N.
    destruct (LargeFiles.getCleanupReasons fileData); [now apply N | exact I].
Qed.

(* ===================================================================== *)
(** ** The code-files inventory *)
(* ===================================================================== *)








(* ===================================================================== *)
(** ** The continuous run of the complete inventory *)
(* ===================================================================== *)

(** The files the iterator of a world has yet to return. *)
Lemma skipn_app_length {A} (pre rest : list A) :
  skipn (List.length pre) (pre ++ rest)%list = rest.
Proof. induction pre; [reflexivity | assumption]. Qed.

Lemma complete_page_progress drive token page rest :
  Complete.getFilesToProcess drive token Complete.CONFIG.BATCH_SIZE = (page, rest) ->
  page <> [] ->
  let files := match token with
               | Some t => continueFileIterator drive t
               | None => drive
               end in
  (List.length rest < List.length files)%nat
  /\ continueFileIterator drive (List.length drive - List.length rest)%nat = rest.
Proof.
  intros Hpage Hne files.
  pose proof (page_splits_listing_aux drive token Complete.CONFIG.BATCH_SIZE) as H.
  cbn zeta in H. rewrite Hpage in H. cbn [fst snd] in H.
  destruct H as ((consumed & Hfiles & Hfilter) & Hresume).
  split; [|exact Hresume].
  fold files in Hfiles. rewrite Hfiles, length_app.
  destruct consumed; [cbn in Hfilter; congruence | cbn; lia].
Qed.

Lemma runInventoryBatch_progress drive now quota w w' r :
  Complete.runInventoryBatch drive now quota w = (w', Ret r) ->
  Complete.hasMore r = true ->
  let remaining v :=
    List.length match Complete.continuationToken (Complete.scriptProperties v) with
                | Some t => continueFileIterator drive t
                | None => drive
                end in
  (remaining w' < remaining w)%nat.
Proof.
  intros Hrun Hmore remaining.
  pose proof (runInventoryBatch_decision drive now quota w w' r Hrun) as D.
  cbn zeta in D. destruct D as (Hd & _ & Ht).
  destruct (Ht Hmore) as [Htoken _].
  destruct (Complete.getFilesToProcess
              drive (Complete.continuationToken (Complete.scriptProperties w))
              Complete.CONFIG.BATCH_SIZE) as [page rest] eqn:Hpage.
  cbn [fst snd] in *.
  assert (Hne : page <> []).
  { intros ->. destruct Hd as [_ Hd]. rewrite Hd in Hmore; [discriminate | now left]. }
  destruct (complete_page_progress drive _ page rest Hpage Hne) as [Hlt Hresume].
  unfold remaining. rewrite Htoken, Hresume. exact Hlt.
Qed.

Lemma loop_enough drive now quota clock startTime :
  forall n m i w,
    let remaining :=
      List.length match Complete.continuationToken (Complete.scriptProperties w) with
                  | Some t => continueFileIterator drive t
                  | None => drive
                  end in
    (remaining < n)%nat -> (remaining < m)%nat ->
    Complete.loop n clock i startTime drive now quota w
    = Complete.loop m clock i startTime drive now quota w.
Proof.
  induction n as [|n IH]; intros m i w remaining Hn Hm; [lia|].
  destruct m as [|m]; [lia|].
  cbn [Complete.loop].
  destruct (clock i - startTime >? Complete.MAX_RUNTIME_MS); [reflexivity|].
  destruct (Complete.runInventoryBatch drive now quota w) as [w' [r|e]] eqn:Hrun;
    [|reflexivity].
  destruct (Complete.hasMore r) eqn:Hmore; [|reflexivity].
  pose proof (runInventoryBatch_progress drive now quota w w' r Hrun Hmore) as P.
  cbv beta zeta in P. fold remaining in P.
  apply IH; lia.
Qed.

Lemma remaining_le drive token :
  (List.length match token with
               | Some t => continueFileIterator drive t
               | None => drive
               end <= List.length drive)%nat.
Proof.
  destruct token; [|lia]. unfold continueFileIterator. rewrite length_skipn. lia.
Qed.

(** X22 [runInventoryContinuously], [runInventoryBatch]: a batch that
    reports more files has moved the stored token forward by at least one
    file, so the loop of the continuous run ends after at most one batch
    more than the listing has files, by completion, by the time limit or by
    an exception; looking at more iterations than that changes nothing. *)
Theorem continuous_run_ends :
  forall (clock : nat -> Z) (drive : list File) (now : Date) (quota : nat)
         (w : Complete.World) (more : nat),
    Complete.loop (S (List.length drive) + more) clock 1 (clock 0%nat)
                  drive now quota w
    = Complete.runInventoryContinuously clock drive now quota w
    /\ forall (w' : Complete.World) (r : Complete.BatchResult),
        Complete.runInventoryBatch drive now quota w = (w', Ret r) ->
        Complete.hasMore r = true ->
        exists t t',
          Complete.continuationToken (Complete.scriptProperties w') = Some t'
          /\ t = match Complete.continuationToken (Complete.scriptProperties w) with
                 | Some t0 => t0
                 | None => 0%nat
                 end
          /\ (t < t' < List.length drive)%nat.
Proof.
  intros clock drive now quota w more. split.
  - unfold Complete.runInventoryContinuously.
    apply loop_enough; pose proof (remaining_le drive
      (Complete.continuationToken (Complete.scriptProperties w))); lia.
  - intros w' r Hrun Hmore.
    pose proof (runInventoryBatch_progress drive now quota w w' r Hrun Hmore) as P.
    pose proof (runInventoryBatch_decision drive now quota w w' r Hrun) as D.
    cbv beta zeta in P. cbn zeta in D. destruct D as (Hd & _ & Ht).
    destruct (Ht Hmore) as [Htoken _].
    rewrite Htoken in P |- *.
    eexists _, _. split; [reflexivity|]. split; [reflexivity|].
    unfold continueFileIterator in P. rewrite length_skipn in P.
    assert (Hrest : snd (Complete.getFilesToProcess drive
                     (Complete.continuationToken (Complete.scriptProperties w))
                     Complete.CONFIG.BATCH_SIZE) <> []).
    { intros E. destruct Hd as [_ Hd]. rewrite Hd in Hmore; [discriminate | now right]. }
    destruct (snd (Complete.getFilesToProcess drive
                     (Complete.continuationToken (Complete.scriptProperties w))
                     Complete.CONFIG.BATCH_SIZE)) as [|f rest]; [congruence|].
    cbn [List.length] in *.
    destruct (Complete.continuationToken (Complete.scriptProperties w)) as [t0|];
      [rewrite length_skipn in P|]; lia.
Qed.
Lemma processFiles_rows now page :
  forall a b stats n m,
    Complete.fileList a = Complete.fileList b ->
    Complete.rowsLeft a = Complete.rowsLeft b ->
    let ra := Complete.processFiles now page a stats n in
    let rb := Complete.processFiles now page b stats m in
    fst (fst ra) = fst (fst rb)
    /\ Complete.fileList (snd (fst ra)) = Complete.fileList (snd (fst rb))
    /\ Complete.rowsLeft (snd (fst ra)) = Complete.rowsLeft (snd (fst rb)).
Proof.
  induction page as [|file page IH]; intros a b stats n m Hl Hr; [cbn; auto|].
  cbn [Complete.processFiles]. unfold Complete.processFileForInventory.
  destruct (Complete.extractFileData file) as [d|e];
    [|cbv iota beta; exact (IH a b _ n m Hl Hr)].
  unfold Complete.addToFileListSheet. rewrite <- Hr.
  destruct (Complete.rowsLeft a) as [|k] eqn:Ha; cbv iota beta;
    [refine (IH a b _ n m Hl _); congruence|].
  refine (IH _ _ _ (S n) (S m) _ _); cbn [Complete.fileList Complete.rowsLeft];
    congruence.
Qed.

Lemma initializeStats_same now stats :
  Complete.startTime stats = toISOString now ->
  Complete.initializeStats now (Some stats) = stats.
Proof.
  intros H. destruct stats. cbn in *. subst.
  destruct (String.eqb (toISOString now) ""); reflexivity.
Qed.

Lemma uninterrupted_startTime now listing sheet :
  Complete.startTime (fst (fst (uninterrupted now listing sheet))) = toISOString now.
Proof. unfold uninterrupted. now rewrite processFiles_startTime. Qed.

Lemma uninterrupted_app now pre consumed sheet :
  uninterrupted now (pre ++ consumed) sheet
  = Complete.processFiles now (filter Complete.shouldIncludeFile consumed)
      (snd (fst (uninterrupted now pre sheet)))
      (fst (fst (uninterrupted now pre sheet)))
      (snd (uninterrupted now pre sheet)).
Proof.
  unfold uninterrupted. rewrite filter_app, complete_processFiles_app.
  destruct (Complete.processFiles now (filter Complete.shouldIncludeFile pre) sheet
              (Complete.initializeStats now None) 0) as [[s sh] n].
  reflexivity.
Qed.

Lemma firstn_prefix {A} (pre rest : list A) :
  firstn (List.length pre) (pre ++ rest) = pre.
Proof.
  rewrite firstn_app, Nat.sub_diag, firstn_all. cbn. apply app_nil_r.
Qed.

Lemma loop_covers clock startTime drive now quota sheet0 :
  (forall i, (clock i - startTime >? Complete.MAX_RUNTIME_MS) = false) ->
  (forall k, fits quota (stringify (Complete.toJson
               (fst (fst (uninterrupted now (firstn k drive) sheet0))))) = true) ->
  forall n i w pre,
    let files := match Complete.continuationToken (Complete.scriptProperties w) with
                 | Some t => continueFileIterator drive t
                 | None => drive
                 end in
    drive = (pre ++ files)%list ->
    Complete.initializeStats now (Complete.inventoryStats (Complete.scriptProperties w))
    = fst (fst (uninterrupted now pre sheet0)) ->
    Complete.fileList (Complete.spreadsheet w)
    = Complete.fileList (snd (fst (uninterrupted now pre sheet0))) ->
    Complete.rowsLeft (Complete.spreadsheet w)
    = Complete.rowsLeft (snd (fst (uninterrupted now pre sheet0))) ->
    (List.length files < n)%nat ->
    exists w',
      Complete.loop n clock i startTime drive now quota w = (w', Ret Complete.Finished)
      /\ Complete.scriptProperties w' = Complete.noProperties
      /\ Complete.statusCell (Complete.spreadsheet w') = Some COMPLETE
      /\ Complete.fileList (Complete.spreadsheet w')
         = Complete.fileList (snd (fst (uninterrupted now drive sheet0)))
      /\ Complete.rowsLeft (Complete.spreadsheet w')
         = Complete.rowsLeft (snd (fst (uninterrupted now drive sheet0)))
      /\ Complete.reports (Complete.spreadsheet w')
         = Some (reportsOf (fst (fst (uninterrupted now drive sheet0)))).
Proof.
  intros Hclock Hquota.
  induction n as [|n IH]; intros i w pre files Hdrive Hstats Hlist Hrows Hn; [lia|].
  cbn [Complete.loop]. rewrite Hclock.
  unfold Complete.runInventoryBatch. rewrite Hstats.
  pose proof (page_splits_listing_aux
                drive (Complete.continuationToken (Complete.scriptProperties w))
                Complete.CONFIG.BATCH_SIZE) as Hsplit.
  pose proof (getFilesToProcess_short
                drive (Complete.continuationToken (Complete.scriptProperties w))) as Hshort.
  cbn zeta in Hsplit, Hshort. fold files in Hsplit.
  destruct (Complete.getFilesToProcess
              drive (Complete.continuationToken (Complete.scriptProperties w))
              Complete.CONFIG.BATCH_SIZE) as [page rest].
  cbn [fst snd] in Hsplit, Hshort.
  destruct Hsplit as ((consumed & Hfiles & Hfilter) & Hresume).
  assert (Hdrive' : drive = ((pre ++ consumed) ++ rest)%list).
  { rewrite Hdrive, Hfiles. apply app_assoc. }
  pose proof (uninterrupted_app now pre consumed sheet0) as Happ.
  rewrite <- Hfilter in Happ.
  destruct (List.length page =? 0)%nat eqn:Hempty.
  - (* no file left for a page *)
    apply Nat.eqb_eq in Hempty.
    assert (Hrest : rest = []).
    { apply Hshort. rewrite Hempty. unfold Complete.CONFIG.BATCH_SIZE. lia. }
    destruct page; [|discriminate]. subst rest.
    rewrite app_nil_r in Hdrive'. rewrite <- Hdrive' in Happ.
    cbn [Complete.processFiles] in Happ.
    eexists. split; [reflexivity|].
    cbn [Complete.scriptProperties Complete.spreadsheet Complete.updateInventoryStatus
         Complete.generateFinalReports Complete.updateOverviewSheet
         Complete.statusCell Complete.fileList Complete.rowsLeft Complete.reports].
    rewrite Happ. cbn [fst snd]. repeat split; assumption.
  - (* a page *)
    pose proof (processFiles_rows now page
                  (Complete.updateInventoryStatus RUNNING (Complete.spreadsheet w))
                  (snd (fst (uninterrupted now pre sheet0)))
                  (fst (fst (uninterrupted now pre sheet0)))
                  0%nat (snd (uninterrupted now pre sheet0)) Hlist Hrows) as R.
    cbn zeta in R. rewrite <- Happ in R.
    destruct (Complete.processFiles now page
                (Complete.updateInventoryStatus RUNNING (Complete.spreadsheet w))
                (fst (fst (uninterrupted now pre sheet0))) 0)
      as [[stats' sheet2] processed].
    cbn [fst snd] in R. destruct R as (Rs & Rl & Rr).
    assert (Hfits : fits quota (stringify (Complete.toJson stats')) = true).
    { rewrite Rs. specialize (Hquota (List.length (pre ++ consumed))).
      rewrite Hdrive' in Hquota. rewrite firstn_prefix in Hquota. exact Hquota. }
    rewrite Hfits.
    destruct rest as [|file rest].
    + (* the last page *)
      rewrite app_nil_r in Hdrive'. rewrite <- Hdrive' in Rs, Rl, Rr.
      cbn [Complete.hasMore].
      eexists. split; [reflexivity|].
      cbn [Complete.scriptProperties Complete.spreadsheet Complete.updateInventoryStatus
           Complete.generateFinalReports Complete.updateOverviewSheet
           Complete.statusCell Complete.fileList Complete.rowsLeft Complete.reports].
      rewrite <- Rs. repeat split; assumption.
    + (* more files: the next iteration *)
      cbn [Complete.hasMore].
      assert (Hpage : page <> []) by (destruct page; [discriminate | congruence]).
      assert (Hconsumed : (0 < List.length consumed)%nat).
      { destruct consumed; [cbn in Hfilter; congruence | cbn; lia]. }
      match goal with
      | |- context [Complete.loop n clock (S i) startTime drive now quota ?w1] =>
          destruct (IH (S i) w1 (pre ++ consumed)%list) as (w' & E & P)
      end.
      * cbn [Complete.scriptProperties Complete.continuationToken].
        rewrite Hresume. exact Hdrive'.
      * cbn [Complete.scriptProperties Complete.inventoryStats].
        rewrite initializeStats_same; [exact Rs|].
        rewrite Rs. apply uninterrupted_startTime.
      * exact Rl.
      * exact Rr.
      * cbn [Complete.scriptProperties Complete.continuationToken].
        rewrite Hresume. rewrite Hfiles, length_app in Hn. cbn [List.length] in *. lia.
      * exists w'. split; [exact E | exact P].
Qed.
(** X23 [runInventoryContinuously], [runInventoryBatch], [inventoryDrive]:
    started without a checkpoint, with a clock that stays within the time
    limit and a property store that takes the statistics of every prefix of
    the listing, the continuous run ends with the inventory complete: the
    properties are deleted, the status reads COMPLETE, and the file list
    and the reports are those of one uninterrupted pass over the files of
    the listing that [shouldIncludeFile] accepts.  Every such file has been
    processed exactly once, however the listing was cut into pages. *)
Theorem inventory_covers_listing :
  forall (clock : nat -> Z) (drive : list File) (now : Date) (quota : nat)
         (w : Complete.World),
    Complete.continuationToken (Complete.scriptProperties w) = None ->
    Complete.inventoryStats (Complete.scriptProperties w) = None ->
    (forall i, (clock i - clock 0%nat >? Complete.MAX_RUNTIME_MS) = false) ->
    forallb (fun k => fits quota (stringify (Complete.toJson
                        (fst (fst (uninterrupted now (firstn k drive)
                                                 (Complete.spreadsheet w)))))))
            (seq 0 (S (List.length drive))) = true ->
    exists w',
      Complete.runInventoryContinuously clock drive now quota w
      = (w', Ret Complete.Finished)
      /\ (Complete.isAutoMode w = true ->
          Complete.inventoryDrive clock drive now quota w = (w', Ret tt))
      /\ Complete.scriptProperties w' = Complete.noProperties
      /\ Complete.statusCell (Complete.spreadsheet w') = Some COMPLETE
      /\ Complete.fileList (Complete.spreadsheet w')
         = Complete.fileList
             (snd (fst (uninterrupted now drive (Complete.spreadsheet w))))
      /\ Complete.reports (Complete.spreadsheet w')
         = Some (reportsOf
                   (fst (fst (uninterrupted now drive (Complete.spreadsheet w))))).
Proof.
  intros clock drive now quota w Htoken Hstats Hclock Hquota.
  assert (Hq : forall k, fits quota (stringify (Complete.toJson
                 (fst (fst (uninterrupted now (firstn k drive)
                                          (Complete.spreadsheet w)))))) = true).
  { intros k. rewrite forallb_forall in Hquota.
    destruct (Nat.le_gt_cases k (List.length drive)) as [Hk|Hk].
    - apply Hquota, in_seq. lia.
    - rewrite firstn_all2 by lia. rewrite <- (firstn_all drive) at 1.
      apply Hquota, in_seq. lia. }
  destruct (loop_covers clock (clock 0%nat) drive now quota (Complete.spreadsheet w)
              Hclock Hq (S (List.length drive)) 1%nat w [])
    as (w' & E & P & S & L & _ & R).
  - rewrite Htoken. reflexivity.
  - rewrite Hstats. reflexivity.
  - reflexivity.
  - reflexivity.
  - rewrite Htoken. lia.
  - exists w'. unfold Complete.runInventoryContinuously.
    split; [exact E|]. split; [|repeat split; assumption].
    intros Hauto. unfold Complete.inventoryDrive, Complete.runInventoryContinuously.
    rewrite Hauto, E. reflexivity.
Qed.

Lemma inventory_covers_listing_witness :
  let drive := repeat Samples.tiny 120 in
  let pass := uninterrupted Samples.now drive Samples.emptySheet in
  exists w',
    Complete.runInventoryContinuously (fun _ => 0) drive Samples.now (2 * Samples.quota)%nat
                                      Samples.freshWorld
    = (w', Ret Complete.Finished)
    /\ Complete.scriptProperties w' = Complete.noProperties
    /\ Complete.statusCell (Complete.spreadsheet w') = Some COMPLETE
    /\ Complete.fileList (Complete.spreadsheet w') = Complete.fileList (snd (fst pass))
    /\ Complete.reports (Complete.spreadsheet w') = Some (reportsOf (fst (fst pass))).
Proof.
  intros drive pass.
  destruct (inventory_covers_listing (fun _ => 0) drive Samples.now (2 * Samples.quota)%nat
              Samples.freshWorld eq_refl eq_refl (fun _ => eq_refl))
    as (w' & E & _ & P & S & L & R).
  - vm_compute. reflexivity.
  - exists w'. repeat split; assumption.
Defined.
(* ===================================================================== *)
(** ** Pages of the shared-files audit *)
(* ===================================================================== *)

Lemma shared_fill_split batchSize maxCheck files count checked acc :
  (count <= batchSize)%nat -> (checked <= maxCheck)%nat ->
  let '(page, rest) := SharedAudit.fill batchSize maxCheck files count checked acc in
  exists consumed,
    files = (consumed ++ rest)%list
    /\ page = (acc ++ filter SharedAudit.isSharedFile consumed)%list
    /\ (List.length page + count <= List.length acc + batchSize)%nat
    /\ (List.length consumed + checked <= maxCheck)%nat.
Proof.
  revert count checked acc.
  induction files as [|file files IH]; intros count checked acc Hc Hk;
    cbn [SharedAudit.fill].
  - exists []. cbn. rewrite app_nil_r. repeat split; lia.
  - destruct (Nat.ltb_spec count batchSize); cbn [andb].
    2:{ exists []. cbn. rewrite app_nil_r. repeat split; lia. }
    destruct (Nat.ltb_spec checked maxCheck).
    2:{ exists []. cbn. rewrite app_nil_r. repeat split; lia. }
    destruct (SharedAudit.isSharedFile file) eqn:Hshared.
    + specialize (IH (S count) (S checked) (acc ++ [file])%list ltac:(lia) ltac:(lia)).
      destruct (SharedAudit.fill _ _ files _ _ _) as [page rest].
      destruct IH as (consumed & -> & -> & Hl & Hm).
      exists (file :: consumed). cbn [filter]. rewrite Hshared.
      rewrite <- app_assoc. cbn [app List.length].
      rewrite !length_app in *. cbn [List.length] in *.
      repeat split; lia.
    + specialize (IH count (S checked) acc ltac:(lia) ltac:(lia)).
      destruct (SharedAudit.fill _ _ files _ _ _) as [page rest].
      destruct IH as (consumed & -> & -> & Hl & Hm).
      exists (file :: consumed). cbn [filter]. rewrite Hshared.
      cbn [app List.length]. repeat split; lia.
Qed.

(** X24 [getSharedFilesToProcess], [isSharedFile]: a page of the audit
    holds at most [batchSize] files, in the order of the listing, each
    with a sharing access that can be read and is not ['PRIVATE']; a file
    whose sharing access cannot be read is passed over without an error.
    No more than ten times [batchSize] files are taken from the iterator
    for one page. *)
Theorem shared_page_bounds :
  forall (drive : list File) (token : option Token) (batchSize : nat),
    let files := match token with
                 | Some t => continueFileIterator drive t
                 | None => drive
                 end in
    let page := fst (SharedAudit.getSharedFilesToProcess drive token batchSize) in
    let iterator := snd (SharedAudit.getSharedFilesToProcess drive token batchSize) in
    (exists consumed,
        files = (consumed ++ iterator)%list
        /\ page = filter SharedAudit.isSharedFile consumed
        /\ (List.length consumed <= batchSize * 10)%nat)
    /\ (List.length page <= batchSize)%nat
    /\ Forall (fun file => exists access,
                   getSharingAccess file = Ret access
                   /\ String.eqb access "PRIVATE" = false) page.
Proof.
  intros drive token batchSize files page iterator.
  pose proof (shared_fill_split batchSize (batchSize * 10) files 0 0 []
                (Nat.le_0_l _) (Nat.le_0_l _)) as H.
  unfold page, iterator, SharedAudit.getSharedFilesToProcess. fold files.
  destruct (SharedAudit.fill _ _ files _ _ _) as [p r]. cbn [fst snd].
  destruct H as (consumed & Hf & Hp & Hl & Hm). cbn [app List.length] in *.
  split; [exists consumed; repeat split; try assumption; lia|].
  split; [lia|].
  subst p. apply Forall_forall. intros f Hin. apply filter_In in Hin as [_ Hs].
  unfold SharedAudit.isSharedFile in Hs.
  destruct (getSharingAccess f) as [access|]; [|discriminate].
  exists access. split; [reflexivity|]. now apply negb_true_iff.
Qed.

(* ===================================================================== *)
(** ** The optimized run and the last page *)
(* ===================================================================== *)

Lemma batches_never_finish drive now clock startTime token page rest :
  Optimized.getFilesToProcess drive token Optimized.CONFIG.BATCH_SIZE = (page, rest) ->
  (List.length page =? 0)%nat = false ->
  (List.length rest =? 0)%nat = false ->
  forall iterations i w stats,
    match Optimized.batches iterations clock i startTime drive now token w stats with
    | Some (_, _, Ret Optimized.Finished) => False
    | Some (w', _, _) => Optimized.finalReports w' = Optimized.finalReports w
    | None => True
    end.
Proof.
  intros Hpage Hsome Hmore.
  induction iterations as [|iterations IH]; intros i w stats; [exact I|].
  cbn [Optimized.batches]. rewrite Hpage, Hsome.
  destruct (Optimized.processFiles now page _ stats 0) as [[[stats' sheet1] n] [[]|e]];
    [|reflexivity].
  destruct rest as [|file rest]; [discriminate|].
  destruct (clock i - startTime >? 300 * 1000); [reflexivity|].
  match goal with
  | |- context [Optimized.batches iterations clock (S i) startTime drive now token ?w3 ?s] =>
      specialize (IH (S i) w3 s);
        destruct (Optimized.batches iterations clock (S i) startTime drive now token w3 s)
        as [[[w' s'] [[]|e]]|]
  end; exact IH.
Qed.

(** X25 [runOptimizedInventory], [inventoryDriveLarge]: an invocation that
    finds more than 200 files at its token never gets to the final reports:
    however long it runs, it ends by scheduling the next run or with an
    exception.  [inventoryDriveLarge], which deletes the stored token
    first, therefore never writes the final reports of a Drive of more than
    200 files. *)
Theorem large_listing_never_finished :
  forall (iterations : nat) (clock : nat -> Z) (drive : list File) (now : Date)
         (w : Optimized.World),
    let files := match Optimized.continuationToken w with
                 | Some t => continueFileIterator drive t
                 | None => drive
                 end in
    (Optimized.CONFIG.BATCH_SIZE <? List.length files)%nat = true ->
    match Optimized.runOptimizedInventory iterations clock drive now w with
    | Some (_, Ret Optimized.Finished) => False
    | Some (w', _) => Optimized.finalReports w' = Optimized.finalReports w
    | None => True
    end
    /\ ((Optimized.CONFIG.BATCH_SIZE <? List.length drive)%nat = true ->
        match Optimized.inventoryDriveLarge iterations clock drive now w with
        | Some w' => Optimized.finalReports w' = Optimized.finalReports w
        | None => True
        end).
Proof.
  assert (H : forall iterations clock drive now w,
             (Optimized.CONFIG.BATCH_SIZE
              <? List.length match Optimized.continuationToken w with
                             | Some t => continueFileIterator drive t
                             | None => drive
                             end)%nat = true ->
             match Optimized.runOptimizedInventory iterations clock drive now w with
             | Some (_, Ret Optimized.Finished) => False
             | Some (w', _) => Optimized.finalReports w' = Optimized.finalReports w
             | None => True
             end).
  { intros iterations clock drive now w Hmore. apply Nat.ltb_lt in Hmore.
    change Optimized.CONFIG.BATCH_SIZE with 200%nat in Hmore.
    pose proof (optimized_getFilesToProcess drive (Optimized.continuationToken w)
                  Optimized.CONFIG.BATCH_SIZE) as Hpage.
    cbn zeta in Hpage.
    unfold Optimized.runOptimizedInventory. cbn [Optimized.initializeStatsInSheet].
    match goal with
    | |- context [Optimized.batches iterations clock 1 ?st drive now ?tok ?w1 ?s] =>
        pose proof (batches_never_finish drive now clock st tok _ _ Hpage) as B;
          specialize (B ltac:(rewrite length_firstn; apply Nat.eqb_neq;
                              change Optimized.CONFIG.BATCH_SIZE with 200%nat; lia)
                        ltac:(rewrite length_skipn; apply Nat.eqb_neq;
                              change Optimized.CONFIG.BATCH_SIZE with 200%nat; lia)
                        iterations 1%nat w1 s);
          destruct (Optimized.batches iterations clock 1 st drive now tok w1 s)
          as [[[w' s'] [[]|e]]|]
    end; exact B. }
  intros iterations clock drive now w files Hmore. split; [now apply H|].
  intros Hdrive. unfold Optimized.inventoryDriveLarge.
  specialize (H iterations clock drive now (Optimized.resetInventoryProgress w) Hdrive).
  destruct (Optimized.runOptimizedInventory iterations clock drive now
              (Optimized.resetInventoryProgress w)) as [[w' [[]|e]]|]; try exact H.
  destruct H.
Qed.

Lemma large_listing_never_finished_witness :
  match Optimized.runOptimizedInventory 3 (Samples.every 150000)
                                        (repeat Samples.tiny 201) Samples.now
                                        Samples.optimizedWorld with
  | Some (_, Ret Optimized.Finished) => False
  | Some (w', _) =>
      Optimized.finalReports w' = Optimized.finalReports Samples.optimizedWorld
  | None => True
  end.
Proof.
  pose proof (large_listing_never_finished 3 (Samples.every 150000)
                (repeat Samples.tiny 201) Samples.now Samples.optimizedWorld) as H.
  cbv zeta in H. specialize (H eq_refl). destruct H as [H _].
  set (run := Optimized.runOptimizedInventory _ _ _ _ _) in *.
  exact H.
Defined.
